(** * Baserow MCP server: allow list, table service, composite workflows
      and response shaping

    A shallow embedding of the TypeScript sources

    - [src/security/allowList.ts]   (AllowListManager),
    - [src/baserow/tables.ts]       (TablesService),
    - [src/baserow/client.ts]       (BaserowClient),
    - [src/mcp/handler.ts]          (simplifyRecord, simplifyResponse,
                                     MCPHandler),
    - [src/types/mcp.ts]            (the request schemas),
    - [src/utils/filters.ts]        (the filter utilities),
    - the Cloudflare worker         (MCPServer.processBPR),

    followed by the properties of the specification stated over it.

    Conventions.  JavaScript values are the inductive [JSValue]; numbers
    are the integers [Z] (identifiers, counts, sizes and option codes are
    the only numbers any modelled branch inspects; other numeric payloads
    are carried through unchanged).  A JavaScript object and a [Map] are
    association lists in enumeration order; the keys of an object are
    distinct, and where the code builds an object by assignment the model
    follows the setter of [__proto__].  Strings are [string]; the
    built-ins [String.prototype.toLowerCase], [parseFloat] and the length
    of [JSON.stringify] are parameters of the development.  Asynchronous
    code is sequential here: every [await] is a bind of the monad [M],
    whose state is the list of outbound calls issued so far, and the
    remote store is an oracle answering each call.  Calls to the logger
    do not influence control flow; they are modelled in [initialize], where
    the specification speaks of them, and left out elsewhere.  Of the
    white space [parseInt] skips, the model knows the ASCII characters. *)

From Stdlib Require Import ZArith List String Ascii Bool Lia DecimalString.
Import ListNotations.

Open Scope string_scope.
Open Scope Z_scope.

(* ====================================================================== *)
(** * Part I.  Definitions                                                 *)
(* ====================================================================== *)

(** ** JavaScript values *)

#[local] Set Warnings "-register-all".

Inductive JSValue : Type :=
| VUndef
| VNull
| VBool (b : bool)
| VNum (n : Z)
| VStr (s : string)
| VArr (items : list JSValue)
| VObj (props : list (string * JSValue)).

(** An object literal or the payload of a request: keys in enumeration
    order. *)
Definition JSObject : Type := list (string * JSValue).

(** ToBoolean. *)
Definition truthy (v : JSValue) : bool :=
  match v with
  | VUndef | VNull => false
  | VBool b => b
  | VNum n => negb (n =? 0)
  | VStr s => negb (s =? "")%string
  | VArr _ | VObj _ => true
  end.

(** [a || b]. *)
Definition jsOr (a b : JSValue) : JSValue := if truthy a then a else b.

(** [m.get(k)] on an association list: the first binding of [k]. *)
Fixpoint assoc {A : Type} (k : string) (m : list (string * A)) : option A :=
  match m with
  | [] => None
  | (k', v) :: rest => if (k' =? k)%string then Some v else assoc k rest
  end.

(** [m.has(k)]. *)
Definition has {A : Type} (k : string) (m : list (string * A)) : bool :=
  match assoc k m with Some _ => true | None => false end.

(** [m.set(k, v)] of a JavaScript [Map]: an existing key keeps its place
    in the iteration order and gets the new value; a new key goes last. *)
Fixpoint mapSet {A : Type} (k : string) (v : A) (m : list (string * A))
  : list (string * A) :=
  match m with
  | [] => [(k, v)]
  | (k', v') :: rest =>
      if (k' =? k)%string then (k, v) :: rest else (k', v') :: mapSet k v rest
  end.

(** The same three operations for a [Map] keyed by numbers. *)
Fixpoint assocZ {A : Type} (k : Z) (m : list (Z * A)) : option A :=
  match m with
  | [] => None
  | (k', v) :: rest => if k' =? k then Some v else assocZ k rest
  end.

Definition hasZ {A : Type} (k : Z) (m : list (Z * A)) : bool :=
  match assocZ k m with Some _ => true | None => false end.

Fixpoint mapSetZ {A : Type} (k : Z) (v : A) (m : list (Z * A))
  : list (Z * A) :=
  match m with
  | [] => [(k, v)]
  | (k', v') :: rest =>
      if k' =? k then (k, v) :: rest else (k', v') :: mapSetZ k v rest
  end.

(** [v[k]] and [v?.[k]] for a property name that no primitive, array or
    string carries ([id], [value]): the property of an object, [undefined]
    for everything else. *)
Definition getProp (v : JSValue) (k : string) : JSValue :=
  match v with
  | VObj o => match assoc k o with Some x => x | None => VUndef end
  | _ => VUndef
  end.

(** [typeof item === 'object' && item !== null && 'id' in item]. *)
Definition isObjectWithId (item : JSValue) : bool :=
  match item with
  | VObj o => has "id" o
  | _ => false
  end.

(** [xs.includes(x)] on a list of strings and on a list of numbers. *)
Definition includesStr (xs : list string) (x : string) : bool :=
  existsb (fun y => (y =? x)%string) xs.

Definition includesZ (xs : list Z) (x : Z) : bool :=
  existsb (fun y => y =? x) xs.

(** [s.includes(sub)]: [sub] occurs in [s] as a contiguous substring. *)
Fixpoint includes (s sub : string) : bool :=
  String.prefix sub s
  || match s with
     | EmptyString => false
     | String _ s' => includes s' sub
     end.

(** [xs.push(x)]. *)
Definition push {A : Type} (xs : list A) (x : A) : list A := app xs [x].

(** [xs.join(sep)] on strings. *)
Fixpoint join (sep : string) (xs : list string) : string :=
  match xs with
  | [] => ""
  | [x] => x
  | x :: rest => x ++ sep ++ join sep rest
  end.

(** Number to string, as a template literal or [String(n)] prints an
    integer (decimal digits, a leading minus sign). *)
Definition numberToString (z : Z) : string :=
  NilZero.string_of_int (Z.to_int z).

(** [String(v)]. *)
Fixpoint toStr (v : JSValue) : string :=
  match v with
  | VUndef => "undefined"
  | VNull => "null"
  | VBool true => "true"
  | VBool false => "false"
  | VNum n => numberToString n
  | VStr s => s
  | VArr items =>
      join "," (map (fun x => match x with
                              | VUndef | VNull => ""
                              | _ => toStr x
                              end) items)
  | VObj _ => "[object Object]"
  end.

(** ** parseInt(s, 10) *)

Definition isWhiteSpace (c : ascii) : bool :=
  let n := nat_of_ascii c in
  ((n =? 9) || (n =? 10) || (n =? 11) || (n =? 12) || (n =? 13)
   || (n =? 32))%nat.

Fixpoint trimStart (s : string) : string :=
  match s with
  | EmptyString => EmptyString
  | String c s' => if isWhiteSpace c then trimStart s' else s
  end.

Definition digitOf (c : ascii) : option Z :=
  let n := nat_of_ascii c in
  if ((48 <=? n) && (n <=? 57))%nat then Some (Z.of_nat n - 48) else None.

(** The longest prefix of decimal digits, read as a number; [acc] is
    [None] until a first digit has been seen. *)
Fixpoint digitsPrefix (s : string) (acc : option Z) : option Z :=
  match s with
  | EmptyString => acc
  | String c s' =>
      match digitOf c with
      | Some d =>
          digitsPrefix s' (Some (10 * match acc with Some a => a | None => 0 end + d))
      | None => acc
      end
  end.

(** [parseInt(s, 10)]; [None] is [NaN].  Leading white space is skipped,
    one sign is read, then the longest run of digits; whatever follows the
    digits is ignored. *)
Definition parseInt (s : string) : option Z :=
  match trimStart s with
  | String "-"%char r => option_map Z.opp (digitsPrefix r None)
  | String "+"%char r => digitsPrefix r None
  | s1 => digitsPrefix s1 None
  end.

(** ** Errors and results *)

Inductive JSError : Type :=
| UnauthorizedTableAccessError (tableName : string)
| BaserowApiError (message : string) (statusCode : Z) (responseBody : JSValue)
| BaserowConnectionError (message : string)
| ValidationError (message : string)
| TypeError (message : string)
| GenericError (message : string).

Inductive Result (A : Type) : Type :=
| Ok (a : A)
| Throw (e : JSError).

Arguments Ok {A} a.
Arguments Throw {A} e.

Definition isThrow {A : Type} (r : Result A) : bool :=
  match r with Ok _ => false | Throw _ => true end.

(** ** types/mcp.ts *)

Definition ALLOWED_TABLE_NAMES : list string :=
  [ "manufacturing_orders"; "mo_parts_usage"; "raw_material_lots";
    "inventory_transactions"; "finished_goods"; "cycle_counts";
    "fg_parts_mapping"; "label_inventory"; "parts" ].

Record TableInfo : Type := mkTableInfo {
  ti_name : string;
  ti_id : Z;
  ti_description : string;
}.

Record BaserowRecord : Type := mkRecord {
  id : Z;
  order : string;
  fields : JSObject;   (* the entries other than id and order *)
}.

Record BaserowListResponse : Type := mkListResponse {
  count : Z;
  next : option string;        (* None is null *)
  previous : option string;
  results : list BaserowRecord;
  _note : option string;       (* set by simplifyResponse only *)
}.

Record PartsUsageItem : Type := mkPartsUsageItem {
  bom_id : Z;
  quantity : Z;
  lot_id : option Z;
  lot_number : option string;
  label_id : option Z;
  label_code : option string;
  waste : option Z;
  notes : option string;
}.

Record BOMItem : Type := mkBOMItem {
  mapping_id : Z;
  part_id : JSValue;
  part_name : JSValue;
  quantity_per_unit : JSValue;
  part_role : JSValue;
}.

Record GetBOMResponse : Type := mkGetBOMResponse {
  fg_id : Z;
  fg_isku : JSValue;
  parts : list BOMItem;
  total_parts : nat;
}.

Record ProcessBPRResponse : Type := mkProcessBPRResponse {
  bpr_success : bool;
  mo_id : Z;
  mo_number : string;
  parts_usage_created : nat;
  parts_usage_ids : list Z;
  mo_updated : bool;
  summary : string;
}.

Record PartSearchResult : Type := mkPartSearchResult {
  sr_part_id : Z;
  sr_part_name : string;
  search_term : string;
  found : bool;
}.

Record SearchPartsResponse : Type := mkSearchPartsResponse {
  sp_results : list PartSearchResult;
  found_count : nat;
  not_found : list string;
}.

Record Metadata : Type := mkMetadata {
  md_count : Z;
  md_page : Z;
  md_size : Z;
  md_next : option string;
  md_previous : option string;
}.

Inductive ResponseData : Type :=
| DTables (tables : list TableInfo)
| DList (r : BaserowListResponse)
| DRecord (r : BaserowRecord)
| DDeleted (record_id : Z)
| DBom (r : GetBOMResponse)
| DBpr (r : ProcessBPRResponse)
| DSearch (r : SearchPartsResponse).

Inductive MCPResponse : Type :=
| Success (data : ResponseData) (metadata : option Metadata)
| ErrorResponse (code : string) (message : string) (details : option JSValue).

(** ** security/allowList.ts *)

Record TableConfig : Type := mkTableConfig {
  name : string;
  envKey : string;
  description : string;
}.

Definition TABLE_CONFIGS : list TableConfig :=
  [ mkTableConfig "manufacturing_orders" "TABLE_ID_MANUFACTURING_ORDERS"
      "Manufacturing Orders (MO) for tracking production lifecycle";
    mkTableConfig "mo_parts_usage" "TABLE_ID_MO_PARTS_USAGE"
      "Parts consumption records for manufacturing orders";
    mkTableConfig "raw_material_lots" "TABLE_ID_RAW_MATERIAL_LOTS"
      "Raw material lot tracking and traceability";
    mkTableConfig "inventory_transactions" "TABLE_ID_INVENTORY_TRANSACTIONS"
      "Inventory movement and transaction logs";
    mkTableConfig "finished_goods" "TABLE_ID_FINISHED_GOODS"
      "Finished product inventory tracking";
    mkTableConfig "cycle_counts" "TABLE_ID_CYCLE_COUNTS"
      "Inventory cycle count records";
    mkTableConfig "fg_parts_mapping" "TABLE_ID_FG_PARTS_MAPPING"
      "Finished Goods to Parts BOM mapping";
    mkTableConfig "label_inventory" "TABLE_ID_LABEL_INVENTORY"
      "Label inventory tracking by label code";
    mkTableConfig "parts" "TABLE_ID_PARTS"
      "Parts/Components/Raw Materials master table" ].

(** [process.env]: a variable is unset ([None]) or holds a string. *)
Definition Env : Type := string -> option string.

Inductive LogLevel : Type := LDebug | LInfo | LWarn | LError.

Definition LogEntry : Type := (LogLevel * string)%type.

(** The two private fields of the class. *)
Record AllowListManager : Type := mkAllowList {
  tableMap : list (string * TableInfo);
  initialized : bool;
}.

(** [new AllowListManager()]. *)
Definition newAllowListManager : AllowListManager :=
  {| tableMap := []; initialized := false |}.

(** What [initialize] leaves behind: how it ended, the manager's fields
    and the lines handed to the logger. *)
Record InitOutcome : Type := mkInitOutcome {
  init_result : Result unit;
  init_manager : AllowListManager;
  init_log : list LogEntry;
}.

(** [!tableIdStr]: the variable is unset or empty. *)
Definition isMissing (tableIdStr : option string) : bool :=
  match tableIdStr with
  | None => true
  | Some s => (s =? "")%string
  end.

(** [isNaN(tableId) || tableId <= 0] on [parseInt(tableIdStr, 10)]. *)
Definition isInvalidId (tableIdStr : string) : bool :=
  match parseInt tableIdStr with
  | None => true
  | Some tableId => tableId <=? 0
  end.

(** The [for (const config of TABLE_CONFIGS)] loop of [initialize]: the
    table map, the list of missing tables and the log are the loop's
    state; a malformed identifier throws out of the loop and leaves the
    map as it was at that point. *)
Fixpoint registerTables (env : Env) (configs : list TableConfig)
    (tm : list (string * TableInfo)) (missingTables : list string)
    (log : list LogEntry)
  : Result (list string) * list (string * TableInfo) * list LogEntry :=
  match configs with
  | [] => (Ok missingTables, tm, log)
  | config :: rest =>
      match env (envKey config) with
      | None =>
          registerTables env rest tm
            (push missingTables (name config ++ " (" ++ envKey config ++ ")"))
            log
      | Some tableIdStr =>
          if (tableIdStr =? "")%string then
            registerTables env rest tm
              (push missingTables (name config ++ " (" ++ envKey config ++ ")"))
              log
          else
            match parseInt tableIdStr with
            | None =>
                (Throw (GenericError
                          ("Invalid table ID for " ++ name config ++ ": "
                           ++ tableIdStr ++ " - must be a positive integer")),
                 tm, log)
            | Some tableId =>
                if tableId <=? 0 then
                  (Throw (GenericError
                            ("Invalid table ID for " ++ name config ++ ": "
                             ++ tableIdStr ++ " - must be a positive integer")),
                   tm, log)
                else
                  registerTables env rest
                    (mapSet (name config)
                       (mkTableInfo (name config) tableId (description config)) tm)
                    missingTables
                    (push log (LDebug, "Registered table: " ++ name config
                                       ++ " -> ID " ++ numberToString tableId))
            end
      end
  end.

(** [AllowListManager.initialize]. *)
Definition initialize (env : Env) (m : AllowListManager) : InitOutcome :=
  if initialized m then
    mkInitOutcome (Ok tt) m [(LWarn, "AllowListManager already initialized")]
  else
    match registerTables env TABLE_CONFIGS (tableMap m) [] [] with
    | (Throw e, tm, log) =>
        mkInitOutcome (Throw e) {| tableMap := tm; initialized := false |} log
    | (Ok missingTables, tm, log) =>
        let log1 :=
          match missingTables with
          | [] => log
          | _ :: _ =>
              push log (LWarn,
                        "Missing table configurations (these tables will be unavailable): "
                        ++ join ", " missingTables)
          end in
        match tm with
        | [] =>
            mkInitOutcome
              (Throw (GenericError
                 "No tables configured. Please set at least one TABLE_ID_* environment variable."))
              {| tableMap := tm; initialized := false |} log1
        | _ :: _ =>
            mkInitOutcome (Ok tt) {| tableMap := tm; initialized := true |}
              (push log1 (LInfo, "AllowListManager initialized with "
                                 ++ numberToString (Z.of_nat (List.length tm))
                                 ++ " tables"))
        end
    end.

(** [AllowListManager.isTableAllowed]. *)
Definition isTableAllowed (m : AllowListManager) (tableName : string)
  : Result bool :=
  if negb (initialized m) then
    Throw (GenericError "AllowListManager not initialized")
  else
    let isAllowed := includesStr ALLOWED_TABLE_NAMES tableName in
    let isConfigured := has tableName (tableMap m) in
    Ok (isAllowed && isConfigured).

(** [AllowListManager.getTableId]. *)
Definition getTableId (m : AllowListManager) (tableName : string) : Result Z :=
  match isTableAllowed m tableName with
  | Throw e => Throw e
  | Ok false => Throw (UnauthorizedTableAccessError tableName)
  | Ok true =>
      match assoc tableName (tableMap m) with
      | None => Throw (UnauthorizedTableAccessError tableName)
      | Some tableInfo => Ok (ti_id tableInfo)
      end
  end.

(** [AllowListManager.getAllowedTables]. *)
Definition getAllowedTables (m : AllowListManager) : Result (list TableInfo) :=
  if negb (initialized m) then
    Throw (GenericError "AllowListManager not initialized")
  else Ok (map snd (tableMap m)).

(** The reading of "identifier that is a positive integer" that the
    specification's wording suggests: a non-empty string of decimal digits
    whose value is positive.  Used only to state the claim as written. *)
Definition allDigits (s : string) : bool :=
  forallb (fun c => match digitOf c with Some _ => true | None => false end)
          (list_ascii_of_string s).

Definition isPositiveIntegerLiteral (s : string) : bool :=
  negb (s =? "")%string && allDigits s
  && match parseInt s with Some n => 0 <? n | None => false end.

(** ** mcp/handler.ts: response size limits *)

Definition MAX_RESPONSE_CHARS : Z := 50000.
Definition MAX_RECORDS_PER_PAGE : nat := 25.

Definition FIELDS_TO_SIMPLIFY : list string :=
  [ "AMAZON SALES & INVENTORY"; "ShipStation SKU Mapping";
    "TikTok Sales & Inventory"; "Walmart Sales & Inventory - Finished Goods";
    "FBA Inventory Qty"; "WH Inventory Qty"; "Amazon Inventory Health";
    "Fulfillment Orders"; "Manufacturing Orders"; "FG Parts Mapping";
    "Inventory Transactions"; "MO Parts Usage"; "Cycle Count Log";
    "Kit Components Mapping"; "Kit Parts Mapping"; "Kitting Orders";
    "Mo Plan"; "Mo Plan 2"; "IHF Order Summary By Day";
    "Manufacturing Batches"; "FO Plan (Multi-Channel) v2";
    "IHF Sales & Inventory"; "Receiving Log"; "Count Cycle Schedule";
    "Labels"; "Finished Goods Inventory" ].

(** The callback of [value.map] in the branch for arrays of at most three
    entries. *)
Definition simplifyItem (item : JSValue) : JSValue :=
  if isObjectWithId item then
    VObj [("id", getProp item "id"); ("value", getProp item "value")]
  else item.

(** The value stored under [_first] in the branch for larger arrays. *)
Definition simplifyFirst (firstItem : JSValue) : JSValue :=
  if isObjectWithId firstItem then VObj [("id", getProp firstItem "id")]
  else firstItem.

(** The body of the loop of [simplifyRecord]: what [simplified[key]]
    becomes for the entry [(key, value)]. *)
Definition simplifyField (key : string) (value : JSValue) : JSValue :=
  match value with
  | VArr items =>
      if includesStr FIELDS_TO_SIMPLIFY key then
        match items with
        | [] => VArr []
        | firstItem :: _ =>
            if (List.length items <=? 3)%nat then VArr (map simplifyItem items)
            else
              VObj [ ("_count", VNum (Z.of_nat (List.length items)));
                     ("_first", simplifyFirst firstItem);
                     ("_note", VStr (numberToString (Z.of_nat (List.length items))
                                     ++ " items (simplified)")) ]
        end
      else value
  | _ => value
  end.

(** [key === 'id' || key === 'order']. *)
Definition isIdOrOrder (key : string) : bool :=
  ((key =? "id") || (key =? "order"))%string.

(** The one key whose assignment to an object literal creates no
    property: [simplified['__proto__'] = v] reaches the setter that the
    literal inherits from [Object.prototype], which changes the prototype
    (for an object or [null]) or does nothing, and leaves the own
    properties as they are. *)
Definition isProtoKey (key : string) : bool := (key =? "__proto__")%string.

(** [key] is copied by the loop of [simplifyRecord]: it is not skipped by
    the [continue], and the assignment creates a property. *)
Definition isCopiedKey (key : string) : bool :=
  negb (isIdOrOrder key) && negb (isProtoKey key).

(** [simplifyRecord].  [fields record] are the entries of the row object,
    whose keys are distinct, so the loop assigns each key once; the result
    lists the own properties of [simplified], which is what
    [JSON.stringify] and [Object.entries] see of it. *)
Definition simplifyRecord (record : BaserowRecord) : BaserowRecord :=
  {| id := id record;
     order := order record;
     fields :=
       map (fun kv => (fst kv, simplifyField (fst kv) (snd kv)))
           (filter (fun kv => isCopiedKey (fst kv)) (fields record)) |}.

(** [simplifyResponse]; [stringifyLength rs] is
    [JSON.stringify(rs).length]. *)
Definition simplifyResponse (stringifyLength : list BaserowRecord -> Z)
    (response : BaserowListResponse) : BaserowListResponse :=
  let limitedResults := firstn MAX_RECORDS_PER_PAGE (results response) in
  let simplifiedResults := map simplifyRecord limitedResults in
  let jsonStrLength := stringifyLength simplifiedResults in
  if (MAX_RESPONSE_CHARS <? jsonStrLength)
     && (10 <? List.length simplifiedResults)%nat then
    let reducedResults := firstn 10 simplifiedResults in
    {| count := count response;
       next := next response;
       previous := previous response;
       results := reducedResults;
       _note := Some ("Response truncated: showing 10 of "
                      ++ numberToString (count response)
                      ++ " records. Use filters for specific data.") |}
  else if (List.length limitedResults <? List.length (results response))%nat then
    {| count := count response;
       next := next response;
       previous := previous response;
       results := simplifiedResults;
       _note := Some ("Response limited: showing "
                      ++ numberToString (Z.of_nat (List.length limitedResults))
                      ++ " of " ++ numberToString (count response)
                      ++ " records. Use pagination or filters.") |}
  else
    {| count := count response;
       next := next response;
       previous := previous response;
       results := simplifiedResults;
       _note := _note response |}.

(** The shape the specification's sentence promises for every entry of a
    simplified small array: an object with exactly the keys [id] and
    [value].  Used only to state the claim as written. *)
Definition isIdValuePair (v : JSValue) : bool :=
  match v with
  | VObj [(k1, _); (k2, _)] => ((k1 =? "id") && (k2 =? "value"))%string
  | _ => false
  end.

(** Likewise for a collapsed large array: [{_count, _first: {id}, _note}]. *)
Definition isCollapsedWithIdOnly (v : JSValue) : bool :=
  match v with
  | VObj [(k1, VNum _); (k2, VObj [(k, _)]); (k3, VStr _)] =>
      ((k1 =? "_count") && (k2 =? "_first") && (k =? "id")
       && (k3 =? "_note"))%string
  | _ => false
  end.

(** ** Outbound calls and the remote store *)

Inductive HttpMethod : Type := GET | POST | PATCH | DELETE.

(** One [fetch]: the method, the path and query string of the URL (the
    base URL is a constant prefix) and the JSON body. *)
Record Call : Type := mkCall {
  method : HttpMethod;
  path : string;
  query : list (string * string);
  body : option JSObject;
}.

(** What a [fetch] comes back with: a 2xx reply whose body was read and
    carries a payload; a reply with another status whose body was read
    (as text and as parsed); a reply of any status that announces JSON but
    whose body does not parse, so that [response.json()] throws [cause];
    or no reply at all ([fetch] itself throws [cause]). *)
Inductive HttpOutcome (A : Type) : Type :=
| Replied (payload : A)
| Status (statusCode : Z) (statusText : string) (responseText : string)
         (responseBody : JSValue)
| Unreadable (statusCode : Z) (responseText : string) (cause : string)
| Failed (cause : string).

Arguments Replied {A} payload.
Arguments Status {A} statusCode statusText responseText responseBody.
Arguments Unreadable {A} statusCode responseText cause.
Arguments Failed {A} cause.

(** [response.ok]. *)
Definition isOkStatus (statusCode : Z) : bool :=
  (200 <=? statusCode) && (statusCode <=? 299).

(** The remote store: its answer to a call may depend on every call it
    has received before.  One component per payload type the client casts
    the reply to. *)
Record Remote : Type := mkRemote {
  listReply : list Call -> Call -> HttpOutcome BaserowListResponse;
  recordReply : list Call -> Call -> HttpOutcome BaserowRecord;
  deleteReply : list Call -> Call -> HttpOutcome unit;
}.

(** The remote data are fixed: what a list call returns does not depend
    on the calls made before it. *)
Definition stableLists (remote : Remote) : Prop :=
  forall (h1 h2 : list Call) (c : Call),
    listReply remote h1 c = listReply remote h2 c.

(** ** The monad of sequential asynchronous code

    The state is the list of outbound calls issued so far, oldest first;
    a computation ends with a value or with a thrown error. *)

Definition M (A : Type) : Type := list Call -> Result A * list Call.

Definition ret {A : Type} (a : A) : M A := fun tr => (Ok a, tr).

Definition throw {A : Type} (e : JSError) : M A := fun tr => (Throw e, tr).

Definition bind {A B : Type} (m : M A) (k : A -> M B) : M B :=
  fun tr =>
    match m tr with
    | (Ok a, tr') => k a tr'
    | (Throw e, tr') => (Throw e, tr')
    end.

(** A synchronous, possibly throwing step inside asynchronous code. *)
Definition lift {A : Type} (r : Result A) : M A := fun tr => (r, tr).

Notation "x <- m ;; k" := (bind m (fun x => k))
  (at level 61, m at next level, right associativity).

(** The calls a computation adds to the trace [tr]. *)
Definition issued (tr tr' : list Call) : list Call :=
  skipn (List.length tr) tr'.

(** ** baserow/client.ts *)

(** The path of the row collection of a table, and of one row in it. *)
Definition rowsPath (tableId : Z) : string :=
  "/api/database/rows/table/" ++ numberToString tableId ++ "/".

Definition rowPath (tableId recordId : Z) : string :=
  "/api/database/rows/table/" ++ numberToString tableId ++ "/"
  ++ numberToString recordId ++ "/".

(** [BaserowClient.buildListUrl]: the query string, built with
    [url.searchParams.set]. *)
Definition buildListUrl (filters : option JSObject) (page size : option Z)
  : list (string * string) :=
  let q1 := match page with
            | Some p => mapSet "page" (numberToString p) []
            | None => []
            end in
  let q2 := match size with
            | Some s => mapSet "size" (numberToString s) q1
            | None => q1
            end in
  let q3 := match filters with
            | Some fs =>
                fold_left
                  (fun q fv =>
                     match snd fv with
                     | VNull | VUndef => q
                     | value => mapSet ("filter__" ++ fst fv ++ "__equal")
                                       (toStr value) q
                     end) fs q2
            | None => q2
            end in
  mapSet "user_field_names" "true" q3.

(** [BaserowClient.request]: one outbound call.  The body is read inside
    the [try], before [response.ok] is looked at: a body that does not
    parse throws there and, like a [fetch] that throws, is caught and
    becomes a [BaserowConnectionError] whatever the status; a non-2xx
    reply whose body was read becomes a [BaserowApiError], which the
    [catch] rethrows. *)
Definition request {A : Type} (reply : list Call -> Call -> HttpOutcome A)
    (c : Call) : M A :=
  fun tr =>
    (match reply tr c with
     | Replied payload => Ok payload
     | Status statusCode statusText _ responseBody =>
         Throw (BaserowApiError
                  ("Baserow API returned " ++ numberToString statusCode ++ ": "
                   ++ statusText) statusCode responseBody)
     | Unreadable _ _ cause =>
         Throw (BaserowConnectionError
                  ("Failed to connect to Baserow API: " ++ cause))
     | Failed cause =>
         Throw (BaserowConnectionError
                  ("Failed to connect to Baserow API: " ++ cause))
     end, push tr c).

Module BaserowClient.

Definition listRecords (remote : Remote) (tableId : Z)
    (filters : option JSObject) (page size : option Z)
  : M BaserowListResponse :=
  request (listReply remote)
    (mkCall GET (rowsPath tableId) (buildListUrl filters page size) None).

Definition getRecord (remote : Remote) (tableId recordId : Z)
  : M BaserowRecord :=
  request (recordReply remote)
    (mkCall GET (rowPath tableId recordId) [("user_field_names", "true")] None).

Definition createRecord (remote : Remote) (tableId : Z) (data : JSObject)
  : M BaserowRecord :=
  request (recordReply remote)
    (mkCall POST (rowsPath tableId) [("user_field_names", "true")] (Some data)).

Definition updateRecord (remote : Remote) (tableId recordId : Z)
    (data : JSObject) : M BaserowRecord :=
  request (recordReply remote)
    (mkCall PATCH (rowPath tableId recordId) [("user_field_names", "true")]
       (Some data)).

Definition deleteRecord (remote : Remote) (tableId recordId : Z) : M unit :=
  request (deleteReply remote) (mkCall DELETE (rowPath tableId recordId) [] None).

End BaserowClient.

(** ** baserow/tables.ts *)

Module TablesService.

(** [validateAndGetTableId]. *)
Definition validateAndGetTableId (al : AllowListManager) (tableName : string)
  : Result Z :=
  match isTableAllowed al tableName with
  | Throw e => Throw e
  | Ok false => Throw (UnauthorizedTableAccessError tableName)
  | Ok true => getTableId al tableName
  end.

Definition listAllowedTables (al : AllowListManager) : Result (list TableInfo) :=
  getAllowedTables al.

Definition readRecords (al : AllowListManager) (remote : Remote)
    (tableName : string) (filters : option JSObject) (page size : option Z)
  : M BaserowListResponse :=
  tableId <- lift (validateAndGetTableId al tableName) ;;
  BaserowClient.listRecords remote tableId filters page size.

Definition getRecord (al : AllowListManager) (remote : Remote)
    (tableName : string) (recordId : Z) : M BaserowRecord :=
  tableId <- lift (validateAndGetTableId al tableName) ;;
  BaserowClient.getRecord remote tableId recordId.

Definition createRecord (al : AllowListManager) (remote : Remote)
    (tableName : string) (data : JSObject) : M BaserowRecord :=
  tableId <- lift (validateAndGetTableId al tableName) ;;
  BaserowClient.createRecord remote tableId data.

Definition updateRecord (al : AllowListManager) (remote : Remote)
    (tableName : string) (recordId : Z) (data : JSObject) : M BaserowRecord :=
  tableId <- lift (validateAndGetTableId al tableName) ;;
  BaserowClient.updateRecord remote tableId recordId data.

Definition deleteRecord (al : AllowListManager) (remote : Remote)
    (tableName : string) (recordId : Z) : M unit :=
  tableId <- lift (validateAndGetTableId al tableName) ;;
  BaserowClient.deleteRecord remote tableId recordId.

End TablesService.

(** ** mcp/handler.ts: the request handler *)

(** The double-quote character of the messages. *)
Definition dquote : string := String (ascii_of_nat 34) EmptyString.

(** [record[key]] for a field name other than [id] and [order]. *)
Definition field (record : BaserowRecord) (key : string) : JSValue :=
  match assoc key (fields record) with
  | Some v => v
  | None => VUndef
  end.

(** [x && x.length > 0], then [x[0]], for a field the source casts to an
    array of link entries: the first entry of a non-empty array, the first
    character of a non-empty string, nothing for [undefined], [null],
    numbers and booleans.  An object is read as having no positive length
    (a JSON object with a [length] key of its own is outside the model). *)
Definition firstOfLink (x : JSValue) : option JSValue :=
  match x with
  | VArr (x0 :: _) => Some x0
  | VStr (String c _) => Some (VStr (String c EmptyString))
  | _ => None
  end.

(** [v === n] for a number [n]. *)
Definition strictEqNum (v : JSValue) (n : Z) : bool :=
  match v with
  | VNum k => k =? n
  | _ => false
  end.

(** Truthiness of an optional string and of an optional number. *)
Definition truthyStr (s : option string) : bool :=
  match s with
  | Some x => negb (x =? "")%string
  | None => false
  end.

Definition truthyNum (n : option Z) : bool :=
  match n with
  | Some x => negb (x =? 0)
  | None => false
  end.

(** [s || d] for an optional string. *)
Definition strOr (s : option string) (d : string) : string :=
  match s with
  | Some x => if (x =? "")%string then d else x
  | None => d
  end.

(** [a || b] for optional numbers. *)
Definition numOr (a b : option Z) : option Z :=
  if truthyNum a then a else b.

(** The entry of [bomLookup]. *)
Record BomInfo : Type := mkBomInfo {
  bi_part_id : JSValue;
  bi_fg_id : JSValue;
  bi_part_name : JSValue;
}.

(** The entry of [partNameToId]. *)
Record PartInfo : Type := mkPartInfo {
  pi_part_id : Z;
  pi_part_name : string;
}.

Definition ERROR_CODES_VALIDATION_ERROR : string := "VALIDATION_ERROR".
Definition ERROR_CODES_UNAUTHORIZED_TABLE : string := "UNAUTHORIZED_TABLE_ACCESS".
Definition ERROR_CODES_API_ERROR : string := "BASEROW_API_ERROR".
Definition ERROR_CODES_CONNECTION_ERROR : string := "CONNECTION_ERROR".
Definition ERROR_CODES_INTERNAL_ERROR : string := "INTERNAL_ERROR".

Definition successResponse (data : ResponseData) (metadata : option Metadata)
  : MCPResponse := Success data metadata.

Definition errorResponse (code message : string) (details : option JSValue)
  : MCPResponse := ErrorResponse code message details.

(** The message set by the constructor of [UnauthorizedTableAccessError]. *)
Definition unauthorizedMessage (tableName : string) : string :=
  "Access denied: Table " ++ dquote ++ tableName ++ dquote
  ++ " is not authorized for access".

(** [MCPHandler.handleError]. *)
Definition handleError (error : JSError) : MCPResponse :=
  match error with
  | ValidationError message =>
      errorResponse ERROR_CODES_VALIDATION_ERROR message None
  | UnauthorizedTableAccessError tableName =>
      errorResponse ERROR_CODES_UNAUTHORIZED_TABLE
        (unauthorizedMessage tableName)
        (Some (VObj [("table", VStr tableName)]))
  | BaserowApiError message statusCode responseBody =>
      errorResponse ERROR_CODES_API_ERROR message
        (Some (VObj [("statusCode", VNum statusCode);
                     ("response", responseBody)]))
  | BaserowConnectionError message =>
      errorResponse ERROR_CODES_CONNECTION_ERROR message None
  | TypeError message | GenericError message =>
      errorResponse ERROR_CODES_INTERNAL_ERROR message None
  end.

(** The [try { ... } catch (error) { return this.handleError(error) }] of
    [handleToolCall]. *)
Definition catching (m : M MCPResponse) : list Call -> MCPResponse * list Call :=
  fun tr =>
    match m tr with
    | (Ok response, tr') => (response, tr')
    | (Throw e, tr') => (handleError e, tr')
    end.

(** *** Pure steps of the composite workflows *)

(** The loop of [handleGetBOM] over [allMappings.results]: the state is
    the list of items pushed so far and [targetIsku]. *)
Definition getBomStep (parseFloat : string -> JSValue) (targetFgId : Z)
    (st : list BOMItem * JSValue) (mapping : BaserowRecord)
  : list BOMItem * JSValue :=
  let (bomItems, targetIsku) := st in
  match firstOfLink (field mapping "Finished Good") with
  | Some fg0 =>
      if strictEqNum (getProp fg0 "id") targetFgId then
        let bomItems' :=
          match firstOfLink (field mapping "Part") with
          | Some part0 =>
              push bomItems
                {| mapping_id := id mapping;
                   part_id := jsOr (getProp part0 "id") (VNum 0);
                   part_name := jsOr (getProp part0 "value") (VStr "Unknown");
                   quantity_per_unit :=
                     parseFloat (toStr (jsOr (field mapping "Quantity") (VStr "0")));
                   part_role :=
                     jsOr (getProp (field mapping "Part Role") "value")
                          (VStr "Unknown") |}
          | None => bomItems
          end in
        let targetIsku' :=
          if negb (truthy targetIsku) && truthy (getProp fg0 "value")
          then getProp fg0 "value" else targetIsku in
        (bomItems', targetIsku')
      else st
  | None => st
  end.

(** The loop of [handleProcessBPR] that fills [bomLookup]. *)
Definition bomLookupStep (bomIds : list Z) (bomLookup : list (Z * BomInfo))
    (mapping : BaserowRecord) : list (Z * BomInfo) :=
  if includesZ bomIds (id mapping) then
    match firstOfLink (field mapping "Part"),
          firstOfLink (field mapping "Finished Good") with
    | Some part0, Some fg0 =>
        mapSetZ (id mapping)
          {| bi_part_id := jsOr (getProp part0 "id") (VNum 0);
             bi_fg_id := jsOr (getProp fg0 "id") (VNum 0);
             bi_part_name := jsOr (getProp part0 "value") (VStr "Unknown") |}
          bomLookup
    | _, _ => bomLookup
    end
  else bomLookup.

Definition buildBomLookup (bomIds : list Z) (mappings : list BaserowRecord)
  : list (Z * BomInfo) :=
  fold_left (bomLookupStep bomIds) mappings [].

(** [bomIds.filter(id => !bomLookup.has(id))]. *)
Definition missingBomIds (bomIds : list Z) (bomLookup : list (Z * BomInfo))
  : list Z :=
  filter (fun i => negb (hasZ i bomLookup)) bomIds.

(** [partsUsage.filter(p => p.lot_number && !p.lot_id).map(p => p.lot_number!)]. *)
Definition lotNumbersToLookup (partsUsage : list PartsUsageItem) : list string :=
  flat_map (fun p =>
              if truthyStr (lot_number p) && negb (truthyNum (lot_id p))
              then match lot_number p with Some s => [s] | None => [] end
              else []) partsUsage.

(** [partsUsage.filter(p => p.label_code && !p.label_id).map(p => p.label_code!)]. *)
Definition labelCodesToLookup (partsUsage : list PartsUsageItem) : list string :=
  flat_map (fun p =>
              if truthyStr (label_code p) && negb (truthyNum (label_id p))
              then match label_code p with Some s => [s] | None => [] end
              else []) partsUsage.

(** The loop over [lotsResponse.results]. *)
Definition lotLookupStep (lotNumbers : list string)
    (lotLookup : list (string * Z)) (lot : BaserowRecord)
  : list (string * Z) :=
  match field lot "Internal Lot Number" with
  | VStr internalLotNumber =>
      if negb (internalLotNumber =? "")%string
         && includesStr lotNumbers internalLotNumber
      then mapSet internalLotNumber (id lot) lotLookup
      else lotLookup
  | _ => lotLookup
  end.

(** The test applied to each requested code in the label loop. *)
Definition labelMatches (toLowerCase : string -> string)
    (labelCode code : string) : bool :=
  (toLowerCase code =? toLowerCase labelCode)%string
  || includes (toLowerCase labelCode) (toLowerCase code)
  || includes (toLowerCase code) (toLowerCase labelCode).

(** The loop over [labelsResponse.results], entered only when
    [labelCodes] is not empty.  A truthy display value that is not a
    string has no [toLowerCase]: the first evaluation of the test throws. *)
Definition labelLookupStep (toLowerCase : string -> string)
    (labelCodes : list string) (acc : Result (list (string * Z)))
    (label : BaserowRecord) : Result (list (string * Z)) :=
  match acc with
  | Throw e => Throw e
  | Ok labelLookup =>
      match firstOfLink (field label "Part BOM ID") with
      | None => Ok labelLookup
      | Some partBomId0 =>
          let labelCode := getProp partBomId0 "value" in
          if truthy labelCode then
            match labelCodes, labelCode with
            | [], _ => Ok labelLookup
            | _ :: _, VStr lc =>
                if existsb (labelMatches toLowerCase lc) labelCodes then
                  match find (labelMatches toLowerCase lc) labelCodes with
                  | Some matchedCode =>
                      if (matchedCode =? "")%string then Ok labelLookup
                      else Ok (mapSet matchedCode (id label) labelLookup)
                  | None => Ok labelLookup
                  end
                else Ok labelLookup
            | _ :: _, _ =>
                Throw (TypeError "labelCode.toLowerCase is not a function")
            end
          else Ok labelLookup
      end
  end.

(** [part.lot_id || (part.lot_number ? lotLookup.get(part.lot_number) : undefined)],
    and the same for labels. *)
Definition resolveId (direct : option Z) (key : option string)
    (lookup : list (string * Z)) : option Z :=
  numOr direct
        (match key with
         | Some k => if (k =? "")%string then None else assoc k lookup
         | None => None
         end).

(** The object [usageData] built for one parts-usage item, keys in the
    order they are assigned. *)
Definition usageData (moId : Z) (moNumber : string) (enteredBy : option string)
    (lotLookup labelLookup : list (string * Z)) (bomInfo : BomInfo)
    (part : PartsUsageItem) : JSObject :=
  let resolvedLotId := resolveId (lot_id part) (lot_number part) lotLookup in
  let resolvedLabelId := resolveId (label_id part) (label_code part) labelLookup in
  app [ ("Manufacturing Order", VArr [VNum moId]);
        ("Parts", VArr [bi_part_id bomInfo]);
        ("Finished Goods", VArr [bi_fg_id bomInfo]);
        ("Actual Quantity Used", VNum (quantity part));
        ("Notes", VStr (strOr (notes part) ("From BPR scan - " ++ moNumber)));
        ("Entered By", VStr (strOr enteredBy "Alexa via Claude")) ]
   (app (match resolvedLotId with
         | Some l => if truthyNum resolvedLotId
                     then [("RM Lot Inventory Used", VArr [VNum l])] else []
         | None => []
         end)
    (app (match resolvedLabelId with
          | Some l => if truthyNum resolvedLabelId
                      then [("Label Inventory Used", VArr [VNum l])] else []
          | None => []
          end)
         (match waste part with
          | Some w => [("Waste/Spillage", VNum w)]
          | None => []
          end))).

Definition MO_STATUS_CLOSED : Z := 4554566.
Definition DEDUCTION_METHOD_ACTUAL_USAGE : Z := 4669016.

(** The object [updateData] of step 4. *)
Definition updateData (completionDate grossProduced : string) : JSObject :=
  [ ("MO Status", VNum MO_STATUS_CLOSED);
    ("Deduction Method", VNum DEDUCTION_METHOD_ACTUAL_USAGE);
    ("MFG Date Completed", VStr completionDate);
    ("Gross Produced", VStr grossProduced);
    ("Actual Usage Complete", VBool true);
    ("MO Inventory Processed", VBool true) ].

(** [part['BOM ID'] || part['Name'] || ... || '']. *)
Definition partNameOf (part : BaserowRecord) : JSValue :=
  jsOr (jsOr (jsOr (jsOr (jsOr (jsOr (field part "BOM ID") (field part "Name"))
                                 (field part "Part Name"))
                           (field part "iSKU"))
                     (field part "Part Number"))
             (field part "SKU"))
       (VStr "").

(** The loop over [partsPage.results] that fills [partNameToId]. *)
Definition indexStep (toLowerCase : string -> string)
    (acc : Result (list (string * PartInfo))) (part : BaserowRecord)
  : Result (list (string * PartInfo)) :=
  match acc with
  | Throw e => Throw e
  | Ok partNameToId =>
      let partName := partNameOf part in
      if truthy partName then
        match partName with
        | VStr s =>
            Ok (mapSet (toLowerCase s)
                  {| pi_part_id := id part; pi_part_name := s |} partNameToId)
        | _ => Throw (TypeError "partName.toLowerCase is not a function")
        end
      else Ok partNameToId
  end.

(** The lookup of one search term: the exact match first, the substring
    scan in iteration order only when the exact match misses. *)
Definition substringMatch (termLower : string) (entry : string * PartInfo) : bool :=
  includes (fst entry) termLower || includes termLower (fst entry).

Definition findPart (toLowerCase : string -> string)
    (partNameToId : list (string * PartInfo)) (term : string) : option PartInfo :=
  let termLower := toLowerCase term in
  match assoc termLower partNameToId with
  | Some info => Some info
  | None => option_map snd (find (substringMatch termLower) partNameToId)
  end.

(** The result pushed for one search term. *)
Definition searchOne (toLowerCase : string -> string)
    (partNameToId : list (string * PartInfo)) (term : string) : PartSearchResult :=
  match findPart toLowerCase partNameToId term with
  | Some info =>
      {| sr_part_id := pi_part_id info; sr_part_name := pi_part_name info;
         search_term := term; found := true |}
  | None =>
      {| sr_part_id := 0; sr_part_name := ""; search_term := term;
         found := false |}
  end.

(** The loop over [searchTerms]: [results] and [notFound]. *)
Definition searchStep (toLowerCase : string -> string)
    (partNameToId : list (string * PartInfo))
    (st : list PartSearchResult * list string) (term : string)
  : list PartSearchResult * list string :=
  let r := searchOne toLowerCase partNameToId term in
  if found r then (push (fst st) r, snd st)
  else (push (fst st) r, push (snd st) term).

(** *** The handlers *)

Section MCPHandler.

(** [String.prototype.toLowerCase], [parseFloat] and
    [JSON.stringify(...).length]. *)
Variable toLowerCase : string -> string.
Variable parseFloat : string -> JSValue.
Variable stringifyLength : list BaserowRecord -> Z.

(** The process-wide [allowListManager] as start-up left it, and the
    remote store. *)
Variable al : AllowListManager.
Variable remote : Remote.

(** [handleListTables]. *)
Definition handleListTables : M MCPResponse :=
  tables <- lift (TablesService.listAllowedTables al) ;;
  ret (successResponse (DTables tables) None).

(** [handleRead]. *)
Definition handleRead (table : string) (filters : option JSObject)
    (page size : option Z) : M MCPResponse :=
  let limitedSize :=
    Z.min (match size with Some s => s | None => 100 end)
          (Z.of_nat MAX_RECORDS_PER_PAGE) in
  response <- TablesService.readRecords al remote table filters page
                (Some limitedSize) ;;
  let simplifiedResponse := simplifyResponse stringifyLength response in
  ret (successResponse (DList simplifiedResponse)
         (Some {| md_count := count response;
                  md_page := match page with Some p => p | None => 1 end;
                  md_size := limitedSize;
                  md_next := next response;
                  md_previous := previous response |})).

(** [handleCreate]. *)
Definition handleCreate (table : string) (data : JSObject) : M MCPResponse :=
  record <- TablesService.createRecord al remote table data ;;
  ret (successResponse (DRecord record) None).

(** [handleUpdate]. *)
Definition handleUpdate (table : string) (recordId : Z) (data : JSObject)
  : M MCPResponse :=
  record <- TablesService.updateRecord al remote table recordId data ;;
  ret (successResponse (DRecord record) None).

(** [handleDelete]. *)
Definition handleDelete (table : string) (recordId : Z) : M MCPResponse :=
  _ <- TablesService.deleteRecord al remote table recordId ;;
  ret (successResponse (DDeleted recordId) None).

(** The part of [handleGetBOM] after [targetFgId] and [targetIsku] have
    been settled. *)
Definition getBomFor (targetFgId : option Z) (targetIsku : string)
  : M MCPResponse :=
  match targetFgId with
  | Some fgId =>
      if fgId =? 0 then
        ret (errorResponse "INVALID_REQUEST"
               "Either fg_id or isku must be provided" None)
      else
        allMappings <- TablesService.readRecords al remote "fg_parts_mapping"
                         (Some []) (Some 1) (Some 200) ;;
        let (bomItems, targetIsku') :=
          fold_left (getBomStep parseFloat fgId) (results allMappings)
                    ([], VStr targetIsku) in
        ret (successResponse
               (DBom {| fg_id := fgId; fg_isku := targetIsku';
                        parts := bomItems;
                        total_parts := List.length bomItems |}) None)
  | None =>
      ret (errorResponse "INVALID_REQUEST"
             "Either fg_id or isku must be provided" None)
  end.

(** [handleGetBOM]. *)
Definition handleGetBOM (fgId : option Z) (isku : option string)
  : M MCPResponse :=
  if negb (truthyNum fgId) && truthyStr isku then
    let iskuStr := strOr isku "" in
    fgResponse <- TablesService.readRecords al remote "finished_goods"
                    (Some [("iSKU", VStr iskuStr)]) (Some 1) (Some 1) ;;
    match results fgResponse with
    | [] =>
        ret (errorResponse "FG_NOT_FOUND"
               ("Finished Good with iSKU " ++ dquote ++ iskuStr ++ dquote
                ++ " not found") None)
    | fg :: _ => getBomFor (Some (id fg)) iskuStr
    end
  else getBomFor fgId (strOr isku "").

(** Step 2.5 of [handleProcessBPR]: the lot lookup table. *)
Definition loadLotLookup (partsUsage : list PartsUsageItem)
  : M (list (string * Z)) :=
  match lotNumbersToLookup partsUsage with
  | [] => ret []
  | lotNumbers =>
      lotsResponse <- TablesService.readRecords al remote "raw_material_lots"
                        (Some []) (Some 1) (Some 200) ;;
      ret (fold_left (lotLookupStep lotNumbers) (results lotsResponse) [])
  end.

(** Step 2.5 of [handleProcessBPR]: the label lookup table. *)
Definition loadLabelLookup (partsUsage : list PartsUsageItem)
  : M (list (string * Z)) :=
  match labelCodesToLookup partsUsage with
  | [] => ret []
  | labelCodes =>
      labelsResponse <- TablesService.readRecords al remote "label_inventory"
                          (Some []) (Some 1) (Some 200) ;;
      lift (fold_left (labelLookupStep toLowerCase labelCodes)
              (results labelsResponse) (Ok []))
  end.

(** Step 3 of [handleProcessBPR]: the loop creating one record per item;
    [usageRecords] is the array filled so far. *)
Fixpoint createUsageRecords (moId : Z) (moNumber : string)
    (enteredBy : option string) (bomLookup : list (Z * BomInfo))
    (lotLookup labelLookup : list (string * Z))
    (partsUsage : list PartsUsageItem) (usageRecords : list BaserowRecord)
  : M (list BaserowRecord) :=
  match partsUsage with
  | [] => ret usageRecords
  | part :: rest =>
      match assocZ (bom_id part) bomLookup with
      | None =>
          throw (TypeError "Cannot read properties of undefined (reading 'part_id')")
      | Some bomInfo =>
          record <- TablesService.createRecord al remote "mo_parts_usage"
                      (usageData moId moNumber enteredBy lotLookup labelLookup
                         bomInfo part) ;;
          createUsageRecords moId moNumber enteredBy bomLookup lotLookup
            labelLookup rest (push usageRecords record)
      end
  end.

(** [handleProcessBPR]. *)
Definition handleProcessBPR (moNumber completionDate grossProduced : string)
    (partsUsage : list PartsUsageItem) (enteredBy : option string)
  : M MCPResponse :=
  moResponse <- TablesService.readRecords al remote "manufacturing_orders"
                  (Some [("MO Number", VStr moNumber)]) (Some 1) (Some 1) ;;
  match results moResponse with
  | [] =>
      ret (errorResponse "MO_NOT_FOUND"
             ("Manufacturing Order " ++ moNumber ++ " not found") None)
  | mo :: _ =>
      let moId := id mo in
      let bomIds := map bom_id partsUsage in
      mappingsResponse <- TablesService.readRecords al remote "fg_parts_mapping"
                            (Some []) (Some 1) (Some 200) ;;
      let bomLookup := buildBomLookup bomIds (results mappingsResponse) in
      match missingBomIds bomIds bomLookup with
      | (_ :: _) as missing =>
          ret (errorResponse "BOM_NOT_FOUND"
                 ("BOM mapping IDs not found: "
                  ++ join ", " (map numberToString missing)) None)
      | [] =>
          lotLookup <- loadLotLookup partsUsage ;;
          labelLookup <- loadLabelLookup partsUsage ;;
          usageRecords <- createUsageRecords moId moNumber enteredBy bomLookup
                            lotLookup labelLookup partsUsage [] ;;
          _ <- TablesService.updateRecord al remote "manufacturing_orders" moId
                 (updateData completionDate grossProduced) ;;
          ret (successResponse
                 (DBpr {| bpr_success := true;
                          mo_id := moId;
                          mo_number := moNumber;
                          parts_usage_created := List.length usageRecords;
                          parts_usage_ids := map id usageRecords;
                          mo_updated := true;
                          summary :=
                            "BPR processed: MO " ++ moNumber ++ " closed with "
                            ++ numberToString (Z.of_nat (List.length usageRecords))
                            ++ " parts usage records. Gross produced: "
                            ++ grossProduced |}) None)
      end
  end.

(** The [while (hasMore)] loop of [handleSearchParts].  Each turn reads
    one page; the loop leaves when the store reports no further page or
    an empty one, and breaks once [page] exceeds 50, so [fuel] turns
    starting at page [51 - fuel] are all it can make. *)
Fixpoint loadParts (fuel : nat) (page : Z)
    (partNameToId : list (string * PartInfo)) : M (list (string * PartInfo)) :=
  match fuel with
  | O => ret partNameToId
  | S fuel' =>
      partsPage <- TablesService.readRecords al remote "parts" (Some [])
                     (Some page) (Some 200) ;;
      partNameToId' <- lift (fold_left (indexStep toLowerCase)
                               (results partsPage) (Ok partNameToId)) ;;
      let hasMore :=
        match next partsPage, results partsPage with
        | Some _, _ :: _ => true
        | _, _ => false
        end in
      if hasMore then loadParts fuel' (page + 1) partNameToId'
      else ret partNameToId'
  end.

(** [handleSearchParts]. *)
Definition handleSearchParts (searchTerms : list string) : M MCPResponse :=
  partNameToId <- loadParts 50 1 [] ;;
  let (results, notFound) :=
    fold_left (searchStep toLowerCase partNameToId) searchTerms ([], []) in
  let foundCount := List.length (filter found results) in
  ret (successResponse
         (DSearch {| sp_results := results; found_count := foundCount;
                     not_found := notFound |}) None).

End MCPHandler.

(** ** The tool boundary: types/mcp.ts and handleToolCall

    A tool call reaches a handler through [buildRequest],
    [validateRequest] (the zod schema [MCPRequestSchema]) and
    [routeRequest].  The schemas are read off their declarations: what
    they accept and the value they return.  A number is an integer here,
    so [z.number()] and [z.number().int()] accept the same values.  The
    texts of zod's issues are a parameter. *)

Inductive MCPRequest : Type :=
| ListTablesCommand
| ReadCommand (table : string) (filters : option JSObject)
              (page size : option Z)
| CreateCommand (table : string) (data : JSObject)
| UpdateCommand (table : string) (record_id : Z) (data : JSObject)
| DeleteCommand (table : string) (record_id : Z)
| BatchCreateCommand (table : string) (records : list JSObject)
| GetBOMCommand (fg_id : option Z) (isku : option string)
| ProcessBPRCommand (mo_number completion_date gross_produced : string)
                    (parts_usage : list PartsUsageItem)
                    (entered_by : option string)
| SearchPartsCommand (search_terms : list string).

(** The [command] of a validated request. *)
Definition commandOf (request : MCPRequest) : string :=
  match request with
  | ListTablesCommand => "list_tables"
  | ReadCommand _ _ _ _ => "read"
  | CreateCommand _ _ => "create"
  | UpdateCommand _ _ _ => "update"
  | DeleteCommand _ _ => "delete"
  | BatchCreateCommand _ _ => "batch_create"
  | GetBOMCommand _ _ => "get_bom"
  | ProcessBPRCommand _ _ _ _ _ => "process_bpr"
  | SearchPartsCommand _ => "search_parts"
  end.

(** Parsing continues with the parsed value, or fails. *)
Definition andThen {A B : Type} (o : option A) (k : A -> option B) : option B :=
  match o with
  | Some a => k a
  | None => None
  end.

Notation "x <?- o ;; k" := (andThen o (fun x => k))
  (at level 61, o at next level, right associativity).

(** [z.string()], [z.number()], [z.number().int().positive()] and
    [z.number().int().positive().max(200)]. *)
Definition zString (v : JSValue) : option string :=
  match v with
  | VStr s => Some s
  | _ => None
  end.

Definition zNumber (v : JSValue) : option Z :=
  match v with
  | VNum n => Some n
  | _ => None
  end.

Definition zPositive (v : JSValue) : option Z :=
  match v with
  | VNum n => if 0 <? n then Some n else None
  | _ => None
  end.

Definition zSize (v : JSValue) : option Z :=
  match v with
  | VNum n => if (0 <? n) && (n <=? 200) then Some n else None
  | _ => None
  end.

(** [schema.optional()]: [undefined], which is also what a missing
    property reads as, is accepted. *)
Definition zOptional {T : Type} (schema : JSValue -> option T) (v : JSValue)
  : option (option T) :=
  match v with
  | VUndef => Some None
  | _ => option_map Some (schema v)
  end.

(** [z.array(schema)]. *)
Fixpoint zAll {T : Type} (schema : JSValue -> option T) (items : list JSValue)
  : option (list T) :=
  match items with
  | [] => Some []
  | v :: rest =>
      x <?- schema v ;;
      xs <?- zAll schema rest ;;
      Some (x :: xs)
  end.

Definition zArray {T : Type} (schema : JSValue -> option T) (v : JSValue)
  : option (list T) :=
  match v with
  | VArr items => zAll schema items
  | _ => None
  end.

(** [TableNameSchema = z.enum(ALLOWED_TABLE_NAMES)]. *)
Definition zTableName (v : JSValue) : option string :=
  match v with
  | VStr s => if includesStr ALLOWED_TABLE_NAMES s then Some s else None
  | _ => None
  end.

(** [FilterValueSchema], and the value schema of [RecordDataSchema]. *)
Definition isFilterValue (v : JSValue) : bool :=
  match v with
  | VStr _ | VNum _ | VBool _ | VNull => true
  | _ => false
  end.

Definition isRecordDataValue (v : JSValue) : bool :=
  match v with
  | VStr _ | VNum _ | VBool _ | VNull | VArr _ => true
  | _ => false
  end.

(** [z.record(z.string(), valueSchema)]: an object, neither an array nor
    [null], all of whose values pass.  The parsed value is a fresh object
    that receives the entries one by one; an entry named [__proto__] is
    not among its properties. *)
Definition zRecord (valueOk : JSValue -> bool) (v : JSValue) : option JSObject :=
  match v with
  | VObj props =>
      if forallb (fun kv => valueOk (snd kv)) props
      then Some (filter (fun kv => negb (isProtoKey (fst kv))) props)
      else None
  | _ => None
  end.

(** [FiltersSchema] without its [optional()], and [RecordDataSchema]. *)
Definition zFilters : JSValue -> option JSObject := zRecord isFilterValue.
Definition zRecordData : JSValue -> option JSObject := zRecord isRecordDataValue.

(** [PartsUsageItemSchema]; a [z.object] reads its keys and drops the
    others. *)
Definition zPartsUsageItem (v : JSValue) : option PartsUsageItem :=
  match v with
  | VObj _ =>
      bomId <?- zPositive (getProp v "bom_id") ;;
      qty <?- zNumber (getProp v "quantity") ;;
      lotId <?- zOptional zPositive (getProp v "lot_id") ;;
      lotNumber <?- zOptional zString (getProp v "lot_number") ;;
      labelId <?- zOptional zPositive (getProp v "label_id") ;;
      labelCode <?- zOptional zString (getProp v "label_code") ;;
      wasted <?- zOptional zNumber (getProp v "waste") ;;
      note <?- zOptional zString (getProp v "notes") ;;
      Some {| bom_id := bomId; quantity := qty; lot_id := lotId;
              lot_number := lotNumber; label_id := labelId;
              label_code := labelCode; waste := wasted; notes := note |}
  | _ => None
  end.

(** [z.array(RecordDataSchema).max(50)]. *)
Definition zRecords (v : JSValue) : option (list JSObject) :=
  records <?- zArray zRecordData v ;;
  if (List.length records <=? 50)%nat then Some records else None.

(** The command schemas, each on the request object. *)
Definition zReadCommand (request : JSValue) : option MCPRequest :=
  table <?- zTableName (getProp request "table") ;;
  filters <?- zOptional zFilters (getProp request "filters") ;;
  page <?- zOptional zPositive (getProp request "page") ;;
  size <?- zOptional zSize (getProp request "size") ;;
  Some (ReadCommand table filters page size).

Definition zCreateCommand (request : JSValue) : option MCPRequest :=
  table <?- zTableName (getProp request "table") ;;
  data <?- zRecordData (getProp request "data") ;;
  Some (CreateCommand table data).

Definition zUpdateCommand (request : JSValue) : option MCPRequest :=
  table <?- zTableName (getProp request "table") ;;
  recordId <?- zPositive (getProp request "record_id") ;;
  data <?- zRecordData (getProp request "data") ;;
  Some (UpdateCommand table recordId data).

Definition zDeleteCommand (request : JSValue) : option MCPRequest :=
  table <?- zTableName (getProp request "table") ;;
  recordId <?- zPositive (getProp request "record_id") ;;
  Some (DeleteCommand table recordId).

Definition zBatchCreateCommand (request : JSValue) : option MCPRequest :=
  table <?- zTableName (getProp request "table") ;;
  records <?- zRecords (getProp request "records") ;;
  Some (BatchCreateCommand table records).

Definition zGetBOMCommand (request : JSValue) : option MCPRequest :=
  fgId <?- zOptional zPositive (getProp request "fg_id") ;;
  isku <?- zOptional zString (getProp request "isku") ;;
  Some (GetBOMCommand fgId isku).

Definition zProcessBPRCommand (request : JSValue) : option MCPRequest :=
  moNumber <?- zString (getProp request "mo_number") ;;
  completionDate <?- zString (getProp request "completion_date") ;;
  grossProduced <?- zString (getProp request "gross_produced") ;;
  partsUsage <?- zArray zPartsUsageItem (getProp request "parts_usage") ;;
  enteredBy <?- zOptional zString (getProp request "entered_by") ;;
  Some (ProcessBPRCommand moNumber completionDate grossProduced partsUsage
          enteredBy).

Definition zSearchPartsCommand (request : JSValue) : option MCPRequest :=
  searchTerms <?- zArray zString (getProp request "search_terms") ;;
  Some (SearchPartsCommand searchTerms).

(** [MCPRequestSchema = z.discriminatedUnion('command', ...)]: the value
    of [command] selects the schema; nothing is selected by a value that
    is not one of the nine literals. *)
Definition parseMCPRequest (request : JSObject) : option MCPRequest :=
  match getProp (VObj request) "command" with
  | VStr command =>
      if (command =? "list_tables")%string then Some ListTablesCommand
      else if (command =? "read")%string then zReadCommand (VObj request)
      else if (command =? "create")%string then zCreateCommand (VObj request)
      else if (command =? "update")%string then zUpdateCommand (VObj request)
      else if (command =? "delete")%string then zDeleteCommand (VObj request)
      else if (command =? "batch_create")%string
           then zBatchCreateCommand (VObj request)
      else if (command =? "get_bom")%string then zGetBOMCommand (VObj request)
      else if (command =? "process_bpr")%string
           then zProcessBPRCommand (VObj request)
      else if (command =? "search_parts")%string
           then zSearchPartsCommand (VObj request)
      else None
  | _ => None
  end.

(** [commandMap] of [buildRequest]. *)
Definition commandMap : list (string * string) :=
  [ ("list_tables", "list_tables"); ("read", "read"); ("create", "create");
    ("update", "update"); ("delete", "delete");
    ("batch_create", "batch_create"); ("get_bom", "get_bom");
    ("process_bpr", "process_bpr"); ("search_parts", "search_parts") ].

(** [commandMap] is an object literal: looked up at a name that is not one
    of its keys, it yields what [Object.prototype] has under that name. *)
Definition OBJECT_PROTOTYPE_KEYS : list string :=
  [ "constructor"; "__defineGetter__"; "__defineSetter__"; "hasOwnProperty";
    "__lookupGetter__"; "__lookupSetter__"; "isPrototypeOf";
    "propertyIsEnumerable"; "toString"; "valueOf"; "__proto__";
    "toLocaleString" ].

(** Such an inherited member is a function, or [Object.prototype] itself
    under [__proto__]: a truthy value that is not a string, which is all
    the code below looks at.  The model writes it as an object without
    properties. *)
Definition inheritedMember : JSValue := VObj [].

(** The properties that [...(typeof args === 'object' && args !== null
    ? args : {})] copies: those of an object, the indexed entries of an
    array, none otherwise. *)
Fixpoint indexed (i : nat) (items : list JSValue) : JSObject :=
  match items with
  | [] => []
  | v :: rest => (numberToString (Z.of_nat i), v) :: indexed (S i) rest
  end.

Definition spreadOf (args : JSValue) : JSObject :=
  match args with
  | VObj props => props
  | VArr items => indexed 0 items
  | _ => []
  end.

(** The object literal [{ command, ...args }]: the copied properties are
    defined one by one, a [command] among them replacing the first. *)
Definition requestObject (command : JSValue) (args : JSValue) : JSObject :=
  fold_left (fun o kv => mapSet (fst kv) (snd kv) o) (spreadOf args)
            [("command", command)].

(** [buildRequest]. *)
Definition buildRequest (toolName : string) (args : JSValue) : Result JSObject :=
  let command :=
    match assoc toolName commandMap with
    | Some c => VStr c
    | None => if includesStr OBJECT_PROTOTYPE_KEYS toolName
              then inheritedMember else VUndef
    end in
  if truthy command then Ok (requestObject command args)
  else Throw (GenericError ("Unknown tool: " ++ toolName)).

Section ToolBoundary.

(** The text [messages.join('; ')] that zod's issues give for a request
    that fails the schema. *)
Variable zodMessages : JSObject -> string.

(** [handleBatchCreate] starts its creations together (ten at a time,
    under [Promise.all]); it is a parameter here. *)
Variable handleBatchCreate : string -> list JSObject -> M MCPResponse.

Variable toLowerCase : string -> string.
Variable parseFloat : string -> JSValue.
Variable stringifyLength : list BaserowRecord -> Z.
Variable al : AllowListManager.
Variable remote : Remote.

(** [validateRequest]. *)
Definition validateRequest (request : JSObject) : Result MCPRequest :=
  match parseMCPRequest request with
  | Some validated => Ok validated
  | None => Throw (ValidationError (zodMessages request))
  end.

(** [routeRequest]. *)
Definition routeRequest (request : MCPRequest) : M MCPResponse :=
  match request with
  | ListTablesCommand => handleListTables al
  | ReadCommand table filters page size =>
      handleRead stringifyLength al remote table filters page size
  | CreateCommand table data => handleCreate al remote table data
  | UpdateCommand table recordId data =>
      handleUpdate al remote table recordId data
  | DeleteCommand table recordId => handleDelete al remote table recordId
  | BatchCreateCommand table records => handleBatchCreate table records
  | GetBOMCommand fgId isku => handleGetBOM parseFloat al remote fgId isku
  | ProcessBPRCommand moNumber completionDate grossProduced partsUsage
                      enteredBy =>
      handleProcessBPR toLowerCase al remote moNumber completionDate
        grossProduced partsUsage enteredBy
  | SearchPartsCommand searchTerms =>
      handleSearchParts toLowerCase al remote searchTerms
  end.

(** [handleToolCall]. *)
Definition handleToolCall (toolName : string) (args : JSValue)
  : list Call -> MCPResponse * list Call :=
  catching (request <- lift (buildRequest toolName args) ;;
            validatedRequest <- lift (validateRequest request) ;;
            routeRequest validatedRequest).

End ToolBoundary.

(** ** The Cloudflare worker: MCPServer.processBPR

    The worker re-implements the client and the workflow; table
    identifiers are the strings of its environment. *)

Module Worker.

Record WorkerEnv : Type := mkWorkerEnv {
  TABLE_ID_MO : option string;
  TABLE_ID_FG : option string;
  TABLE_ID_PARTS_USAGE : option string;
  TABLE_ID_FG_PARTS_MAPPING : option string;
  TABLE_ID_RM_LOTS : option string;
  TABLE_ID_LABEL_INVENTORY : option string;
  TABLE_ID_PARTS : option string;
}.

(** [this.tableMap], as the constructor fills it. *)
Definition tableMapOf (env : WorkerEnv) : list (string * option string) :=
  [ ("manufacturing_orders", TABLE_ID_MO env);
    ("finished_goods", TABLE_ID_FG env);
    ("mo_parts_usage", TABLE_ID_PARTS_USAGE env);
    ("fg_parts_mapping", TABLE_ID_FG_PARTS_MAPPING env);
    ("raw_material_lots", TABLE_ID_RM_LOTS env);
    ("label_inventory", TABLE_ID_LABEL_INVENTORY env);
    ("parts", TABLE_ID_PARTS env) ].

(** [MCPServer.getTableId]. *)
Definition getTableId (env : WorkerEnv) (tableName : string) : Result string :=
  let tableId := match assoc tableName (tableMapOf env) with
                 | Some v => v
                 | None => None
                 end in
  if truthyStr tableId then Ok (strOr tableId "")
  else
    let debugInfo :=
      join ", " (map (fun kv => fst kv ++ "=" ++ strOr (snd kv) "UNDEFINED")
                     (tableMapOf env)) in
    Throw (GenericError ("Table " ++ dquote ++ tableName ++ dquote
                         ++ " has no ID configured. Table IDs: " ++ debugInfo)).

(** The worker's [BaserowClient.request]: no [try]; for a non-2xx reply
    the body is read as text, for a 2xx reply it is parsed, and a body that
    does not parse rejects with the parser's [SyntaxError] (an [Error]
    like any other to the callers). *)
Definition request {A : Type} (reply : list Call -> Call -> HttpOutcome A)
    (c : Call) : M A :=
  fun tr =>
    (match reply tr c with
     | Replied payload => Ok payload
     | Status statusCode _ responseText _ =>
         Throw (GenericError ("Baserow API Error " ++ numberToString statusCode
                              ++ ": " ++ responseText))
     | Unreadable statusCode responseText cause =>
         if isOkStatus statusCode then Throw (GenericError cause)
         else Throw (GenericError ("Baserow API Error "
                                   ++ numberToString statusCode
                                   ++ ": " ++ responseText))
     | Failed cause => Throw (TypeError cause)
     end, push tr c).

(** The worker's [listRecords]; [page] and [size] default to 1 and 100,
    filters are sent with the [contains] operator. *)
Definition listRecords (remote : Remote) (tableId : string)
    (filters : option (list (string * string))) (page size : option Z)
  : M BaserowListResponse :=
  let params :=
    [ ("page", numberToString (match page with Some p => p | None => 1 end));
      ("size", numberToString (match size with Some s => s | None => 100 end));
      ("user_field_names", "true") ] in
  let params' :=
    match filters with
    | Some fs =>
        fold_left (fun q kv => push q ("filter__" ++ fst kv ++ "__contains", snd kv))
                  fs params
    | None => params
    end in
  request (listReply remote)
    (mkCall GET ("/api/database/rows/table/" ++ tableId ++ "/") params' None).

Definition createRecord (remote : Remote) (tableId : string) (data : JSObject)
  : M BaserowRecord :=
  request (recordReply remote)
    (mkCall POST ("/api/database/rows/table/" ++ tableId ++ "/")
       [("user_field_names", "true")] (Some data)).

Definition updateRecord (remote : Remote) (tableId : string) (recordId : Z)
    (data : JSObject) : M BaserowRecord :=
  request (recordReply remote)
    (mkCall PATCH ("/api/database/rows/table/" ++ tableId ++ "/"
                   ++ numberToString recordId ++ "/")
       [("user_field_names", "true")] (Some data)).

(** The loop over [labelsResponse.results] of the worker: the test has
    two disjuncts only. *)
Definition labelMatches (toLowerCase : string -> string)
    (labelCode code : string) : bool :=
  (toLowerCase code =? toLowerCase labelCode)%string
  || includes (toLowerCase labelCode) (toLowerCase code).

Definition labelLookupStep (toLowerCase : string -> string)
    (labelCodes : list string) (acc : Result (list (string * Z)))
    (label : BaserowRecord) : Result (list (string * Z)) :=
  match acc with
  | Throw e => Throw e
  | Ok labelLookup =>
      match firstOfLink (field label "Part BOM ID") with
      | None => Ok labelLookup
      | Some partBomId0 =>
          let labelCode := getProp partBomId0 "value" in
          if truthy labelCode then
            match labelCodes, labelCode with
            | [], _ => Ok labelLookup
            | _ :: _, VStr lc =>
                match find (labelMatches toLowerCase lc) labelCodes with
                | Some matchedCode =>
                    if (matchedCode =? "")%string then Ok labelLookup
                    else Ok (mapSet matchedCode (id label) labelLookup)
                | None => Ok labelLookup
                end
            | _ :: _, _ =>
                Throw (TypeError "labelCode.toLowerCase is not a function")
            end
          else Ok labelLookup
      end
  end.

(** The [data] of a successful reply. *)
Record BPRData : Type := mkBPRData {
  w_mo_id : Z;
  w_mo_number : string;
  w_parts_usage_created : nat;
  w_parts_usage_ids : list Z;
  w_mo_updated : bool;
  w_summary : string;
}.

Inductive Reply : Type :=
| WSuccess (data : BPRData)
| WError (code message : string).

Section ProcessBPR.

Variable toLowerCase : string -> string.
Variable env : WorkerEnv.
Variable remote : Remote.

(** The loop creating the usage records: an item whose [bom_id] is not in
    [bomLookup] is skipped by [continue]. *)
Fixpoint createUsageRecords (moId : Z) (moNumber : string)
    (enteredBy : option string) (bomLookup : list (Z * BomInfo))
    (lotLookup labelLookup : list (string * Z))
    (partsUsage : list PartsUsageItem) (usageRecords : list BaserowRecord)
  : M (list BaserowRecord) :=
  match partsUsage with
  | [] => ret usageRecords
  | part :: rest =>
      match assocZ (bom_id part) bomLookup with
      | None =>
          createUsageRecords moId moNumber enteredBy bomLookup lotLookup
            labelLookup rest usageRecords
      | Some bomInfo =>
          tableId <- lift (getTableId env "mo_parts_usage") ;;
          record <- createRecord remote tableId
                      (usageData moId moNumber enteredBy lotLookup labelLookup
                         bomInfo part) ;;
          createUsageRecords moId moNumber enteredBy bomLookup lotLookup
            labelLookup rest (push usageRecords record)
      end
  end.

(** [MCPServer.processBPR]. *)
Definition processBPR (moNumber completionDate grossProduced : string)
    (partsUsage : list PartsUsageItem) (enteredBy : option string) : M Reply :=
  moTable <- lift (getTableId env "manufacturing_orders") ;;
  moResponse <- listRecords remote moTable (Some [("MO Number", moNumber)])
                  (Some 1) (Some 1) ;;
  match results moResponse with
  | [] => ret (WError "MO_NOT_FOUND" ("MO " ++ moNumber ++ " not found"))
  | mo :: _ =>
      let moId := id mo in
      let bomIds := map bom_id partsUsage in
      mappingTable <- lift (getTableId env "fg_parts_mapping") ;;
      mappingsResponse <- listRecords remote mappingTable None (Some 1) (Some 200) ;;
      let bomLookup := buildBomLookup bomIds (results mappingsResponse) in
      lotLookup <-
        match lotNumbersToLookup partsUsage with
        | [] => ret []
        | lotNumbers =>
            lotTable <- lift (getTableId env "raw_material_lots") ;;
            lotsResponse <- listRecords remote lotTable None (Some 1) (Some 200) ;;
            ret (fold_left (lotLookupStep lotNumbers) (results lotsResponse) [])
        end ;;
      labelLookup <-
        match labelCodesToLookup partsUsage with
        | [] => ret []
        | labelCodes =>
            labelTable <- lift (getTableId env "label_inventory") ;;
            labelsResponse <- listRecords remote labelTable None (Some 1) (Some 200) ;;
            lift (fold_left (labelLookupStep toLowerCase labelCodes)
                    (results labelsResponse) (Ok []))
        end ;;
      usageRecords <- createUsageRecords moId moNumber enteredBy bomLookup
                        lotLookup labelLookup partsUsage [] ;;
      moTable' <- lift (getTableId env "manufacturing_orders") ;;
      _ <- updateRecord remote moTable' moId
             (updateData completionDate grossProduced) ;;
      ret (WSuccess
             {| w_mo_id := moId;
                w_mo_number := moNumber;
                w_parts_usage_created := List.length usageRecords;
                w_parts_usage_ids := map id usageRecords;
                w_mo_updated := true;
                w_summary :=
                  "BPR processed: MO " ++ moNumber ++ " closed with "
                  ++ numberToString (Z.of_nat (List.length usageRecords))
                  ++ " parts usage records" |})
  end.

End ProcessBPR.

End Worker.

(** ** Statements of the specification kept for comparison, and scenarios *)

(** [present but malformed], as [initialize] tests it: the variable is
    set, not empty, and [parseInt] yields [NaN] or a number that is not
    positive. *)
Definition isMalformed (tableIdStr : option string) : bool :=
  match tableIdStr with
  | None => false
  | Some s => negb (s =? "")%string && isInvalidId s
  end.

(** The failure condition as the specification words it: some identifier
    is present but is not a positive integer, or no table resolved. *)
Definition claimedInitFailure (env : Env) : Prop :=
  (exists c s, In c TABLE_CONFIGS /\ env (envKey c) = Some s /\ s <> ""
               /\ isPositiveIntegerLiteral s = false)
  \/ (forall c, In c TABLE_CONFIGS -> isMissing (env (envKey c)) = true).

(** The parts list of [get_bom] as the specification words it: retain
    the mappings whose [Finished Good] link's first entry has the target
    identifier and whose [Part] link is not empty, and project each. *)
Definition linksFinishedGood (targetFgId : Z) (mapping : BaserowRecord) : bool :=
  match firstOfLink (field mapping "Finished Good") with
  | Some fg0 => strictEqNum (getProp fg0 "id") targetFgId
  | None => false
  end.

Definition hasPartLink (mapping : BaserowRecord) : bool :=
  match firstOfLink (field mapping "Part") with
  | Some _ => true
  | None => false
  end.

Definition projectBomItem (parseFloat : string -> JSValue)
    (mapping : BaserowRecord) : BOMItem :=
  let part0 := match firstOfLink (field mapping "Part") with
               | Some p => p
               | None => VUndef
               end in
  {| mapping_id := id mapping;
     part_id := jsOr (getProp part0 "id") (VNum 0);
     part_name := jsOr (getProp part0 "value") (VStr "Unknown");
     quantity_per_unit :=
       parseFloat (toStr (jsOr (field mapping "Quantity") (VStr "0")));
     part_role := jsOr (getProp (field mapping "Part Role") "value")
                       (VStr "Unknown") |}.

Definition bomItemsOf (parseFloat : string -> JSValue) (targetFgId : Z)
    (mappings : list BaserowRecord) : list BOMItem :=
  map (projectBomItem parseFloat)
      (filter (fun m => linksFinishedGood targetFgId m && hasPartLink m) mappings).

(** Two runs of [get_bom] end alike as far as the parts are concerned:
    the same error, or two successes for the same Finished Good with the
    same parts list. *)
Definition sameParts (r1 r2 : Result MCPResponse) : Prop :=
  match r1, r2 with
  | Throw e1, Throw e2 => e1 = e2
  | Ok (Success (DBom a) None), Ok (Success (DBom b) None) =>
      parts a = parts b /\ total_parts a = total_parts b /\ fg_id a = fg_id b
  | _, _ => False
  end.

(** A [bom_id] resolves against the fetched mappings when some mapping
    carries that identifier together with a non-empty [Part] link and a
    non-empty [Finished Good] link. *)
Definition hasFinishedGoodLink (mapping : BaserowRecord) : bool :=
  match firstOfLink (field mapping "Finished Good") with
  | Some _ => true
  | None => false
  end.

Definition resolvesBom (mappings : list BaserowRecord) (bomId : Z) : bool :=
  existsb (fun m => (id m =? bomId) && hasPartLink m && hasFinishedGoodLink m)
          mappings.

Definition unresolvedBomIds (partsUsage : list PartsUsageItem)
    (mappings : list BaserowRecord) : list Z :=
  filter (fun i => negb (resolvesBom mappings i)) (map bom_id partsUsage).

(** The call [c] creates the parts-usage record of the item [part] and
    links it to the Manufacturing Order [moId]. *)
Definition creationFor (al : AllowListManager) (moId : Z)
    (part : PartsUsageItem) (c : Call) : Prop :=
  method c = POST
  /\ (exists tableId,
        TablesService.validateAndGetTableId al "mo_parts_usage" = Ok tableId
        /\ path c = rowsPath tableId)
  /\ exists data,
       body c = Some data
       /\ assoc "Manufacturing Order" data = Some (VArr [VNum moId])
       /\ assoc "Actual Quantity Used" data = Some (VNum (quantity part)).

(** The calls of a trace made with a given method. *)
Definition isMethod (m : HttpMethod) (c : Call) : bool :=
  match m, method c with
  | GET, GET | POST, POST | PATCH, PATCH | DELETE, DELETE => true
  | _, _ => false
  end.

(** An environment that sets one variable only. *)
Definition envWith (key value : string) : Env :=
  fun k => if (k =? key)%string then Some value else None.

(** An environment that configures the five tables of [process_bpr] and
    [finished_goods], and leaves the others unset. *)
Definition demoEnv : Env :=
  fun k =>
    if (k =? "TABLE_ID_MANUFACTURING_ORDERS")%string then Some "749415"
    else if (k =? "TABLE_ID_MO_PARTS_USAGE")%string then Some "758739"
    else if (k =? "TABLE_ID_FG_PARTS_MAPPING")%string then Some "748088"
    else if (k =? "TABLE_ID_FINISHED_GOODS")%string then Some "747400"
    else if (k =? "TABLE_ID_PARTS")%string then Some "744797"
    else None.

Definition demoAllowList : AllowListManager :=
  init_manager (initialize demoEnv newAllowListManager).


(** A link entry without an [id]: the shape the sources report for the
    [Part BOM ID] column. *)
Definition lookupEntry : JSValue :=
  VObj [("ids", VObj []); ("value", VStr "LABL-0001")].

(** The value of a computation does not depend on the calls issued
    before it. *)
Definition historyFree {A : Type} (m : M A) : Prop :=
  forall tr1 tr2 : list Call, fst (m tr1) = fst (m tr2).

(** Lower-casing of the letters A to Z, standing for [toLowerCase] in the
    scenarios. *)
Definition lowerChar (c : ascii) : ascii :=
  let n := nat_of_ascii c in
  if ((65 <=? n) && (n <=? 90))%nat then ascii_of_nat (n + 32) else c.

Fixpoint asciiLower (s : string) : string :=
  match s with
  | EmptyString => EmptyString
  | String c s' => String (lowerChar c) (asciiLower s')
  end.

(** A link entry [{id, value}]. *)
Definition link (i : Z) (v : string) : JSValue :=
  VObj [("id", VNum i); ("value", VStr v)].

(** The rows of the demo store. *)
Definition demoMO : BaserowRecord :=
  mkRecord 501 "1.00" [("MO Number", VStr "MO-1001")].

Definition demoMappings : list BaserowRecord :=
  [ mkRecord 11 "1.00"
      [ ("Finished Good", VArr [link 2184 "TN-Stevia-8oz"]);
        ("Part", VArr [link 301 "RM-PWD-Stevia"]);
        ("Part Role", VObj [("id", VNum 1); ("value", VStr "Raw Material")]);
        ("Quantity", VStr "1.5") ];
    mkRecord 12 "2.00"
      [ ("Finished Good", VArr [link 2184 "TN-Stevia-8oz"]);
        ("Part", VArr [link 302 "BTL-8oz"]);
        ("Part Role", VObj [("id", VNum 2); ("value", VStr "Packaging")]);
        ("Quantity", VStr "1") ];
    mkRecord 13 "3.00"
      [ ("Finished Good", VArr [link 2200 "TN-Monk-Fruit"]);
        ("Part", VArr [link 303 "RM-PWD-Monk"]);
        ("Quantity", VStr "2") ];
    mkRecord 14 "4.00"
      [ ("Finished Good", VArr [link 2184 "TN-Stevia-8oz"]);
        ("Part", VArr []) ] ].

Definition demoFinishedGoods : list BaserowRecord :=
  [ mkRecord 2184 "1.00" [("iSKU", VStr "TN-Stevia-8oz")] ].

Definition demoParts : list BaserowRecord :=
  [ mkRecord 301 "1.00" [("BOM ID", VStr "RM-PWD-Stevia")];
    mkRecord 302 "2.00" [("BOM ID", VStr "BTL-8oz")];
    mkRecord 303 "3.00" [("Name", VStr "RM-PWD-Monk")] ].

Definition listOf (rows : list BaserowRecord) : BaserowListResponse :=
  {| count := Z.of_nat (List.length rows); next := None; previous := None;
     results := rows; _note := None |}.

(** A store holding these rows; list calls are answered by table alone,
    a created row gets an identifier that counts the calls received. *)
Definition demoRemote : Remote :=
  {| listReply := fun _ c =>
       if (path c =? rowsPath 749415)%string then Replied (listOf [demoMO])
       else if (path c =? rowsPath 748088)%string then Replied (listOf demoMappings)
       else if (path c =? rowsPath 747400)%string then Replied (listOf demoFinishedGoods)
       else if (path c =? rowsPath 744797)%string then Replied (listOf demoParts)
       else Status 404 "Not Found" "" VNull;
     recordReply := fun h c =>
       match method c, body c with
       | POST, Some data =>
           Replied (mkRecord (9000 + Z.of_nat (List.length h)) "1.00" data)
       | PATCH, Some data => Replied (mkRecord 501 "1.00" data)
       | _, _ => Status 405 "Method Not Allowed" "" VNull
       end;
     deleteReply := fun _ _ => Replied tt |}.

(** Three parts-usage items whose [bom_id]s all resolve. *)
Definition demoUsage (bom q : Z) : PartsUsageItem :=
  {| bom_id := bom; quantity := q; lot_id := None; lot_number := None;
     label_id := None; label_code := None; waste := None; notes := None |}.

Definition demoPartsUsage : list PartsUsageItem :=
  [ demoUsage 11 5;
    {| bom_id := 12; quantity := 40; lot_id := Some 77; lot_number := None;
       label_id := None; label_code := None; waste := Some 2;
       notes := Some "scanned" |};
    demoUsage 11 1 ].

(** Two items, the second with a [bom_id] that no mapping carries. *)
Definition unresolvedPartsUsage : list PartsUsageItem :=
  [ demoUsage 11 5; demoUsage 99 1 ].

(** The worker's environment for the same store. *)
Definition demoWorkerEnv : Worker.WorkerEnv :=
  {| Worker.TABLE_ID_MO := Some "749415";
     Worker.TABLE_ID_FG := Some "747400";
     Worker.TABLE_ID_PARTS_USAGE := Some "758739";
     Worker.TABLE_ID_FG_PARTS_MAPPING := Some "748088";
     Worker.TABLE_ID_RM_LOTS := None;
     Worker.TABLE_ID_LABEL_INVENTORY := None;
     Worker.TABLE_ID_PARTS := Some "744797" |}.

(** ** security/allowList.ts: the remaining accessors *)

(** [AllowListManager.getTableInfo]. *)
Definition getTableInfo (m : AllowListManager) (tableName : string)
  : Result (option TableInfo) :=
  match isTableAllowed m tableName with
  | Throw e => Throw e
  | Ok false => Ok None
  | Ok true => Ok (assoc tableName (tableMap m))
  end.

(** [AllowListManager.getTableCount]. *)
Definition getTableCount (m : AllowListManager) : nat :=
  List.length (tableMap m).

(** ** Filter utilities

    [Filters] is an object of filter values or [undefined]; a filter value
    is a string, a number, a boolean or [null]. *)

Definition BASEROW_FILTER_TYPES : list string :=
  [ "equal"; "not_equal"; "contains"; "contains_not"; "higher_than";
    "lower_than"; "date_equal"; "date_not_equal"; "date_before"; "date_after";
    "empty"; "not_empty"; "filename_contains"; "has_file_type";
    "single_select_equal"; "single_select_not_equal"; "boolean";
    "link_row_has"; "link_row_has_not"; "multiple_select_has";
    "multiple_select_has_not" ].

Record FilterConfig : Type := mkFilterConfig {
  fc_field : string;
  fc_type : string;
  fc_value : JSValue;
}.

(** [buildFilterParam]. *)
Definition buildFilterParam (config : FilterConfig) : string * string :=
  ("filter__" ++ fc_field config ++ "__" ++ fc_type config,
   match fc_value config with
   | VNull => ""
   | value => toStr value
   end).

(** [buildSimpleFilters]; [defaultType] defaults to [equal]. *)
Definition buildSimpleFilters (filters : option JSObject)
    (defaultType : option string) : list (string * string) :=
  let type := match defaultType with Some t => t | None => "equal" end in
  match filters with
  | None => []
  | Some fs =>
      fold_left
        (fun params fv =>
           match snd fv with
           | VUndef => params
           | value =>
               mapSet (fst (buildFilterParam (mkFilterConfig (fst fv) type value)))
                      (snd (buildFilterParam (mkFilterConfig (fst fv) type value)))
                      params
           end) fs []
  end.

(** [buildAdvancedFilters]. *)
Definition buildAdvancedFilters (configs : list FilterConfig)
  : list (string * string) :=
  fold_left (fun params config =>
               mapSet (fst (buildFilterParam config))
                      (snd (buildFilterParam config)) params) configs [].

(** [isValidFilterType]. *)
Definition isValidFilterType (type : string) : bool :=
  includesStr BASEROW_FILTER_TYPES type.

(** The match of [/^filter__(.+)__(.+)$/].  A dot matches any character
    but a line terminator (the model knows LF and CR); both groups are
    greedy, so the first group ends at the last [__] that still leaves a
    character for the second. *)
Definition isLineTerminator (c : ascii) : bool :=
  let n := nat_of_ascii c in ((n =? 10) || (n =? 13))%nat.

Definition noLineTerminator (s : string) : bool :=
  forallb (fun c => negb (isLineTerminator c)) (list_ascii_of_string s).

Fixpoint stripPrefix (p s : string) : option string :=
  match p, s with
  | EmptyString, _ => Some s
  | String a p', String b s' =>
      if Ascii.eqb a b then stripPrefix p' s' else None
  | String _ _, EmptyString => None
  end.

(** [s = f ++ "__" ++ t] with [t] not empty and [f] as long as possible. *)
Fixpoint lastSplit (s : string) : option (string * string) :=
  match s with
  | EmptyString => None
  | String c s' =>
      match lastSplit s' with
      | Some (f, t) => Some (String c f, t)
      | None =>
          match stripPrefix "__" s with
          | Some (String c' t') => Some (EmptyString, String c' t')
          | _ => None
          end
      end
  end.

Definition matchFilterParam (paramName : string) : option (string * string) :=
  match stripPrefix "filter__" paramName with
  | Some rest =>
      if noLineTerminator rest then
        match lastSplit rest with
        | Some (String c f, t) => Some (String c f, t)
        | _ => None
        end
      else None
  | None => None
  end.

(** [parseFilterParam]. *)
Definition parseFilterParam (paramName : string) : option (string * string) :=
  match matchFilterParam paramName with
  | None => None
  | Some (field, type) =>
      if (field =? "")%string || (type =? "")%string
         || negb (isValidFilterType type)
      then None else Some (field, type)
  end.

(** *** Assignment to an object made by a literal

    [o[k] = v] creates or overwrites an own property, except where the
    lookup of [k] along the prototype chain meets a setter.  The objects
    here start as literals, and the values come from JSON data, so the one
    setter there is is the accessor [__proto__] of [Object.prototype].
    The state of such an object is its own properties, in enumeration
    order, and its prototype: [Object.prototype] as the literal made it,
    [null], or an object or array of the data whose prototype in turn is
    the standard one. *)
Inductive Prototype : Type :=
| ObjectPrototype
| NullPrototype
| ValuePrototype (v : JSValue).

Record PlainObject : Type := mkPlain {
  own : JSObject;
  proto : Prototype;
}.

(** [{}]. *)
Definition emptyObject : PlainObject := mkPlain [] ObjectPrototype.

(** The lookup of [__proto__] from [o] ends at the accessor: [o] has no
    property of that name of its own, its prototype is not [null], and a
    prototype taken from the data has no property of that name either (it
    would be a writable data property, and the assignment would create an
    own property of [o]). *)
Definition reachesProtoSetter (o : PlainObject) : bool :=
  negb (has "__proto__" (own o))
  && match proto o with
     | ObjectPrototype => true
     | NullPrototype => false
     | ValuePrototype (VObj props) => negb (has "__proto__" props)
     | ValuePrototype _ => true
     end.

(** [o[k] = v].  The setter of [__proto__] changes the prototype when [v]
    is an object or [null] and does nothing otherwise; it never creates a
    property. *)
Definition objSet (k : string) (v : JSValue) (o : PlainObject) : PlainObject :=
  if isProtoKey k && reachesProtoSetter o then
    match v with
    | VNull => mkPlain (own o) NullPrototype
    | VObj _ | VArr _ => mkPlain (own o) (ValuePrototype v)
    | _ => o
    end
  else mkPlain (mapSet k v (own o)) (proto o).

(** [Object.assign(target, source)]: every own property of [source] is
    assigned to [target], in order. *)
Definition objectAssign (target : PlainObject) (source : JSObject)
  : PlainObject :=
  fold_left (fun o kv => objSet (fst kv) (snd kv) o) source target.

(** [mergeFilters]: [Object.assign] of every defined set into a fresh
    object, in argument order.  The result is given by its own
    properties, which is what [Object.entries], [Object.keys] and
    [JSON.stringify] see of it. *)
Definition mergeFilters (filterSets : list (option JSObject)) : JSObject :=
  own (fold_left
         (fun merged filters =>
            match filters with
            | Some fs => objectAssign merged fs
            | None => merged
            end) filterSets emptyObject).

(** [cleanFilters]. *)
Definition cleanFilters (filters : option JSObject) : option JSObject :=
  match filters with
  | None => None
  | Some fs =>
      let cleaned :=
        fold_left (fun o kv => match snd kv with
                               | VUndef => o
                               | value => objSet (fst kv) value o
                               end) fs emptyObject in
      match own cleaned with
      | [] => None
      | _ :: _ => Some (own cleaned)
      end
  end.

(** [isEmptyFilters]. *)
Definition isEmptyFilters (filters : option JSObject) : bool :=
  match filters with
  | None => true
  | Some [] => true
  | Some (_ :: _) => false
  end.

(** ** Shapes of traces *)

(** Whatever the store answers, the computation extends the trace by
    calls that satisfy [P]. *)
Definition addsOnly {A : Type} (P : Call -> Prop) (m : M A) : Prop :=
  forall tr : list Call,
    exists added, snd (m tr) = app tr added /\ Forall P added.

Definition isGet (c : Call) : Prop := method c = GET.

(** The items of a request whose [bom_id] resolves against the fetched
    mappings. *)
Definition resolvedItems (partsUsage : list PartsUsageItem)
    (mappings : list BaserowRecord) : list PartsUsageItem :=
  filter (fun p => resolvesBom mappings (bom_id p)) partsUsage.

(** A store whose replies are all errors with the given status. *)
Definition failingRemote (statusCode : Z) : Remote :=
  {| listReply := fun _ _ => Status statusCode "Error" "" VNull;
     recordReply := fun _ _ => Status statusCode "Error" "" VNull;
     deleteReply := fun _ _ => Status statusCode "Error" "" VNull |}.

(** The demo store, except that the second creation it receives is
    refused. *)
Definition flakyRemote : Remote :=
  {| listReply := listReply demoRemote;
     recordReply := fun h c =>
       match method c with
       | POST =>
           if (List.length (filter (isMethod POST) h) =? 1)%nat
           then Status 400 "Bad Request" "" VNull
           else recordReply demoRemote h c
       | _ => recordReply demoRemote h c
       end;
     deleteReply := deleteReply demoRemote |}.

(** The lot record carries the internal lot number [s]. *)
Definition hasLotNumber (s : string) (lot : BaserowRecord) : bool :=
  match field lot "Internal Lot Number" with
  | VStr x => (x =? s)%string
  | _ => false
  end.

(** [value !== undefined]. *)
Definition isDefined (v : JSValue) : bool :=
  match v with
  | VUndef => false
  | _ => true
  end.

(** The list call of [search_parts] for one page of the parts table. *)
Definition partsPageCall (tableId page : Z) : Call :=
  mkCall GET (rowsPath tableId) (buildListUrl (Some []) (Some page) (Some 200)) None.

(** The table a validated request names, for the commands that name
    one. *)
Definition tableOf (request : MCPRequest) : option string :=
  match request with
  | ReadCommand table _ _ _ | CreateCommand table _ | UpdateCommand table _ _
  | DeleteCommand table _ | BatchCreateCommand table _ => Some table
  | _ => None
  end.

(** Stand-ins for the two parameters of the tool boundary in scenarios
    where no [batch_create] is made and the text of the validation message
    is not looked at. *)
Definition noMessages : JSObject -> string := fun _ => "".

Definition noBatch : string -> list JSObject -> M MCPResponse :=
  fun _ _ => throw (GenericError "batch_create is not part of this scenario").

(** Two items that carry both a name and an identifier for their lot and
    their label, and one that carries neither. *)
Definition directPartsUsage : list PartsUsageItem :=
  [ {| bom_id := 11; quantity := 5; lot_id := Some 77;
       lot_number := Some "LOT-A"; label_id := Some 31;
       label_code := Some "LBL-8oz"; waste := None; notes := None |};
    {| bom_id := 12; quantity := 40; lot_id := Some 78;
       lot_number := Some "LOT-B"; label_id := Some 32;
       label_code := Some "LBL-4oz"; waste := Some 2; notes := None |};
    demoUsage 11 1 ].

(** A store behind a gateway that answers every call with status 502 and
    a body announced as JSON that is an HTML page. *)
Definition brokenGatewayRemote : Remote :=
  {| listReply := fun _ _ =>
       Unreadable 502 "<html>Bad Gateway</html>"
                  "Unexpected token < in JSON at position 0";
     recordReply := fun _ _ =>
       Unreadable 502 "<html>Bad Gateway</html>"
                  "Unexpected token < in JSON at position 0";
     deleteReply := fun _ _ =>
       Unreadable 502 "<html>Bad Gateway</html>"
                  "Unexpected token < in JSON at position 0" |}.

(* ====================================================================== *)
(** * Part II.  Properties                                                 *)
(* ====================================================================== *)

(** ** Association lists *)

Lemma has_mapSet {A : Type} (k k' : string) (v : A) (m : list (string * A)) :
  has k' (mapSet k v m) = ((k =? k')%string || has k' m).
Proof.
  unfold has. induction m as [|[k0 v0] m IH]; simpl.
  - destruct (k =? k')%string; reflexivity.
  - destruct (k0 =? k)%string eqn:E0; simpl.
    + apply String.eqb_eq in E0. subst k0.
      destruct (k =? k')%string; reflexivity.
    + destruct (k0 =? k')%string eqn:E1.
      * apply String.eqb_eq in E1. subst k0.
        rewrite String.eqb_sym in E0.
        destruct (k =? k')%string eqn:E2; [discriminate | reflexivity].
      * exact IH.
Qed.

Lemma mapSet_not_nil {A : Type} (k : string) (v : A) (m : list (string * A)) :
  mapSet k v m <> [].
Proof.
  destruct m as [|[k0 v0] m]; simpl; [discriminate|].
  destruct (k0 =? k)%string; discriminate.
Qed.

(** ** The allow list *)

Section Initialize.

Variable env : Env.

(** The loop throws exactly when it meets a malformed identifier. *)
Lemma registerTables_throws configs tm missing log :
  isThrow (fst (fst (registerTables env configs tm missing log)))
  = existsb (fun c => isMalformed (env (envKey c))) configs.
Proof.
  revert tm missing log.
  induction configs as [|c rest IH]; intros tm missing log; simpl; [reflexivity|].
  unfold isMalformed at 1, isInvalidId.
  destruct (env (envKey c)) as [s|]; simpl; [|apply IH].
  destruct (s =? "")%string; simpl; [apply IH|].
  destruct (parseInt s) as [n|]; simpl; [|reflexivity].
  destruct (n <=? 0); simpl; [reflexivity | apply IH].
Qed.

(** A table name is in the map the loop returns exactly when it was there
    before or the loop registered it. *)
Lemma registerTables_has configs tm missing log missing' tm' log' tableName :
  registerTables env configs tm missing log = (Ok missing', tm', log') ->
  has tableName tm'
  = (has tableName tm
     || existsb (fun c => (name c =? tableName)%string
                          && negb (isMissing (env (envKey c)))) configs).
Proof.
  revert tm missing log.
  induction configs as [|c rest IH]; intros tm missing log; simpl.
  - intros H. inversion H; subst. now rewrite orb_false_r.
  - unfold isMissing at 1.
    destruct (env (envKey c)) as [s|]; simpl.
    + destruct (s =? "")%string; simpl.
      * intros H. rewrite (IH _ _ _ H). now rewrite andb_false_r.
      * destruct (parseInt s) as [n|]; [|discriminate].
        destruct (n <=? 0); [discriminate|].
        intros H. rewrite (IH _ _ _ H), has_mapSet, andb_true_r.
        rewrite (orb_comm (name c =? tableName)%string), orb_assoc.
        reflexivity.
    + intros H. rewrite (IH _ _ _ H). now rewrite andb_false_r.
Qed.

(** The map stays empty exactly when every table is missing. *)
Lemma registerTables_empty configs tm missing log missing' log' :
  registerTables env configs tm missing log = (Ok missing', [], log') ->
  tm = [] /\ forallb (fun c => isMissing (env (envKey c))) configs = true.
Proof.
  revert tm missing log.
  induction configs as [|c rest IH]; intros tm missing log; simpl.
  - intros H. inversion H; subst. auto.
  - unfold isMissing at 1.
    destruct (env (envKey c)) as [s|]; simpl.
    + destruct (s =? "")%string; simpl; [apply IH|].
      destruct (parseInt s) as [n|]; [|discriminate].
      destruct (n <=? 0); [discriminate|].
      intros H. apply IH in H. destruct H as [H _].
      now apply mapSet_not_nil in H.
    + apply IH.
Qed.

Lemma registerTables_all_missing configs tm missing log :
  forallb (fun c => isMissing (env (envKey c))) configs = true ->
  exists missing',
    registerTables env configs tm missing log = (Ok missing', tm, log).
Proof.
  revert missing.
  induction configs as [|c rest IH]; intros missing; simpl.
  - intros _. eexists. reflexivity.
  - unfold isMissing at 1. intros H. apply andb_true_iff in H.
    destruct H as [Hc Hrest].
    destruct (env (envKey c)) as [s|]; [|now apply IH].
    rewrite Hc. now apply IH.
Qed.

(** The list of missing tables grows by one entry per missing table. *)
Lemma registerTables_missing configs tm missing log missing' tm' log' :
  registerTables env configs tm missing log = (Ok missing', tm', log') ->
  List.length missing'
  = (List.length missing
     + List.length (filter (fun c => isMissing (env (envKey c))) configs))%nat.
Proof.
  revert tm missing log.
  induction configs as [|c rest IH]; intros tm missing log; simpl.
  - intros H. inversion H; subst. lia.
  - unfold isMissing at 1.
    destruct (env (envKey c)) as [s|]; simpl.
    + destruct (s =? "")%string; simpl.
      * intros H. rewrite (IH _ _ _ H). unfold push. rewrite length_app. simpl. lia.
      * destruct (parseInt s) as [n|]; [|discriminate].
        destruct (n <=? 0); [discriminate|]. apply IH.
    + intros H. rewrite (IH _ _ _ H). unfold push. rewrite length_app. simpl. lia.
Qed.

End Initialize.

Lemma Ok_inj {A : Type} (a b : A) : Ok a = Ok b -> a = b.
Proof. intros H. now inversion H. Qed.

Lemma TABLE_CONFIGS_allowed c :
  In c TABLE_CONFIGS -> includesStr ALLOWED_TABLE_NAMES (name c) = true.
Proof.
  simpl. intros H.
  repeat (destruct H as [H|H]; [subst c; reflexivity|]). contradiction.
Qed.

Lemma has_assoc {A : Type} (k : string) (m : list (string * A)) :
  has k m = true -> exists v, assoc k m = Some v.
Proof.
  unfold has. destruct (assoc k m) as [v|]; [eauto | discriminate].
Qed.

(** The exact outcome of [initialize] on a fresh manager.  It throws if
    and only if some table's variable is set to a non-empty string whose
    [parseInt(., 10)] is [NaN] or not positive, or every table's variable
    is unset or empty.  When it does not throw, the manager is
    initialized, a table name is reachable exactly when it is one of the
    known tables whose variable is set and non-empty (and then resolves to
    an identifier), and a warning is logged whenever some table is
    missing. *)
Theorem initialize_outcome (env : Env) :
  let out := initialize env newAllowListManager in
  (isThrow (init_result out) = true <->
     (exists c, In c TABLE_CONFIGS /\ isMalformed (env (envKey c)) = true)
     \/ (forall c, In c TABLE_CONFIGS -> isMissing (env (envKey c)) = true))
  /\ (isThrow (init_result out) = false ->
      initialized (init_manager out) = true
      /\ (forall tableName,
            isTableAllowed (init_manager out) tableName = Ok true <->
            exists c, In c TABLE_CONFIGS /\ name c = tableName
                      /\ isMissing (env (envKey c)) = false)
      /\ (forall tableName,
            isTableAllowed (init_manager out) tableName = Ok true ->
            exists tableId, getTableId (init_manager out) tableName = Ok tableId)
      /\ ((exists c, In c TABLE_CONFIGS /\ isMissing (env (envKey c)) = true) ->
          exists msg, In (LWarn, msg) (init_log out))).
Proof.
  unfold initialize. cbn [initialized newAllowListManager tableMap].
  pose proof (registerTables_throws env TABLE_CONFIGS [] [] []) as Hthrow.
  destruct (registerTables env TABLE_CONFIGS [] [] []) as [[r tm] log] eqn:E.
  cbn [fst] in Hthrow.
  destruct r as [missing|e]; cbn [isThrow] in Hthrow.
  - (* the loop ran to its end *)
    assert (Hnomal : ~ exists c, In c TABLE_CONFIGS
                                 /\ isMalformed (env (envKey c)) = true).
    { intros [c [Hin Hc]].
      assert (existsb (fun c => isMalformed (env (envKey c))) TABLE_CONFIGS = true)
        by (apply existsb_exists; eauto).
      congruence. }
    destruct tm as [|b tm]; cbn [init_result init_manager init_log isThrow].
    + split; [|discriminate].
      split; [intros _|reflexivity].
      right. intros c Hin.
      destruct (registerTables_empty _ _ _ _ _ _ _ E) as [_ Hall].
      rewrite forallb_forall in Hall. now apply Hall.
    + split.
      * split; [discriminate|].
        intros [Hmal|Hall]; [now destruct Hnomal|].
        exfalso.
        assert (Hall' : forallb (fun c => isMissing (env (envKey c)))
                                TABLE_CONFIGS = true)
          by (apply forallb_forall; exact Hall).
        destruct (registerTables_all_missing env TABLE_CONFIGS [] [] [] Hall')
          as [missing' E'].
        rewrite E in E'. discriminate.
      * intros _.
        assert (Hreach : forall tableName,
                   isTableAllowed {| tableMap := b :: tm; initialized := true |}
                                  tableName = Ok true <->
                   exists c, In c TABLE_CONFIGS /\ name c = tableName
                             /\ isMissing (env (envKey c)) = false).
        { intros tableName. unfold isTableAllowed.
          cbn [initialized negb tableMap].
          rewrite (registerTables_has _ _ _ _ _ _ _ _ tableName E).
          cbn [has assoc orb]. split.
          - intros H. apply Ok_inj in H. apply andb_true_iff in H.
            destruct H as [_ H]. apply existsb_exists in H.
            destruct H as [c [Hin Hc]]. apply andb_true_iff in Hc.
            destruct Hc as [Hn Hm]. apply String.eqb_eq in Hn.
            exists c. repeat split; auto.
            now destruct (isMissing (env (envKey c))).
          - intros [c [Hin [Hn Hm]]]. f_equal. apply andb_true_iff. split.
            + subst tableName. now apply TABLE_CONFIGS_allowed.
            + apply existsb_exists. exists c. split; [exact Hin|].
              rewrite Hm. apply andb_true_iff. split; [|reflexivity].
              now apply String.eqb_eq. }
        split; [reflexivity|]. split; [exact Hreach|]. split.
        -- intros tableName Hallowed. unfold getTableId. rewrite Hallowed.
           unfold isTableAllowed in Hallowed.
           cbn [initialized negb tableMap] in Hallowed.
           apply Ok_inj in Hallowed. apply andb_true_iff in Hallowed.
           destruct Hallowed as [_ Hhas]. apply has_assoc in Hhas.
           destruct Hhas as [info Hinfo]. cbn [tableMap]. rewrite Hinfo. eauto.
        -- intros [c [Hin Hc]].
           pose proof (registerTables_missing _ _ _ _ _ _ _ _ E) as Hlen.
           assert (Hpos : (0 < List.length
                                 (filter (fun c => isMissing (env (envKey c)))
                                         TABLE_CONFIGS))%nat).
           { assert (Hf : In c (filter (fun c => isMissing (env (envKey c)))
                                       TABLE_CONFIGS))
               by (apply filter_In; auto).
             destruct (filter _ TABLE_CONFIGS); [contradiction | simpl; lia]. }
           destruct missing as [|m0 missing];
             [exfalso; cbn [List.length] in Hlen; lia|].
           eexists. unfold push. apply in_or_app. left.
           apply in_or_app. right. left. reflexivity.
  - (* the loop threw *)
    cbn [init_result init_manager init_log isThrow].
    split; [|discriminate].
    split; [intros _|reflexivity].
    left. symmetry in Hthrow. apply existsb_exists in Hthrow.
    destruct Hthrow as [c [Hin Hc]]. eauto.
Qed.

(** C8, at the failing input.  With [TABLE_ID_PARTS=12abc] and nothing
    else set, an identifier is present and is not a positive integer, so
    initialization ought to fail; yet [initialize] completes and registers
    the table [parts] under the identifier 12, although its own error
    message demands a positive integer. *)
Lemma initialize_accepts_trailing_text :
  let env := envWith "TABLE_ID_PARTS" "12abc" in
  claimedInitFailure env
  /\ init_result (initialize env newAllowListManager) = Ok tt
  /\ getTableId (init_manager (initialize env newAllowListManager)) "parts"
     = Ok 12.
Proof.
  cbv zeta. split; [|split; reflexivity].
  left. exists (mkTableConfig "parts" "TABLE_ID_PARTS"
                  "Parts/Components/Raw Materials master table"), "12abc".
  repeat split.
  - simpl. do 8 right. left. reflexivity.
  - discriminate.
Qed.

(** Other strings that [parseInt] reads as a positive number. *)
Example parseInt_lenient :
  parseInt "12abc" = Some 12 /\ parseInt "1.5" = Some 1
  /\ parseInt " 42" = Some 42 /\ parseInt "+7" = Some 7
  /\ parseInt "abc" = None /\ parseInt "-3" = Some (-3)
  /\ parseInt "" = None.
Proof. repeat split. Qed.

(** ** The table service *)

Lemma includesStr_In (xs : list string) (x : string) :
  includesStr xs x = true <-> In x xs.
Proof.
  unfold includesStr. rewrite existsb_exists. split.
  - intros [y [Hin Hy]]. apply String.eqb_eq in Hy. now subst.
  - intros Hin. exists x. split; [exact Hin | apply String.eqb_refl].
Qed.

Lemma has_false_assoc {A : Type} (k : string) (m : list (string * A)) :
  has k m = false <-> assoc k m = None.
Proof.
  unfold has. destruct (assoc k m); split; congruence.
Qed.


(** ** The response shaper *)

Lemma assoc_map_values {A B : Type} (f : string -> A -> B) (k : string)
    (m : list (string * A)) :
  assoc k (map (fun kv => (fst kv, f (fst kv) (snd kv))) m)
  = option_map (f k) (assoc k m).
Proof.
  induction m as [|[k0 v0] m IH]; simpl; [reflexivity|].
  destruct (k0 =? k)%string eqn:E; [|exact IH].
  apply String.eqb_eq in E. now subst.
Qed.

Lemma assoc_filter_keys {A : Type} (p : string -> bool) (k : string)
    (m : list (string * A)) :
  p k = true -> assoc k (filter (fun kv => p (fst kv)) m) = assoc k m.
Proof.
  intros Hk. induction m as [|[k0 v0] m IH]; simpl; [reflexivity|].
  destruct (p k0) eqn:Ep; simpl.
  - destruct (k0 =? k)%string; [reflexivity | exact IH].
  - destruct (k0 =? k)%string eqn:E; [|exact IH].
    apply String.eqb_eq in E. congruence.
Qed.

Lemma assoc_notin {A : Type} (k : string) (m : list (string * A)) :
  ~ In k (map fst m) -> assoc k m = None.
Proof.
  induction m as [|[k0 v0] m IH]; intros Hnot; [reflexivity|]. cbn.
  destruct (k0 =? k)%string eqn:E.
  - apply String.eqb_eq in E. exfalso. apply Hnot. now left.
  - apply IH. intros Hin. apply Hnot. now right.
Qed.

(** [simplified[key]] is the simplification of [record[key]]. *)
Lemma field_simplifyRecord record key :
  isCopiedKey key = true ->
  assoc key (fields (simplifyRecord record))
  = option_map (simplifyField key) (assoc key (fields record)).
Proof.
  intros Hk. unfold simplifyRecord. cbn [fields].
  rewrite (assoc_map_values simplifyField).
  now rewrite (assoc_filter_keys isCopiedKey).
Qed.

(** A key that is not copied is not a key of the result. *)
Lemma simplifyRecord_not_copied record key :
  isCopiedKey key = false ->
  ~ In key (map fst (fields (simplifyRecord record))).
Proof.
  intros Hk Hin. unfold simplifyRecord in Hin. cbn [fields] in Hin.
  rewrite map_map in Hin. cbn [fst] in Hin.
  apply in_map_iff in Hin. destruct Hin as ([k v] & <- & Hin).
  apply filter_In in Hin. destruct Hin as [_ Hc]. cbn [fst] in *. congruence.
Qed.

(** A value is left alone unless its key is in the list and it is an
    array. *)
Lemma simplifyField_unchanged key value :
  includesStr FIELDS_TO_SIMPLIFY key = false
  \/ (forall items, value <> VArr items) ->
  simplifyField key value = value.
Proof.
  intros [Hkey|Hval]; unfold simplifyField.
  - rewrite Hkey. now destruct value.
  - destruct value; try reflexivity. now destruct (Hval items).
Qed.

(** The names of [FIELDS_TO_SIMPLIFY] are copied keys. *)
Lemma FIELDS_TO_SIMPLIFY_copied key :
  includesStr FIELDS_TO_SIMPLIFY key = true -> isCopiedKey key = true.
Proof.
  intros H. apply includesStr_In in H. unfold FIELDS_TO_SIMPLIFY in H.
  cbn [In] in H.
  repeat (destruct H as [<-|H]; [reflexivity|]). contradiction.
Qed.

(** What [simplifyRecord] keeps, for every record: [id] and [order]; the
    keys other than [id], [order] and [__proto__], in their order; the
    value of every such key that is not in [FIELDS_TO_SIMPLIFY] or is not
    an array; only listed array-valued fields among them are altered. *)
Lemma simplifyRecord_frame_copied (record : BaserowRecord) :
  id (simplifyRecord record) = id record
  /\ order (simplifyRecord record) = order record
  /\ map fst (fields (simplifyRecord record))
     = map fst (filter (fun kv => isCopiedKey (fst kv)) (fields record))
  /\ (forall key,
        isCopiedKey key = true ->
        includesStr FIELDS_TO_SIMPLIFY key = false
        \/ (forall items, field record key <> VArr items) ->
        field (simplifyRecord record) key = field record key)
  /\ (forall key,
        isCopiedKey key = true ->
        field (simplifyRecord record) key <> field record key ->
        includesStr FIELDS_TO_SIMPLIFY key = true
        /\ exists items, field record key = VArr items).
Proof.
  split; [reflexivity|]. split; [reflexivity|]. split.
  { unfold simplifyRecord. cbn [fields]. rewrite map_map. reflexivity. }
  assert (Hread : forall key, isCopiedKey key = true ->
            field (simplifyRecord record) key
            = match assoc key (fields record) with
              | Some v => simplifyField key v
              | None => VUndef
              end).
  { intros key Hk. unfold field. rewrite (field_simplifyRecord record key Hk).
    now destruct (assoc key (fields record)). }
  split.
  - intros key Hk Hframe. rewrite (Hread key Hk). unfold field in *.
    destruct (assoc key (fields record)) as [v|]; [|reflexivity].
    now apply simplifyField_unchanged.
  - intros key Hk Hdiff. rewrite (Hread key Hk) in Hdiff. unfold field in *.
    destruct (assoc key (fields record)) as [v|]; [|now destruct Hdiff].
    destruct (includesStr FIELDS_TO_SIMPLIFY key) eqn:Ekey.
    + split; [reflexivity|]. destruct v; try (now destruct Hdiff). eauto.
    + destruct Hdiff. apply simplifyField_unchanged. now left.
Qed.

(** C10.  The per-record simplifier loses a field.  [__proto__] is not a
    name of [FIELDS_TO_SIMPLIFY], so the claim has every record keep a
    field of that name with its value.  For every record that has one, the
    simplified record has no such key and reads [undefined] there, while
    [id], [order] and every other field outside the list come back
    unchanged; on the row [{id: 7, order: "1.00", Name: "Stevia",
    __proto__: "lot A"}] the result is [{id: 7, order: "1.00", Name:
    "Stevia"}]. *)
Theorem simplifyRecord_loses_proto_field :
  includesStr FIELDS_TO_SIMPLIFY "__proto__" = false
  /\ (forall record value,
        assoc "__proto__" (fields record) = Some value ->
        field record "__proto__" = value
        /\ field (simplifyRecord record) "__proto__" = VUndef
        /\ ~ In "__proto__" (map fst (fields (simplifyRecord record)))
        /\ id (simplifyRecord record) = id record
        /\ order (simplifyRecord record) = order record
        /\ (forall key,
              isIdOrOrder key = false -> key <> "__proto__"%string ->
              includesStr FIELDS_TO_SIMPLIFY key = false ->
              field (simplifyRecord record) key = field record key))
  /\ simplifyRecord
       (mkRecord 7 "1.00" [("Name", VStr "Stevia"); ("__proto__", VStr "lot A")])
     = mkRecord 7 "1.00" [("Name", VStr "Stevia")].
Proof.
  split; [reflexivity|]. split; [|reflexivity].
  intros record value Hv.
  pose proof (simplifyRecord_not_copied record "__proto__" eq_refl) as Hnot.
  split; [unfold field; now rewrite Hv|].
  split; [unfold field; now rewrite (assoc_notin _ _ Hnot)|].
  split; [exact Hnot|]. split; [reflexivity|]. split; [reflexivity|].
  intros key Hk Hp Hl.
  destruct (simplifyRecord_frame_copied record) as (_ & _ & _ & Hframe & _).
  apply Hframe; [|now left].
  unfold isCopiedKey, isProtoKey. rewrite Hk.
  apply String.eqb_neq in Hp. now rewrite Hp.
Qed.

Lemma firstn_length_firstn {A : Type} (n : nat) (l : list A) :
  firstn (List.length (firstn n l)) l = firstn n l.
Proof.
  rewrite length_firstn.
  destruct (Nat.le_ge_cases n (List.length l)) as [H|H].
  - now rewrite Nat.min_l.
  - rewrite Nat.min_r by exact H.
    rewrite firstn_all. symmetry. now apply firstn_all2.
Qed.


(** A listed field of the simplified record is the simplification of the
    field of the record. *)
Lemma simplifyRecord_listed_field record key :
  includesStr FIELDS_TO_SIMPLIFY key = true ->
  field (simplifyRecord record) key
  = match assoc key (fields record) with
    | Some v => simplifyField key v
    | None => VUndef
    end.
Proof.
  intros Hkey. unfold field.
  rewrite (field_simplifyRecord record key (FIELDS_TO_SIMPLIFY_copied key Hkey)).
  now destruct (assoc key (fields record)).
Qed.

Lemma Forall2_map_right {A B : Type} (P : A -> B -> Prop) (f : A -> B)
    (l : list A) :
  (forall a, In a l -> P a (f a)) -> Forall2 P l (map f l).
Proof.
  induction l as [|a l IH]; intros H; cbn [map]; constructor.
  - apply H. now left.
  - apply IH. intros b Hb. apply H. now right.
Qed.

(** C7 (as amended).  Every returned record stands for the input record
    at the same position: it has that record's [id] and [order], and for
    every field of it named in [FIELDS_TO_SIMPLIFY] whose value is an
    array, the returned record holds under that name: the empty array if
    the array is empty; for an array of one to three entries, the array in
    which each entry that is an object with an [id] is replaced by
    [{id, value}] and every other entry is kept as it is; for a longer
    array, [{_count, _first, _note}], where [_first] is [{id}] of the first
    entry when that is an object with an [id] and the first entry itself
    otherwise.  If the serialized simplified records exceed 50000
    characters and more than 10 of them remain, exactly the first 10 are
    returned with the truncation note; otherwise, if the input held more
    than 25 records, the (at most 25) simplified records are returned with
    the lighter note giving their number and the total; otherwise they are
    returned with no note added.  The shaper is a total function: it has no
    error outcome. *)
Theorem simplifyResponse_shape (stringifyLength : list BaserowRecord -> Z)
    (response : BaserowListResponse) :
  let limited := firstn 25 (results response) in
  let simplified := map simplifyRecord limited in
  let out := simplifyResponse stringifyLength response in
  Forall2
    (fun record shaped =>
       id shaped = id record
       /\ order shaped = order record
       /\ forall key,
            includesStr FIELDS_TO_SIMPLIFY key = true ->
            (field record key = VArr [] -> field shaped key = VArr [])
            /\ (forall items,
                  (0 < List.length items <= 3)%nat ->
                  field record key = VArr items ->
                  field shaped key
                  = VArr (map (fun item =>
                                 if isObjectWithId item
                                 then VObj [("id", getProp item "id");
                                            ("value", getProp item "value")]
                                 else item) items))
            /\ (forall firstItem items,
                  (3 < List.length (firstItem :: items))%nat ->
                  field record key = VArr (firstItem :: items) ->
                  field shaped key
                  = VObj [ ("_count",
                            VNum (Z.of_nat (List.length (firstItem :: items))));
                           ("_first", if isObjectWithId firstItem
                                      then VObj [("id", getProp firstItem "id")]
                                      else firstItem);
                           ("_note",
                            VStr (numberToString
                                    (Z.of_nat (List.length (firstItem :: items)))
                                  ++ " items (simplified)")) ]))
    (firstn (List.length (results out)) (results response)) (results out)
  /\ count out = count response /\ next out = next response
  /\ previous out = previous response
  /\ (50000 < stringifyLength simplified /\ (10 < List.length simplified)%nat ->
      List.length (results out) = 10%nat
      /\ results out = firstn 10 simplified
      /\ _note out = Some ("Response truncated: showing 10 of "
                           ++ numberToString (count response)
                           ++ " records. Use filters for specific data."))
  /\ (~ (50000 < stringifyLength simplified /\ (10 < List.length simplified)%nat) ->
      results out = simplified
      /\ ((25 < List.length (results response))%nat ->
          _note out = Some ("Response limited: showing 25 of "
                            ++ numberToString (count response)
                            ++ " records. Use pagination or filters."))
      /\ ((List.length (results response) <= 25)%nat ->
          _note out = _note response)).
Proof.
  cbv zeta. split; [|split; [|split; [|split; [|split]]]].
  - assert (Hres : results (simplifyResponse stringifyLength response)
                   = map simplifyRecord
                       (firstn (List.length
                                  (results (simplifyResponse stringifyLength
                                              response)))
                               (results response))).
    { unfold simplifyResponse, MAX_RECORDS_PER_PAGE.
      destruct ((MAX_RESPONSE_CHARS <? _) && _) eqn:E1; cbn [results].
      + rewrite firstn_map, firstn_firstn, length_map.
        now rewrite firstn_length_firstn.
      + destruct (List.length (firstn 25 (results response))
                  <? List.length (results response))%nat; cbn [results];
          now rewrite length_map, firstn_length_firstn. }
    rewrite Hres at 2. apply Forall2_map_right. intros record _.
    split; [reflexivity|]. split; [reflexivity|]. intros key Hkey.
    rewrite (simplifyRecord_listed_field record key Hkey). unfold field.
    destruct (assoc key (fields record)) as [v|].
    + unfold simplifyField. split; [|split].
      * intros ->. now rewrite Hkey.
      * intros items [Hpos Hle] ->. rewrite Hkey.
        destruct items as [|i0 items]; [simpl in Hpos; lia|].
        apply Nat.leb_le in Hle. rewrite Hle. reflexivity.
      * intros firstItem items Hlen ->. rewrite Hkey.
        apply Nat.leb_gt in Hlen. rewrite Hlen. reflexivity.
    + split; [|split]; intros; discriminate.
  - unfold simplifyResponse.
    destruct (_ && _); [reflexivity|].
    now destruct (List.length _ <? List.length _)%nat.
  - unfold simplifyResponse.
    destruct (_ && _); [reflexivity|].
    now destruct (List.length _ <? List.length _)%nat.
  - unfold simplifyResponse.
    destruct (_ && _); [reflexivity|].
    now destruct (List.length _ <? List.length _)%nat.
  - intros [Hbig Hmany]. unfold simplifyResponse, MAX_RECORDS_PER_PAGE,
      MAX_RESPONSE_CHARS.
    apply Z.ltb_lt in Hbig. rewrite Hbig.
    pose proof Hmany as Hmany'. apply Nat.ltb_lt in Hmany'. rewrite Hmany'.
    cbn [andb results _note]. split; [|split; reflexivity].
    rewrite length_firstn. lia.
  - intros Hnot. unfold simplifyResponse, MAX_RECORDS_PER_PAGE,
      MAX_RESPONSE_CHARS.
    assert ((50000 <? stringifyLength (map simplifyRecord
                                         (firstn 25 (results response))))
            && (10 <? List.length (map simplifyRecord
                                     (firstn 25 (results response))))%nat
            = false) as ->.
    { apply andb_false_iff.
      destruct (50000 <? _) eqn:Ea; [|now left].
      destruct (10 <? _)%nat eqn:Eb; [|now right].
      exfalso. apply Hnot. apply Z.ltb_lt in Ea. apply Nat.ltb_lt in Eb. auto. }
    destruct (List.length _ <? List.length _)%nat eqn:E2; cbn [results _note].
    + split; [reflexivity|]. apply Nat.ltb_lt in E2. rewrite length_firstn in E2.
      split; [intros Hlong | intros Hle; lia].
      rewrite length_firstn. now rewrite Nat.min_l by lia.
    + split; [reflexivity|]. apply Nat.ltb_ge in E2. rewrite length_firstn in E2.
      split; [intros Hlong; lia | reflexivity].
Qed.

(** C7 (as stated) fails.  [Labels] is in the list; its one-entry array
    holds an object without an [id], which is returned as it is and is not
    an [{id, value}] pair; and a four-entry array of strings collapses to
    an object whose [_first] is the first string, not [{id}].  The shaper
    returns a record with such a [Labels] field as it came. *)
Lemma simplifyField_keeps_entries_without_id :
  includesStr FIELDS_TO_SIMPLIFY "Labels" = true
  /\ simplifyField "Labels" (VArr [lookupEntry]) = VArr [lookupEntry]
  /\ isIdValuePair lookupEntry = false
  /\ simplifyField "Labels" (VArr [VStr "a"; VStr "b"; VStr "c"; VStr "d"])
     = VObj [("_count", VNum 4); ("_first", VStr "a");
             ("_note", VStr "4 items (simplified)")]
  /\ isCollapsedWithIdOnly
       (simplifyField "Labels" (VArr [VStr "a"; VStr "b"; VStr "c"; VStr "d"]))
     = false
  /\ results (simplifyResponse (fun _ => 0)
                (listOf [mkRecord 1 "1.00" [("Labels", VArr [lookupEntry])]]))
     = [mkRecord 1 "1.00" [("Labels", VArr [lookupEntry])]].
Proof. repeat split. Qed.

(** ** Runs of the monad *)

Lemma issued_app (tr added : list Call) : issued tr (app tr added) = added.
Proof.
  unfold issued. induction tr as [|c tr IH]; simpl; [reflexivity | exact IH].
Qed.

Lemma issued_refl (tr : list Call) : issued tr tr = [].
Proof.
  rewrite <- (app_nil_r tr) at 2. apply issued_app.
Qed.

Lemma bind_Ok {A B : Type} (m : M A) (k : A -> M B) tr b tr' :
  bind m k tr = (Ok b, tr') ->
  exists a tr1, m tr = (Ok a, tr1) /\ k a tr1 = (Ok b, tr').
Proof.
  unfold bind. destruct (m tr) as [[a|e] tr1]; [eauto | discriminate].
Qed.

Lemma lift_Ok {A : Type} (r : Result A) tr a tr' :
  lift r tr = (Ok a, tr') -> r = Ok a /\ tr' = tr.
Proof. unfold lift. intros H. inversion H. auto. Qed.

Lemma ret_Ok {A : Type} (x : A) tr a tr' :
  ret x tr = (Ok a, tr') -> a = x /\ tr' = tr.
Proof. unfold ret. intros H. inversion H. auto. Qed.

(** One step of a successful run: split [x <- m ;; k] into the run of [m]
    and the run of the continuation. *)
Ltac bind_inv H a tr1 Ha :=
  apply bind_Ok in H; destruct H as [a [tr1 [Ha H]]].

Lemma request_trace {A : Type} (reply : list Call -> Call -> HttpOutcome A)
    (c : Call) tr :
  snd (request reply c tr) = push tr c.
Proof. reflexivity. Qed.

Lemma request_Ok {A : Type} (reply : list Call -> Call -> HttpOutcome A)
    (c : Call) tr a tr' :
  request reply c tr = (Ok a, tr') ->
  reply tr c = Replied a /\ tr' = push tr c.
Proof.
  unfold request. destruct (reply tr c); intros H; inversion H; auto.
Qed.

(** A successful [readRecords]: the table validated, one GET was issued
    and the store replied with the payload. *)
Lemma readRecords_Ok al remote tableName filters page size tr r tr' :
  TablesService.readRecords al remote tableName filters page size tr = (Ok r, tr') ->
  exists tableId,
    TablesService.validateAndGetTableId al tableName = Ok tableId
    /\ listReply remote tr
         (mkCall GET (rowsPath tableId) (buildListUrl filters page size) None)
       = Replied r
    /\ tr' = push tr (mkCall GET (rowsPath tableId)
                        (buildListUrl filters page size) None).
Proof.
  unfold TablesService.readRecords. intros H.
  bind_inv H tableId tr1 Hv.
  apply lift_Ok in Hv. destruct Hv as [Hv ->].
  apply request_Ok in H. destruct H as [Hr ->]. eauto.
Qed.

Lemma createRecord_Ok al remote tableName data tr r tr' :
  TablesService.createRecord al remote tableName data tr = (Ok r, tr') ->
  exists tableId,
    TablesService.validateAndGetTableId al tableName = Ok tableId
    /\ tr' = push tr (mkCall POST (rowsPath tableId)
                        [("user_field_names", "true")] (Some data)).
Proof.
  unfold TablesService.createRecord. intros H.
  bind_inv H tableId tr1 Hv.
  apply lift_Ok in Hv. destruct Hv as [Hv ->].
  apply request_Ok in H. destruct H as [Hr ->]. eauto.
Qed.

Lemma updateRecord_Ok al remote tableName recordId data tr r tr' :
  TablesService.updateRecord al remote tableName recordId data tr = (Ok r, tr') ->
  exists tableId,
    TablesService.validateAndGetTableId al tableName = Ok tableId
    /\ tr' = push tr (mkCall PATCH (rowPath tableId recordId)
                        [("user_field_names", "true")] (Some data)).
Proof.
  unfold TablesService.updateRecord. intros H.
  bind_inv H tableId tr1 Hv.
  apply lift_Ok in Hv. destruct Hv as [Hv ->].
  apply request_Ok in H. destruct H as [Hr ->]. eauto.
Qed.

(** ** read *)

Lemma assoc_mapSet_same {A : Type} (k : string) (v : A) (m : list (string * A)) :
  assoc k (mapSet k v m) = Some v.
Proof.
  induction m as [|[k0 v0] m IH]; simpl.
  - now rewrite String.eqb_refl.
  - destruct (k0 =? k)%string eqn:E; simpl.
    + now rewrite String.eqb_refl.
    + now rewrite E.
Qed.

Lemma assoc_mapSet_other {A : Type} (k k' : string) (v : A)
    (m : list (string * A)) :
  (k =? k')%string = false -> assoc k' (mapSet k v m) = assoc k' m.
Proof.
  intros Hk. induction m as [|[k0 v0] m IH]; simpl.
  - now rewrite Hk.
  - destruct (k0 =? k)%string eqn:E; simpl.
    + apply String.eqb_eq in E. subst k0. now rewrite Hk.
    + destruct (k0 =? k')%string; [reflexivity | exact IH].
Qed.

(** *** The request that reaches the schema *)

(** Defining the properties of an object one by one, read back. *)
Lemma assoc_fold_mapSet {A : Type} (props acc : list (string * A)) (k : string) :
  NoDup (map fst props) ->
  assoc k (fold_left (fun o kv => mapSet (fst kv) (snd kv) o) props acc)
  = match assoc k props with
    | Some v => Some v
    | None => assoc k acc
    end.
Proof.
  revert acc. induction props as [|[k0 v0] fs IH]; intros acc Hnd;
    [reflexivity|].
  cbn [fold_left fst snd assoc]. inversion Hnd as [|? ? Hnot Hnd']. subst.
  rewrite (IH _ Hnd'). destruct (k0 =? k)%string eqn:E.
  - apply String.eqb_eq in E. subst k0.
    now rewrite (assoc_notin k fs Hnot), assoc_mapSet_same.
  - now rewrite (assoc_mapSet_other k0 k v0 acc E).
Qed.

(** The request built from arguments without a [command] of their own
    has the tool's command and the arguments' other properties. *)
Lemma requestObject_props (command args : JSValue) (k : string) :
  NoDup (map fst (spreadOf args)) ->
  has "command" (spreadOf args) = false ->
  getProp (VObj (requestObject command args)) k
  = if (k =? "command")%string then command
    else match assoc k (spreadOf args) with
         | Some v => v
         | None => VUndef
         end.
Proof.
  intros Hnd Hcmd. apply has_false_assoc in Hcmd.
  unfold getProp, requestObject. rewrite (assoc_fold_mapSet _ _ k Hnd).
  destruct (k =? "command")%string eqn:E.
  - apply String.eqb_eq in E. subst k. rewrite Hcmd. reflexivity.
  - destruct (assoc k (spreadOf args)); [reflexivity|].
    cbn [assoc]. rewrite String.eqb_sym, E. reflexivity.
Qed.

Lemma andThen_Some {A B : Type} (o : option A) (k : A -> option B) (b : B) :
  andThen o k = Some b -> exists a, o = Some a /\ k a = Some b.
Proof. destruct o as [a|]; [eauto | discriminate]. Qed.

Ltac andThen_inv H :=
  repeat (let a := fresh "parsed" in
          let E := fresh "Eparsed" in
          apply andThen_Some in H; destruct H as [a [E H]]).

(** What the schema guarantees of a request it accepts: the command is
    the one the request carries, and a table it names is a name of the
    enumeration, read from the request's [table]. *)
Lemma parseMCPRequest_sound (request : JSObject) (validated : MCPRequest) :
  parseMCPRequest request = Some validated ->
  getProp (VObj request) "command" = VStr (commandOf validated)
  /\ forall table, tableOf validated = Some table ->
       zTableName (getProp (VObj request) "table") = Some table.
Proof.
  unfold parseMCPRequest.
  destruct (getProp (VObj request) "command") as [| | | |command| |];
    try discriminate.
  repeat match goal with
         | |- context [if (command =? ?c)%string then _ else _] =>
             destruct (command =? c)%string eqn:?
         end; try discriminate; intros H;
    match goal with
    | E : (command =? _)%string = true |- _ =>
        apply String.eqb_eq in E; subst command
    end.
  - injection H as <-. split; [reflexivity | discriminate].
  - unfold zReadCommand in H. andThen_inv H. injection H as <-.
    split; [reflexivity|]. intros t Ht. injection Ht as <-. assumption.
  - unfold zCreateCommand in H. andThen_inv H. injection H as <-.
    split; [reflexivity|]. intros t Ht. injection Ht as <-. assumption.
  - unfold zUpdateCommand in H. andThen_inv H. injection H as <-.
    split; [reflexivity|]. intros t Ht. injection Ht as <-. assumption.
  - unfold zDeleteCommand in H. andThen_inv H. injection H as <-.
    split; [reflexivity|]. intros t Ht. injection Ht as <-. assumption.
  - unfold zBatchCreateCommand in H. andThen_inv H. injection H as <-.
    split; [reflexivity|]. intros t Ht. injection Ht as <-. assumption.
  - unfold zGetBOMCommand in H. andThen_inv H. injection H as <-.
    split; [reflexivity | discriminate].
  - unfold zProcessBPRCommand in H. andThen_inv H. injection H as <-.
    split; [reflexivity | discriminate].
  - unfold zSearchPartsCommand in H. andThen_inv H. injection H as <-.
    split; [reflexivity | discriminate].
Qed.


(** The trace of a tool call: the calls of the handler the request is
    routed to, and none when the request is turned away before. *)
Lemma handleToolCall_run zodMessages handleBatchCreate toLowerCase parseFloat
    stringifyLength al remote toolName args tr :
  handleToolCall zodMessages handleBatchCreate toLowerCase parseFloat
    stringifyLength al remote toolName args tr
  = match buildRequest toolName args with
    | Throw e => (handleError e, tr)
    | Ok request =>
        match parseMCPRequest request with
        | None => (ErrorResponse "VALIDATION_ERROR" (zodMessages request) None, tr)
        | Some validated =>
            catching (routeRequest handleBatchCreate toLowerCase parseFloat
                        stringifyLength al remote validated) tr
        end
    end.
Proof.
  unfold handleToolCall, catching, bind, lift, validateRequest.
  destruct (buildRequest toolName args) as [request|e]; [|reflexivity].
  now destruct (parseMCPRequest request).
Qed.







(** ** Computations that only read fixed data *)

Lemma historyFree_ret {A : Type} (a : A) : historyFree (ret a).
Proof. intros tr1 tr2. reflexivity. Qed.

Lemma historyFree_lift {A : Type} (r : Result A) : historyFree (lift r).
Proof. intros tr1 tr2. reflexivity. Qed.

Lemma historyFree_bind {A B : Type} (m : M A) (k : A -> M B) :
  historyFree m -> (forall a, historyFree (k a)) -> historyFree (bind m k).
Proof.
  intros Hm Hk tr1 tr2. unfold bind.
  specialize (Hm tr1 tr2).
  destruct (m tr1) as [[a1|e1] t1], (m tr2) as [[a2|e2] t2];
    cbn [fst] in Hm; try discriminate.
  - inversion Hm; subst. apply Hk.
  - inversion Hm; subst. reflexivity.
Qed.

Lemma historyFree_readRecords al remote tableName filters page size :
  stableLists remote ->
  historyFree (TablesService.readRecords al remote tableName filters page size).
Proof.
  intros Hstable. unfold TablesService.readRecords.
  apply historyFree_bind; [apply historyFree_lift|].
  intros tableId tr1 tr2.
  unfold BaserowClient.listRecords, request. cbn [fst].
  now rewrite (Hstable tr1 tr2).
Qed.

Lemma historyFree_loadParts toLowerCase al remote fuel page partNameToId :
  stableLists remote ->
  historyFree (loadParts toLowerCase al remote fuel page partNameToId).
Proof.
  intros Hstable. revert page partNameToId.
  induction fuel as [|fuel IH]; intros page partNameToId; cbn [loadParts].
  - apply historyFree_ret.
  - apply historyFree_bind; [now apply historyFree_readRecords|].
    intros partsPage. apply historyFree_bind; [apply historyFree_lift|].
    intros idx. destruct (next partsPage); [|apply historyFree_ret].
    destruct (results partsPage); [apply historyFree_ret | apply IH].
Qed.

Lemma historyFree_handleSearchParts toLowerCase al remote searchTerms :
  stableLists remote ->
  historyFree (handleSearchParts toLowerCase al remote searchTerms).
Proof.
  intros Hstable. unfold handleSearchParts.
  apply historyFree_bind; [now apply historyFree_loadParts|].
  intros idx. destruct (fold_left _ searchTerms ([], [])).
  apply historyFree_ret.
Qed.

(** ** search_parts *)

(** The loop over the search terms pushes one result per term, in order. *)
Lemma fold_searchStep toLowerCase idx searchTerms results notFound :
  fst (fold_left (searchStep toLowerCase idx) searchTerms (results, notFound))
  = app results (map (searchOne toLowerCase idx) searchTerms).
Proof.
  revert results notFound.
  induction searchTerms as [|t ts IH]; intros results notFound; cbn [fold_left map].
  - now rewrite app_nil_r.
  - unfold searchStep at 2. cbn [fst snd].
    destruct (found (searchOne toLowerCase idx t));
      rewrite IH; unfold push; now rewrite <- app_assoc.
Qed.

(** Once the index is loaded, the handler answers with the results of
    [searchOne], term by term. *)
Lemma handleSearchParts_results toLowerCase al remote searchTerms tr idx tr' :
  loadParts toLowerCase al remote 50 1 [] tr = (Ok idx, tr') ->
  exists resp,
    handleSearchParts toLowerCase al remote searchTerms tr
    = (Ok (Success (DSearch resp) None), tr')
    /\ sp_results resp = map (searchOne toLowerCase idx) searchTerms.
Proof.
  intros Hload. unfold handleSearchParts, bind. rewrite Hload.
  pose proof (fold_searchStep toLowerCase idx searchTerms [] []) as Hfold.
  destruct (fold_left _ searchTerms ([], [])) as [results notFound].
  cbn [fst app] in Hfold. subst results.
  eexists. split; reflexivity.
Qed.

(** C6.  With remote data that do not change between calls,
    [search_parts] returns the same result whatever was called before, in
    particular when it is called again right after itself; and a term
    whose lower-cased form is a key of the index gets that key's entry,
    found, without the substring scan being consulted, whatever the other
    entries are. *)
Theorem search_parts_idempotent_exact_first
    (toLowerCase : string -> string) (al : AllowListManager) (remote : Remote) :
  stableLists remote ->
  (forall searchTerms tr1 tr2,
     fst (handleSearchParts toLowerCase al remote searchTerms tr1)
     = fst (handleSearchParts toLowerCase al remote searchTerms tr2))
  /\ (forall searchTerms tr,
        fst (handleSearchParts toLowerCase al remote searchTerms
               (snd (handleSearchParts toLowerCase al remote searchTerms tr)))
        = fst (handleSearchParts toLowerCase al remote searchTerms tr))
  /\ (forall partNameToId term info,
        assoc (toLowerCase term) partNameToId = Some info ->
        findPart toLowerCase partNameToId term = Some info
        /\ searchOne toLowerCase partNameToId term
           = {| sr_part_id := pi_part_id info;
                sr_part_name := pi_part_name info;
                search_term := term; found := true |})
  /\ (forall searchTerms tr idx tr',
        loadParts toLowerCase al remote 50 1 [] tr = (Ok idx, tr') ->
        exists resp,
          handleSearchParts toLowerCase al remote searchTerms tr
          = (Ok (Success (DSearch resp) None), tr')
          /\ sp_results resp = map (searchOne toLowerCase idx) searchTerms).
Proof.
  intros Hstable. split; [|split; [|split]].
  - intros searchTerms. now apply historyFree_handleSearchParts.
  - intros searchTerms tr. now apply historyFree_handleSearchParts.
  - intros idx term info Hexact. unfold searchOne, findPart.
    rewrite Hexact. split; reflexivity.
  - intros searchTerms tr idx tr'. apply handleSearchParts_results.
Qed.

Lemma demoRemote_stable : stableLists demoRemote.
Proof. intros h1 h2 c. reflexivity. Qed.

(** The term [btl] is a substring of the first key and the exact form of
    the second: the second entry is returned. *)
Lemma search_parts_idempotent_exact_first_witness :
  stableLists demoRemote
  /\ findPart asciiLower
       [ ("btl-8oz", mkPartInfo 302 "BTL-8oz"); ("btl", mkPartInfo 7 "BTL") ]
       "BTL"
     = Some (mkPartInfo 7 "BTL").
Proof.
  split; [exact demoRemote_stable|].
  apply (search_parts_idempotent_exact_first asciiLower demoAllowList demoRemote
           demoRemote_stable).
  reflexivity.
Defined.

(** Every key of the index is the lower-cased form of a non-empty name. *)
Lemma indexStep_keys toLowerCase acc part idx' :
  (forall s, toLowerCase s = "" -> s = "") ->
  (forall idx, acc = Ok idx -> Forall (fun e => fst e <> "") idx) ->
  indexStep toLowerCase acc part = Ok idx' ->
  Forall (fun e => fst e <> "") idx'.
Proof.
  intros Hlower Hacc. unfold indexStep.
  destruct acc as [idx|e]; [|discriminate].
  specialize (Hacc idx eq_refl).
  destruct (truthy (partNameOf part)) eqn:Et.
  - destruct (partNameOf part) as [| | | |s| |]; try discriminate.
    intros H. inversion H; subst idx'. clear H.
    assert (Hkey : toLowerCase s <> "").
    { intros Hk. apply Hlower in Hk. subst s. discriminate. }
    clear Et. induction idx as [|[k v] idx IH]; cbn [mapSet].
    + constructor; [exact Hkey | constructor].
    + inversion Hacc; subst.
      destruct (k =? toLowerCase s)%string; constructor; auto.
  - intros H. inversion H; subst. exact Hacc.
Qed.

Lemma fold_indexStep_keys toLowerCase parts acc idx' :
  (forall s, toLowerCase s = "" -> s = "") ->
  (forall idx, acc = Ok idx -> Forall (fun e => fst e <> "") idx) ->
  fold_left (indexStep toLowerCase) parts acc = Ok idx' ->
  Forall (fun e => fst e <> "") idx'.
Proof.
  intros Hlower. revert acc.
  induction parts as [|p ps IH]; intros acc Hacc; cbn [fold_left].
  - intros H. now apply Hacc.
  - apply IH. intros idx Hidx. eapply indexStep_keys; eauto.
Qed.

Lemma loadParts_keys toLowerCase al remote fuel page idx tr idx' tr' :
  (forall s, toLowerCase s = "" -> s = "") ->
  Forall (fun e => fst e <> "") idx ->
  loadParts toLowerCase al remote fuel page idx tr = (Ok idx', tr') ->
  Forall (fun e => fst e <> "") idx'.
Proof.
  intros Hlower. revert page idx tr.
  induction fuel as [|fuel IH]; intros page idx tr Hidx; cbn [loadParts].
  - intros H. apply ret_Ok in H. destruct H as [-> _]. exact Hidx.
  - intros H. bind_inv H partsPage tr1 Hpage. bind_inv H idx1 tr2 Hfold.
    apply lift_Ok in Hfold. destruct Hfold as [Hfold ->].
    assert (Hidx1 : Forall (fun e => fst e <> "") idx1).
    { eapply fold_indexStep_keys; [exact Hlower | | exact Hfold].
      intros i Hi. inversion Hi; subst. exact Hidx. }
    destruct (next partsPage).
    + destruct (results partsPage).
      * apply ret_Ok in H. destruct H as [-> _]. exact Hidx1.
      * eapply IH; eauto.
    + apply ret_Ok in H. destruct H as [-> _]. exact Hidx1.
Qed.

Lemma assoc_absent {A : Type} (k : string) (m : list (string * A)) :
  Forall (fun e => fst e <> k) m -> assoc k m = None.
Proof.
  induction 1 as [|[k0 v0] m Hk _ IH]; cbn [assoc]; [reflexivity|].
  cbn [fst] in Hk. destruct (k0 =? k)%string eqn:E; [|exact IH].
  apply String.eqb_eq in E. contradiction.
Qed.

Lemma includes_empty (s : string) : includes s "" = true.
Proof. destruct s; reflexivity. Qed.

(** C9.  Assume [toLowerCase] maps the empty string to itself and no
    other string to it.  Whenever the index that [search_parts] has built
    is not empty, the empty search term misses the exact lookup, is
    matched by the substring scan against the first entry in iteration
    order, and is reported found with that entry's identifier and name;
    the handler's response holds this result for the empty term. *)
Theorem empty_term_matches_first_entry
    (toLowerCase : string -> string) (al : AllowListManager) (remote : Remote)
    (tr tr' : list Call) (firstName : string) (firstInfo : PartInfo)
    (others : list (string * PartInfo)) :
  toLowerCase "" = "" ->
  (forall s, toLowerCase s = "" -> s = "") ->
  loadParts toLowerCase al remote 50 1 [] tr
  = (Ok ((firstName, firstInfo) :: others), tr') ->
  let idx := (firstName, firstInfo) :: others in
  let hit := {| sr_part_id := pi_part_id firstInfo;
                sr_part_name := pi_part_name firstInfo;
                search_term := ""; found := true |} in
  assoc "" idx = None
  /\ searchOne toLowerCase idx "" = hit
  /\ forall searchTerms,
       exists resp,
         handleSearchParts toLowerCase al remote searchTerms tr
         = (Ok (Success (DSearch resp) None), tr')
         /\ sp_results resp = map (searchOne toLowerCase idx) searchTerms
         /\ (In "" searchTerms -> In hit (sp_results resp)).
Proof.
  intros Hempty Hlower Hload idx hit.
  assert (Hkeys : Forall (fun e => fst e <> "") idx).
  { eapply loadParts_keys; [exact Hlower | constructor | exact Hload]. }
  assert (Hmiss : assoc "" idx = None) by now apply assoc_absent.
  assert (Hone : searchOne toLowerCase idx "" = hit).
  { unfold searchOne, findPart. rewrite Hempty, Hmiss.
    unfold idx. cbn [find]. unfold substringMatch at 1. cbn [fst].
    rewrite includes_empty. reflexivity. }
  split; [exact Hmiss|]. split; [exact Hone|].
  intros searchTerms.
  destruct (handleSearchParts_results toLowerCase al remote searchTerms
              tr idx tr' Hload) as [resp [Hrun Hres]].
  exists resp. split; [exact Hrun|]. split; [exact Hres|].
  intros Hin. rewrite Hres, <- Hone. now apply in_map.
Qed.

Lemma asciiLower_empty (s : string) : asciiLower s = "" -> s = "".
Proof. destruct s; [reflexivity | discriminate]. Qed.

(** Against the demo parts table the empty term yields the first part. *)
Lemma empty_term_matches_first_entry_witness :
  searchOne asciiLower
    [ ("rm-pwd-stevia", mkPartInfo 301 "RM-PWD-Stevia");
      ("btl-8oz", mkPartInfo 302 "BTL-8oz");
      ("rm-pwd-monk", mkPartInfo 303 "RM-PWD-Monk") ] ""
  = {| sr_part_id := 301; sr_part_name := "RM-PWD-Stevia";
       search_term := ""; found := true |}.
Proof.
  apply (empty_term_matches_first_entry asciiLower demoAllowList demoRemote
           [] [mkCall GET (rowsPath 744797)
                 (buildListUrl (Some []) (Some 1) (Some 200)) None]
           "rm-pwd-stevia" (mkPartInfo 301 "RM-PWD-Stevia")
           [ ("btl-8oz", mkPartInfo 302 "BTL-8oz");
             ("rm-pwd-monk", mkPartInfo 303 "RM-PWD-Monk") ]).
  - reflexivity.
  - exact asciiLower_empty.
  - vm_compute. reflexivity.
Defined.

(** ** get_bom *)

(** The loop of [handleGetBOM] pushes exactly the items the specification
    describes, whatever [targetIsku] is. *)
Lemma fold_getBomStep parseFloat targetFgId mappings bomItems targetIsku :
  fst (fold_left (getBomStep parseFloat targetFgId) mappings (bomItems, targetIsku))
  = app bomItems (bomItemsOf parseFloat targetFgId mappings).
Proof.
  revert bomItems targetIsku.
  induction mappings as [|m ms IH]; intros bomItems targetIsku;
    cbn [fold_left].
  - unfold bomItemsOf. cbn. now rewrite app_nil_r.
  - unfold bomItemsOf. cbn [filter].
    unfold getBomStep at 2, linksFinishedGood, hasPartLink.
    destruct (firstOfLink (field m "Finished Good")) as [fg0|]; [|apply IH].
    destruct (strictEqNum (getProp fg0 "id") targetFgId); [|apply IH].
    destruct (firstOfLink (field m "Part")) as [part0|] eqn:Epart; cbn [andb].
    + rewrite IH. unfold push, bomItemsOf. rewrite <- app_assoc. cbn [map app].
      unfold projectBomItem at 2. rewrite Epart. reflexivity.
    + apply IH.
Qed.

(** With fixed remote data, the part of [handleGetBOM] that follows the
    resolution of the Finished Good yields the same parts from any trace
    and for any initial [targetIsku]. *)
Lemma getBomFor_sameParts parseFloat al remote targetFgId isku1 isku2 tr1 tr2 :
  stableLists remote ->
  targetFgId <> 0 ->
  sameParts (fst (getBomFor parseFloat al remote (Some targetFgId) isku1 tr1))
            (fst (getBomFor parseFloat al remote (Some targetFgId) isku2 tr2)).
Proof.
  intros Hstable Hnz. unfold getBomFor.
  apply Z.eqb_neq in Hnz. rewrite Hnz.
  unfold TablesService.readRecords, bind, lift.
  destruct (TablesService.validateAndGetTableId al "fg_parts_mapping")
    as [tableId|e]; [|reflexivity].
  unfold BaserowClient.listRecords, request.
  rewrite (Hstable tr1 tr2).
  destruct (listReply remote tr2 _) as [r|code text raw parsed|code raw cause|cause];
    [|reflexivity|reflexivity|reflexivity].
  pose proof (fold_getBomStep parseFloat targetFgId (results r) [] (VStr isku1)) as H1.
  pose proof (fold_getBomStep parseFloat targetFgId (results r) [] (VStr isku2)) as H2.
  destruct (fold_left _ (results r) ([], VStr isku1)) as [items1 i1].
  destruct (fold_left _ (results r) ([], VStr isku2)) as [items2 i2].
  cbn [fst app] in H1, H2. subst items1 items2.
  cbn. auto.
Qed.

(** When the mapping table is read, the parts list is the one the
    specification describes. *)
Lemma getBomFor_success parseFloat al remote targetFgId isku tr
    mappingTable mappings :
  targetFgId <> 0 ->
  TablesService.validateAndGetTableId al "fg_parts_mapping" = Ok mappingTable ->
  listReply remote tr
    (mkCall GET (rowsPath mappingTable)
       (buildListUrl (Some []) (Some 1) (Some 200)) None)
  = Replied mappings ->
  exists r,
    fst (getBomFor parseFloat al remote (Some targetFgId) isku tr)
    = Ok (Success (DBom r) None)
    /\ parts r = bomItemsOf parseFloat targetFgId (results mappings).
Proof.
  intros Hnz Hmap Hreply. unfold getBomFor.
  apply Z.eqb_neq in Hnz. rewrite Hnz.
  unfold TablesService.readRecords, bind, lift. rewrite Hmap.
  unfold BaserowClient.listRecords, request. rewrite Hreply.
  pose proof (fold_getBomStep parseFloat targetFgId (results mappings) []
                (VStr isku)) as H1.
  destruct (fold_left _ (results mappings) ([], VStr isku)) as [items1 i1].
  cbn [fst app] in H1. subst items1.
  eexists. split; reflexivity.
Qed.

(** C5.  Let the remote data be fixed, [X] a Finished Good identifier
    (not zero) and [Y] a non-empty iSKU whose exact-match lookup in the
    Finished Goods table returns a record with identifier [X] first.  Then
    [get_bom({fg_id: X})] and [get_bom({isku: Y})] end alike: with the same
    error when the mapping table cannot be read, otherwise with the same
    parts list; and when the mapping table is read, that list is obtained
    by retaining the mappings whose [Finished Good] link's first entry has
    identifier [X] and whose [Part] link is not empty, each projected to
    its mapping id, part id, part name, quantity per unit and part role. *)
Theorem get_bom_by_id_and_by_isku_agree
    (parseFloat : string -> JSValue) (al : AllowListManager) (remote : Remote)
    (X : Z) (Y : string) (tr1 tr2 : list Call)
    (fgTable : Z) (fgResponse : BaserowListResponse)
    (fg : BaserowRecord) (others : list BaserowRecord) :
  stableLists remote ->
  X <> 0 ->
  Y <> "" ->
  TablesService.validateAndGetTableId al "finished_goods" = Ok fgTable ->
  listReply remote tr2
    (mkCall GET (rowsPath fgTable)
       (buildListUrl (Some [("iSKU", VStr Y)]) (Some 1) (Some 1)) None)
  = Replied fgResponse ->
  results fgResponse = fg :: others ->
  id fg = X ->
  let byId := fst (handleGetBOM parseFloat al remote (Some X) None tr1) in
  let byIsku := fst (handleGetBOM parseFloat al remote None (Some Y) tr2) in
  sameParts byId byIsku
  /\ (forall mappingTable mappings,
        TablesService.validateAndGetTableId al "fg_parts_mapping" = Ok mappingTable ->
        listReply remote tr1
          (mkCall GET (rowsPath mappingTable)
             (buildListUrl (Some []) (Some 1) (Some 200)) None)
        = Replied mappings ->
        exists r r',
          byId = Ok (Success (DBom r) None)
          /\ byIsku = Ok (Success (DBom r') None)
          /\ parts r = bomItemsOf parseFloat X (results mappings)
          /\ parts r' = parts r).
Proof.
  intros Hstable HX HY Hfg Hreply Hres Hid. cbv zeta.
  assert (HbyId : handleGetBOM parseFloat al remote (Some X) None tr1
                  = getBomFor parseFloat al remote (Some X) "" tr1).
  { unfold handleGetBOM. cbn [truthyNum]. apply Z.eqb_neq in HX.
    rewrite HX. reflexivity. }
  assert (HbyIsku : handleGetBOM parseFloat al remote None (Some Y) tr2
                    = getBomFor parseFloat al remote (Some X) Y
                        (push tr2 (mkCall GET (rowsPath fgTable)
                                     (buildListUrl (Some [("iSKU", VStr Y)])
                                        (Some 1) (Some 1)) None))).
  { unfold handleGetBOM. cbn [truthyNum truthyStr negb andb strOr].
    apply String.eqb_neq in HY. rewrite HY. cbn [negb].
    unfold TablesService.readRecords, bind, lift. rewrite Hfg.
    unfold BaserowClient.listRecords, request. rewrite Hreply, Hres.
    now rewrite Hid. }
  rewrite HbyId, HbyIsku.
  split; [now apply getBomFor_sameParts|].
  intros mappingTable mappings Hmap Hmreply.
  destruct (getBomFor_success parseFloat al remote X "" tr1 mappingTable
              mappings HX Hmap Hmreply) as [r [Hr Hparts]].
  pose proof (getBomFor_sameParts parseFloat al remote X "" Y tr1
                (push tr2 (mkCall GET (rowsPath fgTable)
                             (buildListUrl (Some [("iSKU", VStr Y)])
                                (Some 1) (Some 1)) None))
                Hstable HX) as Hsame.
  rewrite Hr in Hsame |- *. unfold sameParts in Hsame.
  destruct (fst (getBomFor parseFloat al remote (Some X) Y _)) as [resp|e];
    [|contradiction].
  destruct resp as [data md|]; [|contradiction].
  destruct data; try contradiction. destruct md; [contradiction|].
  destruct Hsame as [Hsame _].
  eexists. eexists. split; [reflexivity|]. split; [reflexivity|].
  split; [exact Hparts | now symmetry].
Qed.

(** Finished Good 2184 and its iSKU in the demo store. *)
Lemma get_bom_by_id_and_by_isku_agree_witness :
  sameParts
    (fst (handleGetBOM VStr demoAllowList demoRemote (Some 2184) None []))
    (fst (handleGetBOM VStr demoAllowList demoRemote None (Some "TN-Stevia-8oz") [])).
Proof.
  apply (get_bom_by_id_and_by_isku_agree VStr demoAllowList demoRemote
           2184 "TN-Stevia-8oz" [] [] 747400 (listOf demoFinishedGoods)
           (mkRecord 2184 "1.00" [("iSKU", VStr "TN-Stevia-8oz")]) []).
  - exact demoRemote_stable.
  - discriminate.
  - discriminate.
  - reflexivity.
  - reflexivity.
  - reflexivity.
  - reflexivity.
Defined.

(** ** process_bpr *)

Lemma hasZ_mapSetZ {A : Type} (k k' : Z) (v : A) (m : list (Z * A)) :
  hasZ k' (mapSetZ k v m) = ((k =? k') || hasZ k' m).
Proof.
  unfold hasZ. induction m as [|[k0 v0] m IH]; simpl.
  - destruct (k =? k'); reflexivity.
  - destruct (k0 =? k) eqn:E0; simpl.
    + apply Z.eqb_eq in E0. subst k0. destruct (k =? k'); reflexivity.
    + destruct (k0 =? k') eqn:E1.
      * apply Z.eqb_eq in E1. subst k0. rewrite Z.eqb_sym in E0.
        now rewrite E0.
      * exact IH.
Qed.

(** An identifier is in [bomLookup] exactly when it was requested and
    resolves against the fetched mappings. *)
Lemma hasZ_fold_bomLookupStep bomIds mappings acc i :
  hasZ i (fold_left (bomLookupStep bomIds) mappings acc)
  = (hasZ i acc || (includesZ bomIds i && resolvesBom mappings i)).
Proof.
  revert acc. induction mappings as [|m ms IH]; intros acc; cbn [fold_left].
  - unfold resolvesBom. cbn. now rewrite andb_false_r, orb_false_r.
  - rewrite IH. unfold bomLookupStep, resolvesBom. cbn [existsb].
    unfold hasPartLink, hasFinishedGoodLink.
    set (restResolves := existsb _ ms).
    destruct (id m =? i) eqn:Eid.
    + apply Z.eqb_eq in Eid. rewrite Eid.
      destruct (includesZ bomIds i) eqn:Einc; cbn [andb orb].
      * destruct (firstOfLink (field m "Part")),
                 (firstOfLink (field m "Finished Good")); cbn [andb orb];
          try reflexivity.
        rewrite hasZ_mapSetZ, Z.eqb_refl. cbn [orb]. now rewrite orb_true_r.
      * reflexivity.
    + cbn [andb orb].
      destruct (includesZ bomIds (id m)); [|reflexivity].
      destruct (firstOfLink (field m "Part")),
               (firstOfLink (field m "Finished Good")); try reflexivity.
      rewrite hasZ_mapSetZ, Eid. reflexivity.
Qed.

Lemma includesZ_In (xs : list Z) (x : Z) : In x xs -> includesZ xs x = true.
Proof.
  intros Hin. unfold includesZ. apply existsb_exists.
  exists x. split; [exact Hin | apply Z.eqb_refl].
Qed.

(** The identifiers reported missing are the requested identifiers that
    do not resolve, in request order. *)
Lemma missingBomIds_unresolved partsUsage mappings :
  missingBomIds (map bom_id partsUsage)
                (buildBomLookup (map bom_id partsUsage) mappings)
  = unresolvedBomIds partsUsage mappings.
Proof.
  unfold missingBomIds, unresolvedBomIds, buildBomLookup.
  apply filter_ext_in. intros i Hin.
  rewrite hasZ_fold_bomLookupStep. cbn [hasZ assocZ orb].
  now rewrite (includesZ_In _ _ Hin).
Qed.

(** The handler of the stdio server meets the claim C2: when the
    Manufacturing Order is found and the mappings are fetched, a request
    with an unresolved [bom_id] is answered with [BOM_NOT_FOUND] listing
    every unresolved identifier, after the two reads and nothing else. *)
Lemma handleProcessBPR_missing_bom toLowerCase al remote moNumber
    completionDate grossProduced partsUsage enteredBy tr
    moResponse tr1 mo others mappingsResponse tr2 :
  TablesService.readRecords al remote "manufacturing_orders"
    (Some [("MO Number", VStr moNumber)]) (Some 1) (Some 1) tr
  = (Ok moResponse, tr1) ->
  results moResponse = mo :: others ->
  TablesService.readRecords al remote "fg_parts_mapping" (Some []) (Some 1)
    (Some 200) tr1
  = (Ok mappingsResponse, tr2) ->
  unresolvedBomIds partsUsage (results mappingsResponse) <> [] ->
  handleProcessBPR toLowerCase al remote moNumber completionDate grossProduced
    partsUsage enteredBy tr
  = (Ok (ErrorResponse "BOM_NOT_FOUND"
           ("BOM mapping IDs not found: "
            ++ join ", " (map numberToString
                            (unresolvedBomIds partsUsage (results mappingsResponse))))
           None), tr2)
  /\ List.length (issued tr tr2) = 2%nat
  /\ Forall (fun c => method c = GET) (issued tr tr2).
Proof.
  intros Hmo Hres Hmap Hmissing.
  split.
  - unfold handleProcessBPR, bind. rewrite Hmo, Hres, Hmap.
    rewrite missingBomIds_unresolved.
    destruct (unresolvedBomIds partsUsage (results mappingsResponse));
      [contradiction | reflexivity].
  - apply readRecords_Ok in Hmo. destruct Hmo as [t1 [_ [_ ->]]].
    apply readRecords_Ok in Hmap. destruct Hmap as [t2 [_ [_ ->]]].
    unfold push. rewrite <- app_assoc, issued_app. cbn.
    split; [reflexivity|]. repeat constructor.
Qed.

(** C2, on the worker.  The request names two items; [bom_id] 99 is in no
    mapping.  [MCPServer.processBPR] answers with success, having created
    the record of the other item and updated the Manufacturing Order. *)
Lemma worker_processBPR_skips_unresolved_bom :
  unresolvedBomIds unresolvedPartsUsage demoMappings = [99]
  /\ exists data tr,
       Worker.processBPR asciiLower demoWorkerEnv demoRemote "MO-1001"
         "2025-01-02" "120" unresolvedPartsUsage None []
       = (Ok (Worker.WSuccess data), tr)
       /\ Worker.w_parts_usage_created data = 1%nat
       /\ Worker.w_mo_updated data = true
       /\ List.length (filter (isMethod POST) tr) = 1%nat
       /\ map path (filter (isMethod PATCH) tr)
          = ["/api/database/rows/table/749415/501/"].
Proof.
  split; [reflexivity|].
  eexists. eexists. split; [vm_compute; reflexivity|].
  repeat split.
Qed.

(** On the same request the stdio handler refuses. *)
Example handleProcessBPR_refuses_unresolved_bom :
  exists tr,
    handleProcessBPR asciiLower demoAllowList demoRemote "MO-1001" "2025-01-02"
      "120" unresolvedPartsUsage None []
    = (Ok (ErrorResponse "BOM_NOT_FOUND" "BOM mapping IDs not found: 99" None), tr)
    /\ filter (isMethod POST) tr = [] /\ filter (isMethod PATCH) tr = [].
Proof.
  eexists. split; [vm_compute; reflexivity|]. split; reflexivity.
Qed.

Lemma usageData_links moId moNumber enteredBy lotLookup labelLookup bomInfo part :
  assoc "Manufacturing Order"
    (usageData moId moNumber enteredBy lotLookup labelLookup bomInfo part)
  = Some (VArr [VNum moId])
  /\ assoc "Actual Quantity Used"
       (usageData moId moNumber enteredBy lotLookup labelLookup bomInfo part)
     = Some (VNum (quantity part)).
Proof. split; reflexivity. Qed.

(** The creation loop, when it ends normally, has issued one creation per
    item, in order, and has pushed one record per item. *)
Lemma createUsageRecords_Ok al remote moId moNumber enteredBy
    bomLookup lotLookup labelLookup partsUsage usageRecords tr records tr' :
  createUsageRecords al remote moId moNumber enteredBy bomLookup lotLookup
    labelLookup partsUsage usageRecords tr = (Ok records, tr') ->
  exists creates,
    tr' = app tr creates
    /\ Forall2 (creationFor al moId) partsUsage creates
    /\ List.length records
       = (List.length usageRecords + List.length partsUsage)%nat.
Proof.
  revert usageRecords tr.
  induction partsUsage as [|part rest IH]; intros usageRecords tr;
    cbn [createUsageRecords].
  - intros H. apply ret_Ok in H. destruct H as [-> ->].
    exists []. rewrite app_nil_r. split; [reflexivity|].
    split; [constructor | simpl; lia].
  - destruct (assocZ (bom_id part) bomLookup) as [bomInfo|]; [|discriminate].
    intros H. bind_inv H record tr1 Hc.
    apply createRecord_Ok in Hc. destruct Hc as [tableId [Hv ->]].
    apply IH in H. destruct H as [creates [-> [Hall Hlen]]].
    eexists (_ :: creates). split.
    + unfold push. rewrite <- app_assoc. reflexivity.
    + split.
      * constructor; [|exact Hall].
        unfold creationFor. cbn [method path body].
        split; [reflexivity|]. split; [eauto|].
        eexists. split; [reflexivity|]. apply usageData_links.
      * rewrite Hlen. unfold push. rewrite length_app. simpl. lia.
Qed.

Lemma loadLotLookup_Ok al remote partsUsage tr lotLookup tr' :
  loadLotLookup al remote partsUsage tr = (Ok lotLookup, tr') ->
  exists reads,
    tr' = app tr reads /\ Forall (fun c => method c = GET) reads.
Proof.
  unfold loadLotLookup.
  destruct (lotNumbersToLookup partsUsage).
  - intros H. apply ret_Ok in H. destruct H as [_ ->].
    exists []. now rewrite app_nil_r.
  - intros H. bind_inv H r tr1 Hr.
    apply ret_Ok in H. destruct H as [_ ->].
    apply readRecords_Ok in Hr. destruct Hr as [t [_ [_ ->]]].
    eexists. split; [reflexivity|]. repeat constructor.
Qed.

Lemma loadLabelLookup_Ok toLowerCase al remote partsUsage tr labelLookup tr' :
  loadLabelLookup toLowerCase al remote partsUsage tr = (Ok labelLookup, tr') ->
  exists reads,
    tr' = app tr reads /\ Forall (fun c => method c = GET) reads.
Proof.
  unfold loadLabelLookup.
  destruct (labelCodesToLookup partsUsage).
  - intros H. apply ret_Ok in H. destruct H as [_ ->].
    exists []. now rewrite app_nil_r.
  - intros H. bind_inv H r tr1 Hr.
    apply lift_Ok in H. destruct H as [_ ->].
    apply readRecords_Ok in Hr. destruct Hr as [t [_ [_ ->]]].
    eexists. split; [reflexivity|]. repeat constructor.
Qed.

Lemma filter_isMethod_GET m reads :
  m <> GET -> Forall (fun c => method c = GET) reads ->
  filter (isMethod m) reads = [].
Proof.
  intros Hm. induction 1 as [|c reads Hc _ IH]; [reflexivity|].
  cbn [filter]. unfold isMethod at 1. rewrite Hc.
  destruct m; [contradiction | exact IH | exact IH | exact IH].
Qed.

Lemma filter_isMethod_creates al moId partsUsage creates :
  Forall2 (creationFor al moId) partsUsage creates ->
  filter (isMethod POST) creates = creates
  /\ filter (isMethod PATCH) creates = [].
Proof.
  induction 1 as [|part c ps cs Hc _ [IH1 IH2]]; [split; reflexivity|].
  destruct Hc as [Hm _]. cbn [filter].
  assert (isMethod POST c = true) as -> by (unfold isMethod; now rewrite Hm).
  assert (isMethod PATCH c = false) as -> by (unfold isMethod; now rewrite Hm).
  rewrite IH1, IH2. split; reflexivity.
Qed.

(** C3.  Whenever [process_bpr] answers with success (the Manufacturing
    Order resolved, every [bom_id] resolved, every creation and the final
    update succeeded), the calls it issued are: reads; then exactly one
    creation per parts-usage item, in input order, each on the parts-usage
    table, each carrying the item's quantity and the link
    ['Manufacturing Order': [moId]] to the one Manufacturing Order the
    first read returned; then exactly one update, of that Manufacturing
    Order, whose body sets 'MO Status' to 4554566, 'Deduction Method' to
    4669016 and both completion flags to true.  No other creation or
    update is issued, and the response counts [n] created records. *)
Theorem process_bpr_success_effects
    (toLowerCase : string -> string) (al : AllowListManager) (remote : Remote)
    (moNumber completionDate grossProduced : string)
    (partsUsage : list PartsUsageItem) (enteredBy : option string)
    (tr tr' : list Call) (data : ResponseData) (metadata : option Metadata) :
  handleProcessBPR toLowerCase al remote moNumber completionDate grossProduced
    partsUsage enteredBy tr
  = (Ok (Success data metadata), tr') ->
  exists (moTable : Z) (moResponse : BaserowListResponse) (mo : BaserowRecord)
         (others : list BaserowRecord) (mappingTable : Z)
         (mappingsResponse : BaserowListResponse) (r : ProcessBPRResponse)
         (reads creates : list Call) (update : Call),
    let moCall := mkCall GET (rowsPath moTable)
                    (buildListUrl (Some [("MO Number", VStr moNumber)])
                       (Some 1) (Some 1)) None in
    (* the Manufacturing Order resolved *)
    TablesService.validateAndGetTableId al "manufacturing_orders" = Ok moTable
    /\ listReply remote tr moCall = Replied moResponse
    /\ results moResponse = mo :: others
    (* every bom_id resolved against the fetched mappings *)
    /\ TablesService.validateAndGetTableId al "fg_parts_mapping" = Ok mappingTable
    /\ listReply remote (push tr moCall)
         (mkCall GET (rowsPath mappingTable)
            (buildListUrl (Some []) (Some 1) (Some 200)) None)
       = Replied mappingsResponse
    /\ (forall part, In part partsUsage ->
          resolvesBom (results mappingsResponse) (bom_id part) = true)
    (* the calls *)
    /\ issued tr tr' = app reads (app creates [update])
    /\ Forall (fun c => method c = GET) reads
    /\ Forall2 (creationFor al (id mo)) partsUsage creates
    /\ List.length creates = List.length partsUsage
    /\ filter (isMethod POST) (issued tr tr') = creates
    /\ filter (isMethod PATCH) (issued tr tr') = [update]
    /\ update = mkCall PATCH (rowPath moTable (id mo))
                  [("user_field_names", "true")]
                  (Some (updateData completionDate grossProduced))
    /\ assoc "MO Status" (updateData completionDate grossProduced)
       = Some (VNum 4554566)
    /\ assoc "Deduction Method" (updateData completionDate grossProduced)
       = Some (VNum 4669016)
    /\ assoc "Actual Usage Complete" (updateData completionDate grossProduced)
       = Some (VBool true)
    /\ assoc "MO Inventory Processed" (updateData completionDate grossProduced)
       = Some (VBool true)
    (* the response *)
    /\ data = DBpr r
    /\ mo_id r = id mo
    /\ parts_usage_created r = List.length partsUsage
    /\ mo_updated r = true.
Proof.
  unfold handleProcessBPR. intros H.
  bind_inv H moResponse tr1 Hmo.
  destruct (results moResponse) as [|mo others] eqn:Hres.
  { apply ret_Ok in H. destruct H as [H _]. discriminate. }
  bind_inv H mappingsResponse tr2 Hmap.
  destruct (missingBomIds _ _) as [|m0 ms] eqn:Hmissing.
  2:{ apply ret_Ok in H. destruct H as [H _]. discriminate. }
  bind_inv H lotLookup tr3 Hlots.
  bind_inv H labelLookup tr4 Hlabels.
  bind_inv H usageRecords tr5 Hcreate.
  bind_inv H updated tr6 Hupdate.
  apply ret_Ok in H. destruct H as [Hresp ->].
  apply readRecords_Ok in Hmo. destruct Hmo as [moTable [HmoT [HmoR ->]]].
  apply readRecords_Ok in Hmap. destruct Hmap as [mapTable [HmapT [HmapR ->]]].
  apply loadLotLookup_Ok in Hlots. destruct Hlots as [reads1 [-> Hreads1]].
  apply loadLabelLookup_Ok in Hlabels. destruct Hlabels as [reads2 [-> Hreads2]].
  apply createUsageRecords_Ok in Hcreate.
  destruct Hcreate as [creates [-> [Hcreates Hlen]]].
  apply updateRecord_Ok in Hupdate. destruct Hupdate as [moTable' [HmoT' ->]].
  rewrite HmoT in HmoT'. inversion HmoT'; subst moTable'. clear HmoT'.
  set (call1 := mkCall GET (rowsPath moTable) _ None) in *.
  set (call2 := mkCall GET (rowsPath mapTable) _ None) in *.
  set (update := mkCall PATCH _ _ _).
  assert (Hissued : issued tr (push (app (app (app (push (push tr call1) call2)
                                                  reads1) reads2) creates) update)
                    = app (call1 :: call2 :: app reads1 reads2)
                          (app creates [update])).
  { unfold push. repeat rewrite <- app_assoc. rewrite issued_app.
    cbn [app]. now rewrite <- app_assoc. }
  assert (Hreads : Forall (fun c => method c = GET)
                          (call1 :: call2 :: app reads1 reads2)).
  { constructor; [reflexivity|]. constructor; [reflexivity|].
    apply Forall_app. split; assumption. }
  destruct (filter_isMethod_creates _ _ _ _ Hcreates) as [Hpost Hpatch].
  unfold successResponse in Hresp. inversion Hresp; subst data metadata.
  exists moTable, moResponse, mo, others, mapTable, mappingsResponse. eexists.
  exists (call1 :: call2 :: app reads1 reads2), creates, update.
  cbv zeta.
  split; [exact HmoT|]. split; [exact HmoR|]. split; [exact Hres|].
  split; [exact HmapT|]. split; [exact HmapR|].
  split.
  { intros part Hin.
    rewrite missingBomIds_unresolved in Hmissing.
    unfold unresolvedBomIds in Hmissing.
    destruct (resolvesBom (results mappingsResponse) (bom_id part)) eqn:E;
      [reflexivity|].
    assert (Hf : In (bom_id part)
                    (filter (fun i => negb (resolvesBom (results mappingsResponse) i))
                            (map bom_id partsUsage))).
    { apply filter_In. split; [now apply in_map | now rewrite E]. }
    rewrite Hmissing in Hf. contradiction. }
  split; [exact Hissued|]. split; [exact Hreads|]. split; [exact Hcreates|].
  split; [symmetry; eapply Forall2_length; exact Hcreates|].
  split.
  { rewrite Hissued, !filter_app.
    rewrite (filter_isMethod_GET POST _ ltac:(discriminate) Hreads), Hpost.
    cbn. now rewrite app_nil_r. }
  split.
  { rewrite Hissued, !filter_app.
    rewrite (filter_isMethod_GET PATCH _ ltac:(discriminate) Hreads), Hpatch.
    reflexivity. }
  split; [reflexivity|].
  repeat (split; [reflexivity|]).
  cbn [mo_id parts_usage_created mo_updated].
  split; [|reflexivity].
  rewrite Hlen. reflexivity.
Qed.

(** Three items against the demo store: three creations, one update. *)
Lemma process_bpr_success_effects_witness :
  let run := handleProcessBPR asciiLower demoAllowList demoRemote "MO-1001"
               "2025-01-02" "120" demoPartsUsage None [] in
  isThrow (fst run) = false
  /\ List.length (filter (isMethod POST) (issued [] (snd run))) = 3%nat
  /\ List.length (filter (isMethod PATCH) (issued [] (snd run))) = 1%nat.
Proof.
  cbv zeta.
  let v := eval vm_compute in
             (handleProcessBPR asciiLower demoAllowList demoRemote "MO-1001"
                "2025-01-02" "120" demoPartsUsage None []) in
  match v with
  | (Ok (Success ?d ?m), ?t) =>
      assert (Hrun : handleProcessBPR asciiLower demoAllowList demoRemote
                       "MO-1001" "2025-01-02" "120" demoPartsUsage None []
                     = (Ok (Success d m), t))
        by (vm_compute; reflexivity)
  end.
  destruct (process_bpr_success_effects asciiLower demoAllowList demoRemote
              "MO-1001" "2025-01-02" "120" demoPartsUsage None [] _ _ _ Hrun)
    as [moTable [moResponse [mo [others [mapTable [mappings [r [reads [creates
        [update [_ [_ [_ [_ [_ [_ [_ [_ [_ [Hlen [Hpost [Hpatch _]]]]]]]]]]]]]]]]]]]]]].
  rewrite Hrun. cbn [fst snd isThrow].
  rewrite Hpost, Hpatch, Hlen. repeat split.
Defined.

(* ====================================================================== *)
(** * Part III.  Further properties of the code                            *)
(* ====================================================================== *)

(** ** The allow list, continued *)

Lemma TABLE_CONFIGS_names_NoDup : NoDup (map name TABLE_CONFIGS).
Proof.
  simpl. repeat (constructor; [simpl; intuition discriminate|]). constructor.
Qed.

(** The loop does not touch the entry of a name it has no configuration
    for. *)
Lemma registerTables_assoc_other env configs tm missing log missing' tm' log' k :
  ~ In k (map name configs) ->
  registerTables env configs tm missing log = (Ok missing', tm', log') ->
  assoc k tm' = assoc k tm.
Proof.
  revert tm missing log.
  induction configs as [|c rest IH]; intros tm missing log Hnot; simpl.
  - intros H. now inversion H.
  - assert (Hc : (name c =? k)%string = false).
    { apply String.eqb_neq. intros E. apply Hnot. now left. }
    assert (Hrest : ~ In k (map name rest)).
    { intros E. apply Hnot. now right. }
    destruct (env (envKey c)) as [s|]; [|now apply IH].
    destruct (s =? "")%string; [now apply IH|].
    destruct (parseInt s) as [n|]; [|discriminate].
    destruct (n <=? 0); [discriminate|].
    intros H. rewrite (IH _ _ _ Hrest H). now apply assoc_mapSet_other.
Qed.

(** With distinct table names, a configured table is registered under the
    number [parseInt] read from its variable. *)
Lemma registerTables_assoc env configs tm missing log missing' tm' log' c s n :
  NoDup (map name configs) ->
  In c configs ->
  env (envKey c) = Some s -> s <> "" -> parseInt s = Some n ->
  registerTables env configs tm missing log = (Ok missing', tm', log') ->
  0 < n
  /\ assoc (name c) tm' = Some (mkTableInfo (name c) n (description c)).
Proof.
  intros Hnd Hin Hs Hne Hp. revert tm missing log.
  induction configs as [|c0 rest IH]; intros tm missing log; [contradiction|].
  inversion Hnd as [|x xs Hx Hxs]; subst.
  destruct Hin as [->|Hin].
  - cbn [registerTables]. rewrite Hs.
    apply String.eqb_neq in Hne. rewrite Hne, Hp.
    destruct (n <=? 0) eqn:En; [discriminate|].
    intros H. split; [apply Z.leb_gt in En; lia|].
    rewrite (registerTables_assoc_other _ _ _ _ _ _ _ _ _ Hx H).
    apply assoc_mapSet_same.
  - cbn [registerTables].
    destruct (env (envKey c0)) as [s0|]; [|now apply IH].
    destruct (s0 =? "")%string; [now apply IH|].
    destruct (parseInt s0) as [n0|]; [|discriminate].
    destruct (n0 <=? 0); [discriminate|]. now apply IH.
Qed.

(** X1.  Round trip from the environment to [getTableId]: when
    [initialize] succeeds on a fresh manager, every known table whose
    variable is set to a non-empty string resolves to the number that
    [parseInt] reads from that string, and [getTableInfo] returns its
    name, that number and its description. *)
Theorem getTableId_after_initialize (env : Env) (c : TableConfig)
    (s : string) (n : Z) :
  init_result (initialize env newAllowListManager) = Ok tt ->
  In c TABLE_CONFIGS ->
  env (envKey c) = Some s -> s <> "" -> parseInt s = Some n ->
  let m := init_manager (initialize env newAllowListManager) in
  0 < n
  /\ getTableId m (name c) = Ok n
  /\ getTableInfo m (name c) = Ok (Some (mkTableInfo (name c) n (description c))).
Proof.
  intros Hok Hin Hs Hne Hp. cbv zeta.
  revert Hok. unfold initialize. cbn [initialized newAllowListManager tableMap].
  destruct (registerTables env TABLE_CONFIGS [] [] []) as [[r tm] log] eqn:E.
  destruct r as [missing|e]; [|discriminate].
  destruct tm as [|b tm]; [discriminate|]. intros _.
  cbn [init_manager].
  destruct (registerTables_assoc env TABLE_CONFIGS [] [] [] _ _ _ c s n
              TABLE_CONFIGS_names_NoDup Hin Hs Hne Hp E) as [Hpos Hassoc].
  split; [exact Hpos|].
  assert (Hallowed : isTableAllowed {| tableMap := b :: tm; initialized := true |}
                       (name c) = Ok true).
  { unfold isTableAllowed. cbn [initialized negb tableMap].
    rewrite (TABLE_CONFIGS_allowed c Hin). unfold has. now rewrite Hassoc. }
  unfold getTableId, getTableInfo. rewrite Hallowed. cbn [tableMap].
  rewrite Hassoc. split; reflexivity.
Qed.

Lemma getTableId_after_initialize_witness :
  getTableId demoAllowList "finished_goods" = Ok 747400.
Proof.
  apply (getTableId_after_initialize demoEnv
           (mkTableConfig "finished_goods" "TABLE_ID_FINISHED_GOODS"
              "Finished product inventory tracking") "747400" 747400).
  - reflexivity.
  - simpl. do 4 right. left. reflexivity.
  - reflexivity.
  - discriminate.
  - reflexivity.
Defined.

(** The keys of the table map after the loop: those it had, then the
    names of the configured tables in configuration order. *)
Lemma mapSet_new_key {A : Type} (k : string) (v : A) (m : list (string * A)) :
  ~ In k (map fst m) -> mapSet k v m = app m [(k, v)].
Proof.
  induction m as [|[k0 v0] m IH]; intros Hnot; simpl; [reflexivity|].
  destruct (k0 =? k)%string eqn:E.
  - apply String.eqb_eq in E. exfalso. apply Hnot. now left.
  - f_equal. apply IH. intros Hin. apply Hnot. now right.
Qed.

Lemma registerTables_keys env configs tm missing log missing' tm' log' :
  NoDup (app (map fst tm) (map name configs)) ->
  registerTables env configs tm missing log = (Ok missing', tm', log') ->
  map fst tm'
  = app (map fst tm)
        (map name (filter (fun c => negb (isMissing (env (envKey c)))) configs)).
Proof.
  revert tm missing log.
  induction configs as [|c rest IH]; intros tm missing log Hnd; simpl.
  - intros H. inversion H. now rewrite app_nil_r.
  - assert (Hnd' : NoDup (app (map fst tm) (map name rest))).
    { simpl in Hnd. now apply NoDup_remove_1 in Hnd. }
    unfold isMissing at 1.
    destruct (env (envKey c)) as [s|]; cbn [negb]; [|now apply IH].
    destruct (s =? "")%string; cbn [negb]; [now apply IH|].
    destruct (parseInt s) as [n|]; [|discriminate].
    destruct (n <=? 0); [discriminate|].
    assert (Hfresh : ~ In (name c) (map fst tm)).
    { simpl in Hnd. apply NoDup_remove_2 in Hnd. intros Hin. apply Hnd.
      apply in_or_app. now left. }
    rewrite (mapSet_new_key _ _ _ Hfresh).
    intros H.
    assert (Hnd2 : NoDup (app (map fst (app tm [(name c,
                                  mkTableInfo (name c) n (description c))]))
                              (map name rest))).
    { rewrite map_app. cbn [map fst]. rewrite <- app_assoc. exact Hnd. }
    rewrite (IH _ _ _ Hnd2 H).
    rewrite map_app. cbn [map fst app]. now rewrite <- app_assoc.
Qed.

(** Every entry of the table map is filed under its own name. *)
Lemma registerTables_names env configs tm missing log missing' tm' log' :
  Forall (fun kv => ti_name (snd kv) = fst kv) tm ->
  registerTables env configs tm missing log = (Ok missing', tm', log') ->
  Forall (fun kv => ti_name (snd kv) = fst kv) tm'.
Proof.
  revert tm missing log.
  induction configs as [|c rest IH]; intros tm missing log Htm; simpl.
  - intros H. now inversion H; subst.
  - destruct (env (envKey c)) as [s|]; [|now apply IH].
    destruct (s =? "")%string; [now apply IH|].
    destruct (parseInt s) as [n|]; [|discriminate].
    destruct (n <=? 0); [discriminate|].
    apply IH. clear IH. induction Htm as [|[k v] l Hk Hl IHl]; simpl.
    + constructor; [reflexivity | constructor].
    + destruct (k =? name c)%string; constructor; auto.
Qed.

(** X2.  After a successful [initialize] on a fresh manager,
    [getAllowedTables] (and with it the [list_tables] tool) lists exactly
    the tables whose variable is set and non-empty, in the order of
    [TABLE_CONFIGS], and [getTableCount] is their number; no call is
    made. *)
Theorem list_tables_after_initialize (env : Env) (remote_tr : list Call) :
  init_result (initialize env newAllowListManager) = Ok tt ->
  let m := init_manager (initialize env newAllowListManager) in
  let configured :=
    filter (fun c => negb (isMissing (env (envKey c)))) TABLE_CONFIGS in
  exists tables,
    getAllowedTables m = Ok tables
    /\ map ti_name tables = map name configured
    /\ getTableCount m = List.length configured
    /\ catching (handleListTables m) remote_tr
       = (Success (DTables tables) None, remote_tr).
Proof.
  intros Hok. cbv zeta. revert Hok.
  unfold initialize. cbn [initialized newAllowListManager tableMap].
  destruct (registerTables env TABLE_CONFIGS [] [] []) as [[r tm] log] eqn:E.
  destruct r as [missing|e]; [|discriminate].
  destruct tm as [|b tm]; [discriminate|]. intros _.
  cbn [init_manager].
  pose proof (registerTables_keys env TABLE_CONFIGS [] [] [] _ _ _
                TABLE_CONFIGS_names_NoDup E) as Hkeys.
  cbn [map app] in Hkeys.
  assert (Hinfo : Forall (fun kv => ti_name (snd kv) = fst kv) (b :: tm)).
  { eapply registerTables_names; [|exact E]. constructor. }
  exists (map snd (b :: tm)).
  split; [reflexivity|]. split.
  - rewrite <- Hkeys. rewrite map_map.
    change (fst b :: map fst tm) with (map fst (b :: tm)).
    now apply map_ext_Forall.
  - split.
    + unfold getTableCount. cbn [tableMap].
      rewrite <- (length_map fst (b :: tm)).
      change (map fst (b :: tm)) with (fst b :: map fst tm).
      rewrite Hkeys. now rewrite length_map.
    + reflexivity.
Qed.

Lemma list_tables_after_initialize_witness :
  exists tables,
    getAllowedTables demoAllowList = Ok tables
    /\ map ti_name tables
       = [ "manufacturing_orders"; "mo_parts_usage"; "finished_goods";
           "fg_parts_mapping"; "parts" ].
Proof.
  destruct (list_tables_after_initialize demoEnv [] eq_refl)
    as [tables [Hget [Hnames _]]].
  exists tables. split; [exact Hget | exact Hnames].
Defined.

(** X3.  A manager that was never initialized, or that a failed
    [initialize] left behind, serves nothing: [isTableAllowed] throws,
    every operation of the table service throws the same
    not-initialized error for any table name, known or not, without any
    outbound call, and the tool handlers report it as [INTERNAL_ERROR]. *)
Theorem uninitialized_manager_serves_nothing
    (stringifyLength : list BaserowRecord -> Z) (al : AllowListManager)
    (remote : Remote) (tableName : string) (filters : option JSObject)
    (page size : option Z) (recordId : Z) (data : JSObject) (tr : list Call) :
  (al = newAllowListManager
   \/ exists env,
        al = init_manager (initialize env newAllowListManager)
        /\ isThrow (init_result (initialize env newAllowListManager)) = true) ->
  let notReady := GenericError "AllowListManager not initialized" in
  isTableAllowed al tableName = Throw notReady
  /\ TablesService.readRecords al remote tableName filters page size tr
     = (Throw notReady, tr)
  /\ TablesService.getRecord al remote tableName recordId tr = (Throw notReady, tr)
  /\ TablesService.createRecord al remote tableName data tr = (Throw notReady, tr)
  /\ TablesService.updateRecord al remote tableName recordId data tr
     = (Throw notReady, tr)
  /\ TablesService.deleteRecord al remote tableName recordId tr
     = (Throw notReady, tr)
  /\ TablesService.listAllowedTables al = Throw notReady
  /\ catching (handleRead stringifyLength al remote tableName filters page size) tr
     = (ErrorResponse "INTERNAL_ERROR" "AllowListManager not initialized" None, tr).
Proof.
  intros Hal notReady.
  assert (Hinit : initialized al = false).
  { destruct Hal as [->|[env [-> Hthrow]]]; [reflexivity|].
    revert Hthrow. unfold initialize.
    cbn [initialized newAllowListManager tableMap].
    destruct (registerTables env TABLE_CONFIGS [] [] []) as [[r tm] log].
    destruct r as [missing|e]; [|reflexivity].
    destruct tm; [reflexivity | discriminate]. }
  assert (Hallowed : isTableAllowed al tableName = Throw notReady).
  { unfold isTableAllowed. now rewrite Hinit. }
  split; [exact Hallowed|].
  unfold catching, handleRead, TablesService.readRecords, TablesService.getRecord,
    TablesService.createRecord, TablesService.updateRecord,
    TablesService.deleteRecord, TablesService.listAllowedTables,
    getAllowedTables, TablesService.validateAndGetTableId, bind, lift.
  rewrite Hallowed, Hinit. repeat split.
Qed.

Lemma uninitialized_manager_serves_nothing_witness :
  TablesService.readRecords
    (init_manager (initialize (envWith "TABLE_ID_PARTS" "abc") newAllowListManager))
    demoRemote "parts" None None None []
  = (Throw (GenericError "AllowListManager not initialized"), []).
Proof.
  apply (uninitialized_manager_serves_nothing (fun _ => 0)
           (init_manager (initialize (envWith "TABLE_ID_PARTS" "abc")
                            newAllowListManager))
           demoRemote "parts" None None None 1 [] []).
  right. exists (envWith "TABLE_ID_PARTS" "abc"). split; reflexivity.
Defined.

(** X4.  [initialize] runs once: after a successful initialization, a
    further call succeeds, logs a single warning and leaves the manager as
    it is, whatever the environment holds by then, so no table becomes or
    ceases to be reachable. *)
Theorem initialize_twice (env1 env2 : Env) :
  init_result (initialize env1 newAllowListManager) = Ok tt ->
  let m := init_manager (initialize env1 newAllowListManager) in
  init_result (initialize env2 m) = Ok tt
  /\ init_manager (initialize env2 m) = m
  /\ init_log (initialize env2 m) = [(LWarn, "AllowListManager already initialized")]
  /\ forall tableName,
       isTableAllowed (init_manager (initialize env2 m)) tableName
       = isTableAllowed m tableName.
Proof.
  intros Hok. cbv zeta.
  assert (Hinit : initialized (init_manager (initialize env1 newAllowListManager))
                  = true).
  { revert Hok. unfold initialize.
    cbn [initialized newAllowListManager tableMap].
    destruct (registerTables env1 TABLE_CONFIGS [] [] []) as [[r tm] log].
    destruct r as [missing|e]; [|discriminate].
    destruct tm; [discriminate | reflexivity]. }
  assert (Hagain : initialize env2 (init_manager (initialize env1 newAllowListManager))
                   = mkInitOutcome (Ok tt)
                       (init_manager (initialize env1 newAllowListManager))
                       [(LWarn, "AllowListManager already initialized")]).
  { unfold initialize at 1. now rewrite Hinit. }
  rewrite Hagain. repeat split.
Qed.

Lemma initialize_twice_witness :
  init_manager (initialize (envWith "TABLE_ID_PARTS" "5") demoAllowList)
  = demoAllowList.
Proof.
  apply (initialize_twice demoEnv (envWith "TABLE_ID_PARTS" "5")).
  reflexivity.
Defined.

(** ** The table service and the client, continued *)

(** X5.  On a table that validates, each primitive of the table service
    issues exactly one outbound call, whatever the store replies: a GET on
    the table's rows for [readRecords], a GET on the row for [getRecord],
    a POST on the rows carrying the data for [createRecord], a PATCH on
    the row carrying the data for [updateRecord] and a DELETE on the row
    for [deleteRecord]. *)
Theorem service_primitive_issues_one_call (al : AllowListManager)
    (remote : Remote) (tableName : string) (tableId : Z)
    (filters : option JSObject) (page size : option Z) (recordId : Z)
    (data : JSObject) (tr : list Call) :
  TablesService.validateAndGetTableId al tableName = Ok tableId ->
  issued tr (snd (TablesService.readRecords al remote tableName filters page size tr))
  = [mkCall GET (rowsPath tableId) (buildListUrl filters page size) None]
  /\ issued tr (snd (TablesService.getRecord al remote tableName recordId tr))
     = [mkCall GET (rowPath tableId recordId) [("user_field_names", "true")] None]
  /\ issued tr (snd (TablesService.createRecord al remote tableName data tr))
     = [mkCall POST (rowsPath tableId) [("user_field_names", "true")] (Some data)]
  /\ issued tr (snd (TablesService.updateRecord al remote tableName recordId data tr))
     = [mkCall PATCH (rowPath tableId recordId) [("user_field_names", "true")]
          (Some data)]
  /\ issued tr (snd (TablesService.deleteRecord al remote tableName recordId tr))
     = [mkCall DELETE (rowPath tableId recordId) [] None].
Proof.
  intros Hv.
  unfold TablesService.readRecords, TablesService.getRecord,
    TablesService.createRecord, TablesService.updateRecord,
    TablesService.deleteRecord, bind, lift.
  rewrite Hv.
  unfold BaserowClient.listRecords, BaserowClient.getRecord,
    BaserowClient.createRecord, BaserowClient.updateRecord,
    BaserowClient.deleteRecord, request, push. cbn [snd].
  repeat split; apply issued_app.
Qed.

Lemma service_primitive_issues_one_call_witness :
  issued [] (snd (TablesService.deleteRecord demoAllowList (failingRemote 500)
                    "parts" 9 []))
  = [mkCall DELETE (rowPath 744797 9) [] None].
Proof.
  apply (service_primitive_issues_one_call demoAllowList (failingRemote 500)
           "parts" 744797 None None None 9 [] []).
  reflexivity.
Defined.

(** X6.  What a creation is answered with, on a table that validates,
    by the outcome of its one call.  A reply with a non-2xx status whose
    body was read is answered with code [BASEROW_API_ERROR] and the status
    code and response body in the details.  A reply whose body is
    announced as JSON and does not parse is answered with code
    [CONNECTION_ERROR], its message naming the parser's complaint, and no
    details, whatever its status: the body is read before the status is
    looked at, inside the same [try] as the [fetch].  The absence of a
    reply is answered with [CONNECTION_ERROR] naming the cause.  A 2xx
    reply whose body was read is answered with success and the record the
    store returned. *)
Theorem create_failure_modes_kept_apart (al : AllowListManager)
    (remote : Remote) (table : string) (tableId : Z) (data : JSObject)
    (tr : list Call) :
  TablesService.validateAndGetTableId al table = Ok tableId ->
  let call := mkCall POST (rowsPath tableId) [("user_field_names", "true")]
                (Some data) in
  let answer := fst (catching (handleCreate al remote table data) tr) in
  (forall statusCode statusText responseText responseBody,
     recordReply remote tr call
     = Status statusCode statusText responseText responseBody ->
     answer = ErrorResponse "BASEROW_API_ERROR"
                ("Baserow API returned " ++ numberToString statusCode ++ ": "
                 ++ statusText)
                (Some (VObj [("statusCode", VNum statusCode);
                             ("response", responseBody)])))
  /\ (forall statusCode responseText cause,
        recordReply remote tr call = Unreadable statusCode responseText cause ->
        answer = ErrorResponse "CONNECTION_ERROR"
                   ("Failed to connect to Baserow API: " ++ cause) None)
  /\ (forall cause,
        recordReply remote tr call = Failed cause ->
        answer = ErrorResponse "CONNECTION_ERROR"
                   ("Failed to connect to Baserow API: " ++ cause) None)
  /\ (forall record,
        recordReply remote tr call = Replied record ->
        answer = Success (DRecord record) None).
Proof.
  intros Hv. cbv zeta.
  unfold catching, handleCreate, TablesService.createRecord, bind, lift.
  rewrite Hv. unfold BaserowClient.createRecord, request.
  repeat split; intros; rewrite H; reflexivity.
Qed.

(** A reply with status 502 whose body, announced as JSON, is an HTML
    page: the creation is answered with [CONNECTION_ERROR]. *)
Lemma create_failure_modes_kept_apart_witness :
  fst (catching (handleCreate demoAllowList brokenGatewayRemote "parts" []) [])
  = ErrorResponse "CONNECTION_ERROR"
      "Failed to connect to Baserow API: Unexpected token < in JSON at position 0"
      None.
Proof.
  destruct (create_failure_modes_kept_apart demoAllowList brokenGatewayRemote
              "parts" 744797 [] [] eq_refl) as (_ & Hunreadable & _).
  apply (Hunreadable 502 "<html>Bad Gateway</html>"
           "Unexpected token < in JSON at position 0").
  reflexivity.
Defined.

(** ** The query string of a list call *)

Lemma append_inv_head (p a b : string) : (p ++ a = p ++ b)%string -> a = b.
Proof.
  induction p as [|c p IH]; simpl; intros H; [exact H|].
  inversion H. auto.
Qed.

Lemma length_append (a b : string) :
  String.length (a ++ b) = (String.length a + String.length b)%nat.
Proof. induction a as [|c a IH]; simpl; [reflexivity | now rewrite IH]. Qed.

Lemma append_inv_tail (a b t : string) : (a ++ t = b ++ t)%string -> a = b.
Proof.
  revert b. induction a as [|c a IH]; intros b H.
  - destruct b as [|d b]; [reflexivity|].
    apply (f_equal String.length) in H. simpl in H.
    rewrite length_append in H. lia.
  - destruct b as [|d b].
    + apply (f_equal String.length) in H. simpl in H.
      rewrite length_append in H. lia.
    + simpl in H. inversion H. f_equal. now apply IH.
Qed.

(** Distinct fields and types give distinct parameter names. *)
Lemma filter_key_inj (f1 f2 t : string) :
  ("filter__" ++ f1 ++ "__" ++ t = "filter__" ++ f2 ++ "__" ++ t)%string ->
  f1 = f2.
Proof.
  intros H. apply append_inv_head in H.
  apply (append_inv_tail f1 f2 ("__" ++ t)). exact H.
Qed.

Lemma fold_listFilters_other (k : string) (fs : JSObject)
    (q : list (string * string)) :
  (forall f, In f (map fst fs) -> ("filter__" ++ f ++ "__equal" =? k)%string = false) ->
  assoc k (fold_left
             (fun q fv =>
                match snd fv with
                | VNull | VUndef => q
                | value => mapSet ("filter__" ++ fst fv ++ "__equal")
                                  (toStr value) q
                end) fs q)
  = assoc k q.
Proof.
  revert q. induction fs as [|[f v] fs IH]; intros q Hk; cbn [fold_left];
    [reflexivity|].
  rewrite IH by (intros f0 Hf0; apply Hk; now right).
  assert (Hf : ("filter__" ++ f ++ "__equal" =? k)%string = false)
    by (apply Hk; now left).
  cbn [snd fst]. destruct v; try reflexivity; now apply assoc_mapSet_other.
Qed.

Lemma fold_listFilters_in (f : string) (v : JSValue) (fs : JSObject)
    (q : list (string * string)) :
  NoDup (map fst fs) -> In (f, v) fs ->
  assoc ("filter__" ++ f ++ "__equal")
        (fold_left
           (fun q fv =>
              match snd fv with
              | VNull | VUndef => q
              | value => mapSet ("filter__" ++ fst fv ++ "__equal")
                                (toStr value) q
              end) fs q)
  = match v with
    | VNull | VUndef => assoc ("filter__" ++ f ++ "__equal") q
    | _ => Some (toStr v)
    end.
Proof.
  revert q. induction fs as [|[f0 v0] fs IH]; intros q Hnd Hin; [contradiction|].
  inversion Hnd as [|x xs Hx Hxs]; subst. cbn [fold_left].
  destruct Hin as [Heq|Hin].
  - inversion Heq; subst f0 v0. clear Heq.
    rewrite fold_listFilters_other.
    + cbn [snd fst]. destruct v; try reflexivity; apply assoc_mapSet_same.
    + intros f1 Hf1. apply String.eqb_neq. intros E.
      apply (filter_key_inj f1 f "equal") in E. subst f1. contradiction.
  - rewrite (IH _ Hxs Hin).
    assert (Hne : ("filter__" ++ f0 ++ "__equal" =? "filter__" ++ f ++ "__equal")%string
                  = false).
    { apply String.eqb_neq. intros E.
      apply (filter_key_inj f0 f "equal") in E. subst f0.
      apply Hx. change f with (fst (f, v)). now apply in_map. }
    cbn [snd fst].
    destruct v; try reflexivity;
      destruct v0; try reflexivity; now apply assoc_mapSet_other.
Qed.

(** X7.  The query string the client builds for a list call, for filters
    with distinct field names: it always asks for user field names; it
    carries [page] and [size] exactly when they are given; every filter
    whose value is not [null] appears as [filter__<field>__equal] with the
    value printed by [String]; a [null] filter is dropped; and no filter
    can overwrite [page], [size] or [user_field_names]. *)
Theorem buildListUrl_parameters (fs : JSObject) (page size : option Z) :
  NoDup (map fst fs) ->
  let q := buildListUrl (Some fs) page size in
  assoc "user_field_names" q = Some "true"
  /\ assoc "page" q = option_map numberToString page
  /\ assoc "size" q = option_map numberToString size
  /\ forall f v,
       In (f, v) fs ->
       assoc ("filter__" ++ f ++ "__equal") q
       = match v with
         | VNull | VUndef => None
         | _ => Some (toStr v)
         end.
Proof.
  intros Hnd. cbv zeta. unfold buildListUrl.
  set (q1 := match page with
             | Some p => mapSet "page" (numberToString p) []
             | None => []
             end).
  set (q2 := match size with
             | Some s => mapSet "size" (numberToString s) q1
             | None => q1
             end).
  assert (Hpage : assoc "page" q2 = option_map numberToString page).
  { unfold q2, q1. destruct size, page; reflexivity. }
  assert (Hsize : assoc "size" q2 = option_map numberToString size).
  { unfold q2, q1. destruct size, page; reflexivity. }
  split; [apply assoc_mapSet_same|].
  split; [rewrite assoc_mapSet_other by reflexivity;
          rewrite fold_listFilters_other; [exact Hpage | reflexivity]|].
  split; [rewrite assoc_mapSet_other by reflexivity;
          rewrite fold_listFilters_other; [exact Hsize | reflexivity]|].
  intros f v Hin.
  rewrite assoc_mapSet_other by reflexivity.
  rewrite (fold_listFilters_in f v fs q2 Hnd Hin).
  assert (Hnone : assoc ("filter__" ++ f ++ "__equal") q2 = None).
  { unfold q2, q1. destruct size, page; reflexivity. }
  rewrite Hnone. reflexivity.
Qed.

Lemma buildListUrl_parameters_witness :
  buildListUrl (Some [("BOM ID", VStr "RM-PWD-Stevia"); ("Archived", VNull);
                      ("Qty", VNum 7)]) (Some 1) (Some 10)
  = [ ("page", "1"); ("size", "10");
      ("filter__BOM ID__equal", "RM-PWD-Stevia"); ("filter__Qty__equal", "7");
      ("user_field_names", "true") ]
  /\ assoc "filter__Archived__equal"
       (buildListUrl (Some [("BOM ID", VStr "RM-PWD-Stevia"); ("Archived", VNull);
                            ("Qty", VNum 7)]) (Some 1) (Some 10))
     = None.
Proof.
  split; [reflexivity|].
  destruct (buildListUrl_parameters
              [("BOM ID", VStr "RM-PWD-Stevia"); ("Archived", VNull);
               ("Qty", VNum 7)] (Some 1) (Some 10))
    as [_ [_ [_ H]]].
  - repeat (constructor; [simpl; intuition discriminate|]). constructor.
  - apply (H "Archived" VNull). simpl. right. left. reflexivity.
Defined.

(** ** read, continued *)

(** X8.  For every [read] on a table that validates, whatever [size] is
    given: the one call issued asks for [min(size ?? 100, 25)] records,
    which is 25 when [size] is omitted and [size] itself when it is at
    most 25; and when the store replies, the response carries the store's
    [count], [next] and [previous] in its metadata, the requested page
    (1 when omitted) and that effective size, and its records are the
    shaped records of the reply. *)
Theorem handleRead_effective_size
    (stringifyLength : list BaserowRecord -> Z) (al : AllowListManager)
    (remote : Remote) (table : string) (tableId : Z)
    (filters : option JSObject) (page size : option Z) (tr : list Call) :
  TablesService.validateAndGetTableId al table = Ok tableId ->
  let effective := Z.min (match size with Some s => s | None => 100 end) 25 in
  let call := mkCall GET (rowsPath tableId)
                (buildListUrl filters page (Some effective)) None in
  let run := handleRead stringifyLength al remote table filters page size tr in
  effective <= 25
  /\ (size = None -> effective = 25)
  /\ (forall s, size = Some s -> s <= 25 -> effective = s)
  /\ issued tr (snd run) = [call]
  /\ forall reply,
       listReply remote tr call = Replied reply ->
       fst run
       = Ok (Success (DList (simplifyResponse stringifyLength reply))
               (Some {| md_count := count reply;
                        md_page := match page with Some p => p | None => 1 end;
                        md_size := effective;
                        md_next := next reply;
                        md_previous := previous reply |})).
Proof.
  intros Hv. cbv zeta.
  split; [lia|]. split; [intros ->; reflexivity|].
  split; [intros s -> Hs; lia|].
  unfold handleRead, TablesService.readRecords, bind, lift. rewrite Hv.
  unfold BaserowClient.listRecords, request, MAX_RECORDS_PER_PAGE.
  change (Z.of_nat 25) with 25.
  split.
  - destruct (listReply remote tr _); cbn [snd]; apply issued_app.
  - intros reply Hreply. rewrite Hreply. reflexivity.
Qed.

Lemma handleRead_effective_size_witness :
  issued [] (snd (handleRead (fun _ => 0) demoAllowList demoRemote "parts" None
                    None None []))
  = [mkCall GET (rowsPath 744797) (buildListUrl None None (Some 25)) None].
Proof.
  apply (handleRead_effective_size (fun _ => 0) demoAllowList demoRemote "parts"
           744797 None None None []).
  reflexivity.
Defined.

(** ** Operations that only read *)

Lemma addsOnly_ret {A : Type} (P : Call -> Prop) (a : A) : addsOnly P (ret a).
Proof. intros tr. exists []. now rewrite app_nil_r. Qed.

Lemma addsOnly_lift {A : Type} (P : Call -> Prop) (r : Result A) :
  addsOnly P (lift r).
Proof. intros tr. exists []. now rewrite app_nil_r. Qed.

Lemma addsOnly_bind {A B : Type} (P : Call -> Prop) (m : M A) (k : A -> M B) :
  addsOnly P m -> (forall a, addsOnly P (k a)) -> addsOnly P (bind m k).
Proof.
  intros Hm Hk tr. unfold bind.
  destruct (Hm tr) as [a1 [E1 F1]].
  destruct (m tr) as [[a|e] tr1]; cbn [snd] in E1; subst tr1.
  - destruct (Hk a (app tr a1)) as [a2 [E2 F2]].
    exists (app a1 a2). rewrite E2, app_assoc. split; [reflexivity|].
    apply Forall_app. auto.
  - exists a1. auto.
Qed.

Lemma addsOnly_request {A : Type} (P : Call -> Prop)
    (reply : list Call -> Call -> HttpOutcome A) (c : Call) :
  P c -> addsOnly P (request reply c).
Proof.
  intros Hc tr. exists [c]. split; [reflexivity | now constructor].
Qed.

Lemma addsOnly_readRecords al remote tableName filters page size :
  addsOnly isGet
    (TablesService.readRecords al remote tableName filters page size).
Proof.
  unfold TablesService.readRecords.
  apply addsOnly_bind; [apply addsOnly_lift|].
  intros tableId. apply addsOnly_request. reflexivity.
Qed.

Lemma addsOnly_loadParts toLowerCase al remote fuel page idx :
  addsOnly isGet (loadParts toLowerCase al remote fuel page idx).
Proof.
  revert page idx. induction fuel as [|fuel IH]; intros page idx;
    cbn [loadParts]; [apply addsOnly_ret|].
  apply addsOnly_bind; [apply addsOnly_readRecords|].
  intros partsPage. apply addsOnly_bind; [apply addsOnly_lift|].
  intros idx'. destruct (next partsPage); [|apply addsOnly_ret].
  destruct (results partsPage); [apply addsOnly_ret | apply IH].
Qed.

(** The handlers [handleListTables], [handleRead], [handleGetBOM] and
    [handleSearchParts] issue GET calls only, whatever their arguments,
    the allow list and the replies of the store. *)
Lemma reading_handlers_only_get
    (toLowerCase : string -> string) (parseFloat : string -> JSValue)
    (stringifyLength : list BaserowRecord -> Z) (al : AllowListManager)
    (remote : Remote) :
  addsOnly isGet (handleListTables al)
  /\ (forall table filters page size,
        addsOnly isGet (handleRead stringifyLength al remote table filters page size))
  /\ (forall fgId isku, addsOnly isGet (handleGetBOM parseFloat al remote fgId isku))
  /\ (forall searchTerms,
        addsOnly isGet (handleSearchParts toLowerCase al remote searchTerms)).
Proof.
  assert (HgetBomFor : forall fgId isku,
             addsOnly isGet (getBomFor parseFloat al remote fgId isku)).
  { intros fgId isku. unfold getBomFor.
    destruct fgId as [f|]; [|apply addsOnly_ret].
    destruct (f =? 0); [apply addsOnly_ret|].
    apply addsOnly_bind; [apply addsOnly_readRecords|].
    intros allMappings. destruct (fold_left _ _ _). apply addsOnly_ret. }
  split; [|split; [|split]].
  - unfold handleListTables. apply addsOnly_bind; [apply addsOnly_lift|].
    intros tables. apply addsOnly_ret.
  - intros table filters page size. unfold handleRead.
    apply addsOnly_bind; [apply addsOnly_readRecords|].
    intros response. apply addsOnly_ret.
  - intros fgId isku. unfold handleGetBOM.
    destruct (negb (truthyNum fgId) && truthyStr isku); [|apply HgetBomFor].
    apply addsOnly_bind; [apply addsOnly_readRecords|].
    intros fgResponse. destruct (results fgResponse);
      [apply addsOnly_ret | apply HgetBomFor].
  - intros searchTerms. unfold handleSearchParts.
    apply addsOnly_bind; [apply addsOnly_loadParts|].
    intros idx. destruct (fold_left _ _ _). apply addsOnly_ret.
Qed.

Lemma catching_trace (m : M MCPResponse) (tr : list Call) :
  snd (catching m tr) = snd (m tr).
Proof. unfold catching. now destruct (m tr) as [[r|e] tr']. Qed.

(** X9.  The tools [list_tables], [read], [get_bom] and [search_parts],
    called with arguments that carry no [command] of their own, never
    write: whatever else the arguments hold, whatever the allow list and
    the replies of the store, every call they issue is a GET.  The
    condition on the arguments is needed: [buildRequest] copies the
    arguments over the command it derived from the tool name, so the tool
    [read] called with [{command: "delete", table: "parts", record_id: 5}]
    is validated and routed as a deletion and issues a DELETE. *)
Theorem reading_tools_only_get
    (zodMessages : JSObject -> string)
    (handleBatchCreate : string -> list JSObject -> M MCPResponse)
    (toLowerCase : string -> string) (parseFloat : string -> JSValue)
    (stringifyLength : list BaserowRecord -> Z) (al : AllowListManager)
    (remote : Remote) (toolName : string) (args : JSValue) (tr : list Call) :
  In toolName ["list_tables"; "read"; "get_bom"; "search_parts"] ->
  NoDup (map fst (spreadOf args)) ->
  has "command" (spreadOf args) = false ->
  (exists added,
     snd (handleToolCall zodMessages handleBatchCreate toLowerCase parseFloat
            stringifyLength al remote toolName args tr) = app tr added
     /\ Forall isGet added)
  /\ map method
       (snd (handleToolCall zodMessages handleBatchCreate toLowerCase
               parseFloat stringifyLength demoAllowList remote "read"
               (VObj [("command", VStr "delete"); ("table", VStr "parts");
                      ("record_id", VNum 5)]) []))
     = [DELETE].
Proof.
  intros Htool Hnd Hcmd. split.
  2:{ rewrite handleToolCall_run.
      change (buildRequest "read"
                (VObj [("command", VStr "delete"); ("table", VStr "parts");
                       ("record_id", VNum 5)]))
        with (@Ok JSObject [("command", VStr "delete"); ("table", VStr "parts");
                            ("record_id", VNum 5)]).
      cbv beta iota.
      change (parseMCPRequest [("command", VStr "delete");
                               ("table", VStr "parts"); ("record_id", VNum 5)])
        with (Some (DeleteCommand "parts" 5)).
      cbn [routeRequest]. rewrite catching_trace.
      unfold handleDelete, TablesService.deleteRecord, bind, lift.
      change (TablesService.validateAndGetTableId demoAllowList "parts")
        with (@Ok Z 744797).
      unfold BaserowClient.deleteRecord, request.
      now destruct (deleteReply remote _ _). }
  rewrite handleToolCall_run.
  assert (Hbuild : buildRequest toolName args
                   = Ok (requestObject (VStr toolName) args)).
  { unfold buildRequest. cbn [In] in Htool.
    destruct Htool as [<-|[<-|[<-|[<-|[]]]]]; reflexivity. }
  rewrite Hbuild.
  destruct (parseMCPRequest (requestObject (VStr toolName) args))
    as [validated|] eqn:Ep.
  2:{ exists []. rewrite app_nil_r. split; [reflexivity | constructor]. }
  destruct (parseMCPRequest_sound _ validated Ep) as [Hcommand _].
  rewrite (requestObject_props _ _ "command" Hnd Hcmd) in Hcommand.
  cbn [String.eqb Ascii.eqb Bool.eqb] in Hcommand.
  injection Hcommand as Hcommand.
  destruct (reading_handlers_only_get toLowerCase parseFloat stringifyLength
              al remote) as (Hlist & Hread & Hbom & Hsearch).
  rewrite catching_trace. cbn [In] in Htool.
  destruct validated; cbn [commandOf] in Hcommand;
    (destruct Htool as [<-|[<-|[<-|[<-|[]]]]]; try discriminate Hcommand);
    cbn [routeRequest].
  - apply Hlist.
  - apply Hread.
  - apply Hbom.
  - apply Hsearch.
Qed.

(** The tool [read] on the parts table of the demo store, with a filter
    and a size: one GET. *)
Lemma reading_tools_only_get_witness :
  exists added,
    snd (handleToolCall noMessages noBatch asciiLower (fun _ => VNum 0)
           (fun _ => 0) demoAllowList demoRemote "read"
           (VObj [("table", VStr "parts"); ("size", VNum 5)]) [])
    = app [] added
    /\ Forall isGet added.
Proof.
  apply (reading_tools_only_get noMessages noBatch asciiLower (fun _ => VNum 0)
           (fun _ => 0) demoAllowList demoRemote "read"
           (VObj [("table", VStr "parts"); ("size", VNum 5)]) []).
  - right. now left.
  - repeat constructor; cbn; intuition discriminate.
  - reflexivity.
Defined.

(** ** get_bom, continued *)

(** X10.  The two refusals of [get_bom].  With neither a (non-zero)
    [fg_id] nor a non-empty [isku] it answers [INVALID_REQUEST] without
    any call.  With an [isku] alone whose lookup in the Finished Goods
    table returns no record it answers [FG_NOT_FOUND], naming the iSKU,
    after that one lookup (an exact-match filter on [iSKU], page 1, size
    1) and without reading the mappings. *)
Theorem get_bom_refusals
    (parseFloat : string -> JSValue) (al : AllowListManager) (remote : Remote)
    (tr : list Call) :
  (forall fgId isku,
     truthyNum fgId = false -> truthyStr isku = false ->
     handleGetBOM parseFloat al remote fgId isku tr
     = (Ok (ErrorResponse "INVALID_REQUEST"
              "Either fg_id or isku must be provided" None), tr))
  /\ (forall fgId isku fgTable fgResponse,
        truthyNum fgId = false -> isku <> "" ->
        TablesService.validateAndGetTableId al "finished_goods" = Ok fgTable ->
        let lookup := mkCall GET (rowsPath fgTable)
                        [("page", "1"); ("size", "1");
                         ("filter__iSKU__equal", isku);
                         ("user_field_names", "true")] None in
        listReply remote tr lookup = Replied fgResponse ->
        results fgResponse = [] ->
        handleGetBOM parseFloat al remote fgId (Some isku) tr
        = (Ok (ErrorResponse "FG_NOT_FOUND"
                 ("Finished Good with iSKU " ++ dquote ++ isku ++ dquote
                  ++ " not found") None),
           app tr [lookup])).
Proof.
  split.
  - intros fgId isku Hfg Hisku. unfold handleGetBOM.
    rewrite Hfg, Hisku. cbn [negb andb]. unfold getBomFor.
    destruct fgId as [f|]; [|reflexivity].
    cbn [truthyNum] in Hfg. apply negb_false_iff in Hfg. now rewrite Hfg.
  - intros fgId isku fgTable fgResponse Hfg Hisku Hv lookup Hreply Hres.
    unfold handleGetBOM. rewrite Hfg. cbn [negb andb truthyStr strOr].
    apply String.eqb_neq in Hisku. rewrite Hisku. cbn [negb].
    unfold TablesService.readRecords, bind, lift. rewrite Hv.
    unfold BaserowClient.listRecords, request.
    change (buildListUrl (Some [("iSKU", VStr isku)]) (Some 1) (Some 1))
      with [("page", "1"); ("size", "1"); ("filter__iSKU__equal", isku);
            ("user_field_names", "true")].
    fold lookup. rewrite Hreply, Hres. reflexivity.
Qed.

(** ** process_bpr, continued *)

(** X11.  When the Manufacturing Order table validates and the lookup by
    MO number returns no record, [process_bpr] answers [MO_NOT_FOUND]
    naming the number, having issued that one lookup (an exact-match
    filter on [MO Number], page 1, size 1) and nothing else. *)
Theorem process_bpr_mo_not_found
    (toLowerCase : string -> string) (al : AllowListManager) (remote : Remote)
    (moNumber completionDate grossProduced : string)
    (partsUsage : list PartsUsageItem) (enteredBy : option string)
    (tr : list Call) (moTable : Z) (moResponse : BaserowListResponse) :
  TablesService.validateAndGetTableId al "manufacturing_orders" = Ok moTable ->
  let lookup := mkCall GET (rowsPath moTable)
                  [("page", "1"); ("size", "1");
                   ("filter__MO Number__equal", moNumber);
                   ("user_field_names", "true")] None in
  listReply remote tr lookup = Replied moResponse ->
  results moResponse = [] ->
  handleProcessBPR toLowerCase al remote moNumber completionDate grossProduced
    partsUsage enteredBy tr
  = (Ok (ErrorResponse "MO_NOT_FOUND"
           ("Manufacturing Order " ++ moNumber ++ " not found") None),
     app tr [lookup]).
Proof.
  intros Hv lookup Hreply Hres.
  unfold handleProcessBPR, TablesService.readRecords, bind, lift. rewrite Hv.
  unfold BaserowClient.listRecords, request.
  change (buildListUrl (Some [("MO Number", VStr moNumber)]) (Some 1) (Some 1))
    with [("page", "1"); ("size", "1"); ("filter__MO Number__equal", moNumber);
          ("user_field_names", "true")].
  fold lookup. rewrite Hreply, Hres. reflexivity.
Qed.

Lemma process_bpr_mo_not_found_witness :
  fst (handleProcessBPR asciiLower demoAllowList
         {| listReply := fun _ _ => Replied (listOf []);
            recordReply := recordReply demoRemote;
            deleteReply := deleteReply demoRemote |}
         "MO-404" "2025-01-02" "1" demoPartsUsage None [])
  = Ok (ErrorResponse "MO_NOT_FOUND" "Manufacturing Order MO-404 not found" None).
Proof.
  rewrite (process_bpr_mo_not_found asciiLower demoAllowList
             {| listReply := fun _ _ => Replied (listOf []);
                recordReply := recordReply demoRemote;
                deleteReply := deleteReply demoRemote |}
             "MO-404" "2025-01-02" "1" demoPartsUsage None [] 749415
             (listOf []) eq_refl eq_refl eq_refl).
  reflexivity.
Defined.

(** Any run of the creation loop: it issues creations only, at most one
    per item, and one per item when it ends normally. *)
Lemma createUsageRecords_any al remote moId moNumber enteredBy bomLookup
    lotLookup labelLookup partsUsage usageRecords tr :
  exists creates,
    snd (createUsageRecords al remote moId moNumber enteredBy bomLookup lotLookup
           labelLookup partsUsage usageRecords tr) = app tr creates
    /\ Forall (fun c => method c = POST) creates
    /\ (List.length creates <= List.length partsUsage)%nat
    /\ (isThrow (fst (createUsageRecords al remote moId moNumber enteredBy
                        bomLookup lotLookup labelLookup partsUsage usageRecords tr))
        = false ->
        List.length creates = List.length partsUsage).
Proof.
  revert usageRecords tr.
  induction partsUsage as [|part rest IH]; intros usageRecords tr;
    cbn [createUsageRecords].
  - exists []. rewrite app_nil_r. repeat split; auto.
  - destruct (assocZ (bom_id part) bomLookup) as [bomInfo|].
    + unfold TablesService.createRecord, bind, lift.
      destruct (TablesService.validateAndGetTableId al "mo_parts_usage")
        as [tableId|e].
      * unfold BaserowClient.createRecord, request.
        set (c := mkCall POST _ _ _).
        destruct (recordReply remote tr c) as [record| | |].
        -- destruct (IH (push usageRecords record) (push tr c))
             as [creates [E [F [L Hok]]]].
           exists (c :: creates). rewrite E. unfold push.
           rewrite <- app_assoc. split; [reflexivity|].
           split; [constructor; [reflexivity | exact F]|].
           split; [simpl; lia|]. intros H. simpl. now rewrite (Hok H).
        -- exists [c]. cbn [fst snd isThrow]. split; [reflexivity|].
           split; [repeat constructor|]. split; [simpl; lia | discriminate].
        -- exists [c]. cbn [fst snd isThrow]. split; [reflexivity|].
           split; [repeat constructor|]. split; [simpl; lia | discriminate].
        -- exists [c]. cbn [fst snd isThrow]. split; [reflexivity|].
           split; [repeat constructor|]. split; [simpl; lia | discriminate].
      * exists []. cbn [fst snd isThrow]. rewrite app_nil_r.
        split; [reflexivity|]. split; [constructor|].
        split; [simpl; lia | discriminate].
    + exists []. cbn [fst snd isThrow throw]. rewrite app_nil_r.
      split; [reflexivity|]. split; [constructor|].
      split; [simpl; lia | discriminate].
Qed.

Lemma addsOnly_loadLotLookup al remote partsUsage :
  addsOnly isGet (loadLotLookup al remote partsUsage).
Proof.
  unfold loadLotLookup. destruct (lotNumbersToLookup partsUsage);
    [apply addsOnly_ret|].
  apply addsOnly_bind; [apply addsOnly_readRecords|].
  intros r. apply addsOnly_ret.
Qed.

Lemma addsOnly_loadLabelLookup toLowerCase al remote partsUsage :
  addsOnly isGet (loadLabelLookup toLowerCase al remote partsUsage).
Proof.
  unfold loadLabelLookup. destruct (labelCodesToLookup partsUsage);
    [apply addsOnly_ret|].
  apply addsOnly_bind; [apply addsOnly_readRecords|].
  intros r. apply addsOnly_lift.
Qed.

(** The part of [handleProcessBPR] that follows the BOM check. *)
Lemma process_bpr_tail_shape toLowerCase al remote moId moNumber completionDate
    grossProduced enteredBy bomLookup partsUsage tr :
  let tail :=
    (lotLookup <- loadLotLookup al remote partsUsage ;;
     labelLookup <- loadLabelLookup toLowerCase al remote partsUsage ;;
     usageRecords <- createUsageRecords al remote moId moNumber enteredBy
                       bomLookup lotLookup labelLookup partsUsage [] ;;
     _ <- TablesService.updateRecord al remote "manufacturing_orders" moId
            (updateData completionDate grossProduced) ;;
     ret (successResponse
            (DBpr {| bpr_success := true;
                     mo_id := moId;
                     mo_number := moNumber;
                     parts_usage_created := List.length usageRecords;
                     parts_usage_ids := map id usageRecords;
                     mo_updated := true;
                     summary :=
                       "BPR processed: MO " ++ moNumber ++ " closed with "
                       ++ numberToString (Z.of_nat (List.length usageRecords))
                       ++ " parts usage records. Gross produced: "
                       ++ grossProduced |}) None)) in
  exists reads creates updates,
    snd (tail tr) = app tr (app reads (app creates updates))
    /\ Forall isGet reads
    /\ Forall (fun c => method c = POST) creates
    /\ (List.length creates <= List.length partsUsage)%nat
    /\ (updates = []
        \/ (exists u, updates = [u] /\ method u = PATCH)
           /\ List.length creates = List.length partsUsage)
    /\ (forall response,
          fst (tail tr) = Ok response ->
          updates <> [] /\ exists data, response = Success data None).
Proof.
  cbv zeta. unfold bind.
  destruct (addsOnly_loadLotLookup al remote partsUsage tr) as [r1 [E1 G1]].
  destruct (loadLotLookup al remote partsUsage tr) as [[lotLookup|e] t1];
    cbn [snd] in E1; subst t1.
  2:{ exists r1, [], []. cbn [fst snd app]. rewrite app_nil_r.
      split; [reflexivity|]. split; [exact G1|]. split; [constructor|].
      split; [simpl; lia|]. split; [now left | intros ? Hf; discriminate Hf]. }
  destruct (addsOnly_loadLabelLookup toLowerCase al remote partsUsage (app tr r1))
    as [r2 [E2 G2]].
  destruct (loadLabelLookup toLowerCase al remote partsUsage (app tr r1))
    as [[labelLookup|e] t2]; cbn [snd] in E2; subst t2.
  2:{ exists (app r1 r2), [], []. cbn [fst snd app].
      rewrite app_nil_r, app_assoc.
      split; [reflexivity|]. split; [apply Forall_app; auto|].
      split; [constructor|].
      split; [simpl; lia|]. split; [now left | intros ? Hf; discriminate Hf]. }
  destruct (createUsageRecords_any al remote moId moNumber enteredBy bomLookup
              lotLookup labelLookup partsUsage [] (app (app tr r1) r2))
    as [creates [E3 [F3 [L3 H3]]]].
  destruct (createUsageRecords al remote moId moNumber enteredBy bomLookup
              lotLookup labelLookup partsUsage [] (app (app tr r1) r2))
    as [[usageRecords|e] t3]; cbn [fst snd isThrow] in E3, H3; subst t3.
  2:{ exists (app r1 r2), creates, []. cbn [fst snd].
      rewrite app_nil_r, <- !app_assoc.
      split; [reflexivity|]. split; [apply Forall_app; auto|].
      split; [exact F3|].
      split; [exact L3|]. split; [now left | intros ? Hf; discriminate Hf]. }
  specialize (H3 eq_refl).
  unfold TablesService.updateRecord, bind, lift.
  destruct (TablesService.validateAndGetTableId al "manufacturing_orders")
    as [moTable|e].
  - unfold BaserowClient.updateRecord, request.
    set (u := mkCall PATCH _ _ _).
    exists (app r1 r2), creates, [u].
    assert (Hshape : push (app (app (app tr r1) r2) creates) u
                     = app tr (app (app r1 r2) (app creates [u]))).
    { unfold push. now rewrite <- !app_assoc. }
    destruct (recordReply remote _ u) as [record| | |]; cbn [fst snd ret];
      (split; [exact Hshape|]; split; [apply Forall_app; auto|];
       split; [exact F3|]; split; [exact L3|]; split;
       [right; split; [exists u; split; reflexivity | exact H3]|]).
    + intros response Hr. inversion Hr. split; [discriminate | eauto].
    + intros ? Hf. discriminate Hf.
    + intros ? Hf. discriminate Hf.
    + intros ? Hf. discriminate Hf.
  - exists (app r1 r2), creates, []. cbn [fst snd].
    rewrite app_nil_r, <- !app_assoc.
    split; [reflexivity|]. split; [apply Forall_app; auto|].
    split; [exact F3|].
    split; [exact L3|]. split; [now left | intros ? Hf; discriminate Hf].
Qed.

(** The shape of every run of [handleProcessBPR], failures included:
    reads, then creations, then at most one update. *)
Lemma process_bpr_run_shape
    (toLowerCase : string -> string) (al : AllowListManager) (remote : Remote)
    (moNumber completionDate grossProduced : string)
    (partsUsage : list PartsUsageItem) (enteredBy : option string)
    (tr : list Call) :
  let run := handleProcessBPR toLowerCase al remote moNumber completionDate
               grossProduced partsUsage enteredBy tr in
  exists reads creates updates,
    issued tr (snd run) = app reads (app creates updates)
    /\ Forall isGet reads
    /\ Forall (fun c => method c = POST) creates
    /\ (List.length creates <= List.length partsUsage)%nat
    /\ (updates = []
        \/ (exists u, updates = [u] /\ method u = PATCH)
           /\ List.length creates = List.length partsUsage)
    /\ (forall data metadata,
          fst run = Ok (Success data metadata) -> updates <> [])
    /\ (forall code message details,
          fst run = Ok (ErrorResponse code message details) ->
          creates = [] /\ updates = []).
Proof.
  cbv zeta. unfold handleProcessBPR. unfold bind.
  destruct (addsOnly_readRecords al remote "manufacturing_orders"
              (Some [("MO Number", VStr moNumber)]) (Some 1) (Some 1) tr)
    as [r0 [E0 G0]].
  destruct (TablesService.readRecords al remote "manufacturing_orders" _ _ _ tr)
    as [[moResponse|e] t0]; cbn [snd] in E0; subst t0.
  2:{ exists r0, [], []. cbn [fst snd app]. rewrite app_nil_r, issued_app.
      split; [reflexivity|]. split; [exact G0|]. split; [constructor|].
      split; [simpl; lia|]. split; [now left|].
      split; intros; discriminate. }
  destruct (results moResponse) as [|mo others].
  { exists r0, [], []. cbn [fst snd app ret]. rewrite app_nil_r, issued_app.
    split; [reflexivity|]. split; [exact G0|]. split; [constructor|].
    split; [simpl; lia|]. split; [now left|].
    split; [intros ? ? Hf; discriminate Hf | auto]. }
  destruct (addsOnly_readRecords al remote "fg_parts_mapping" (Some [])
              (Some 1) (Some 200) (app tr r0)) as [r1 [E1 G1]].
  destruct (TablesService.readRecords al remote "fg_parts_mapping" _ _ _ (app tr r0))
    as [[mappingsResponse|e] t1]; cbn [snd] in E1; subst t1.
  2:{ exists (app r0 r1), [], []. cbn [fst snd app].
      rewrite app_nil_r, <- app_assoc, issued_app.
      split; [reflexivity|]. split; [apply Forall_app; auto|].
      split; [constructor|].
      split; [simpl; lia|]. split; [now left|].
      split; intros; discriminate. }
  destruct (missingBomIds _ _) as [|m0 ms].
  2:{ exists (app r0 r1), [], []. cbn [fst snd app ret].
      rewrite app_nil_r, <- app_assoc, issued_app.
      split; [reflexivity|]. split; [apply Forall_app; auto|].
      split; [constructor|].
      split; [simpl; lia|]. split; [now left|].
      split; [intros ? ? Hf; discriminate Hf | auto]. }
  destruct (process_bpr_tail_shape toLowerCase al remote (id mo) moNumber
              completionDate grossProduced enteredBy
              (buildBomLookup (map bom_id partsUsage) (results mappingsResponse))
              partsUsage (app (app tr r0) r1))
    as [reads [creates [updates [E [G [F [L [U S]]]]]]]].
  cbv zeta in E, S. unfold bind in E, S.
  exists (app (app r0 r1) reads), creates, updates.
  rewrite E, <- !app_assoc, issued_app. rewrite <- !app_assoc in S.
  split; [reflexivity|].
  split; [apply Forall_app; split; [exact G0 | apply Forall_app; auto]|].
  split; [exact F|]. split; [exact L|]. split; [exact U|].
  split.
  - intros data metadata Hrun. destruct (S _ Hrun) as [Hu _]. exact Hu.
  - intros code message details Hrun. destruct (S _ Hrun) as [_ [data Hd]].
    discriminate Hd.
Qed.

(** The codes [handleError] answers with. *)
Lemma handleError_codes (e : JSError) :
  exists code message details,
    handleError e = ErrorResponse code message details
    /\ In code ["VALIDATION_ERROR"; "UNAUTHORIZED_TABLE_ACCESS";
                "BASEROW_API_ERROR"; "CONNECTION_ERROR"; "INTERNAL_ERROR"].
Proof.
  destruct e; cbn; do 3 eexists; (split; [reflexivity|]); cbn; auto 6.
Qed.

(** X12.  The write discipline of [process_bpr], for every request and
    every behaviour of the store, failures included: the calls of a run
    are reads, then creations, then at most one update; there are never
    more creations than parts-usage items; the update of the Manufacturing
    Order is issued only when a creation has been issued for every item,
    and it is the last call; a run that answers with success has issued
    the update; a run that the handler itself ends with an error response,
    which at the tool is an answer with code [MO_NOT_FOUND] or
    [BOM_NOT_FOUND], has written nothing.  An answer with another error
    code gives no such assurance: on a store that refuses the second of
    three creations the tool answers [BASEROW_API_ERROR] after two reads
    and two creations, the first of which the store accepted. *)
Theorem process_bpr_write_discipline
    (toLowerCase : string -> string) (al : AllowListManager) (remote : Remote)
    (moNumber completionDate grossProduced : string)
    (partsUsage : list PartsUsageItem) (enteredBy : option string)
    (tr : list Call) :
  let handler := handleProcessBPR toLowerCase al remote moNumber completionDate
                   grossProduced partsUsage enteredBy in
  (exists reads creates updates,
     issued tr (snd (handler tr)) = app reads (app creates updates)
     /\ Forall isGet reads
     /\ Forall (fun c => method c = POST) creates
     /\ (List.length creates <= List.length partsUsage)%nat
     /\ (updates = []
         \/ (exists u, updates = [u] /\ method u = PATCH)
            /\ List.length creates = List.length partsUsage)
     /\ (forall data metadata,
           fst (handler tr) = Ok (Success data metadata) -> updates <> [])
     /\ (forall code message details,
           fst (handler tr) = Ok (ErrorResponse code message details) ->
           creates = [] /\ updates = [])
     /\ (forall code message details,
           fst (catching handler tr) = ErrorResponse code message details ->
           code = "MO_NOT_FOUND"%string \/ code = "BOM_NOT_FOUND"%string ->
           creates = [] /\ updates = []))
  /\ (let failed := catching (handleProcessBPR asciiLower demoAllowList
                                flakyRemote "MO-1001" "2025-01-02" "120"
                                demoPartsUsage None) [] in
      fst failed
      = ErrorResponse "BASEROW_API_ERROR" "Baserow API returned 400: Bad Request"
          (Some (VObj [("statusCode", VNum 400); ("response", VNull)]))
      /\ map method (snd failed) = [GET; GET; POST; POST]
      /\ exists record,
           recordReply flakyRemote (firstn 2 (snd failed))
             (nth 2 (snd failed) (mkCall GET "" [] None))
           = Replied record).
Proof.
  cbv zeta. split; [|split; [|split]; [| |eexists]; vm_compute; reflexivity].
  destruct (process_bpr_run_shape toLowerCase al remote moNumber completionDate
              grossProduced partsUsage enteredBy tr)
    as (reads & creates & updates & E & G & F & L & U & Hs & He).
  exists reads, creates, updates.
  repeat (split; [assumption|]).
  intros code message details Hanswer Hcode. unfold catching in Hanswer.
  destruct (handleProcessBPR toLowerCase al remote moNumber completionDate
              grossProduced partsUsage enteredBy tr) as [[response|e] t].
  - cbn [fst] in *. subst response. now apply (He code message details).
  - cbn [fst] in Hanswer.
    destruct (handleError_codes e) as (c & m & d & Hc & Hin).
    rewrite Hc in Hanswer. injection Hanswer as -> _ _.
    cbn [In] in Hin. exfalso.
    destruct Hcode as [->| ->];
      repeat (destruct Hin as [Hin|Hin]; [discriminate Hin|]); exact Hin.
Qed.

(** X13.  Identifiers given directly take precedence and suppress the
    lookups.  If every item that names a lot number also carries a lot
    identifier, the lots table is not read; likewise for label codes and
    the labels table.  And in the record created for any item, a non-zero
    [lot_id] is what is linked under 'RM Lot Inventory Used', whatever
    [lot_number] and the lookup table say; without a [lot_id], the link is
    the looked-up identifier of [lot_number], and the key is absent when
    there is none.  The same holds for [label_id], [label_code] and
    'Label Inventory Used'. *)
Theorem direct_ids_take_precedence
    (toLowerCase : string -> string) (al : AllowListManager) (remote : Remote)
    (partsUsage : list PartsUsageItem) (tr : list Call) :
  ((forall p, In p partsUsage ->
      truthyStr (lot_number p) = true -> truthyNum (lot_id p) = true) ->
   loadLotLookup al remote partsUsage tr = (Ok [], tr))
  /\ ((forall p, In p partsUsage ->
         truthyStr (label_code p) = true -> truthyNum (label_id p) = true) ->
      loadLabelLookup toLowerCase al remote partsUsage tr = (Ok [], tr))
  /\ forall moId moNumber enteredBy lotLookup labelLookup bomInfo p,
       assoc "RM Lot Inventory Used"
         (usageData moId moNumber enteredBy lotLookup labelLookup bomInfo p)
       = option_map (fun l => VArr [VNum l])
           (match resolveId (lot_id p) (lot_number p) lotLookup with
            | Some l => if l =? 0 then None else Some l
            | None => None
            end)
       /\ assoc "Label Inventory Used"
            (usageData moId moNumber enteredBy lotLookup labelLookup bomInfo p)
          = option_map (fun l => VArr [VNum l])
              (match resolveId (label_id p) (label_code p) labelLookup with
               | Some l => if l =? 0 then None else Some l
               | None => None
               end)
       /\ (truthyNum (lot_id p) = true ->
           resolveId (lot_id p) (lot_number p) lotLookup = lot_id p)
       /\ (truthyNum (label_id p) = true ->
           resolveId (label_id p) (label_code p) labelLookup = label_id p).
Proof.
  assert (Hnone : forall (sel : PartsUsageItem -> option string)
                         (dir : PartsUsageItem -> option Z)
                         (items : list PartsUsageItem),
             (forall p, In p items ->
                truthyStr (sel p) = true -> truthyNum (dir p) = true) ->
             flat_map (fun p => if truthyStr (sel p) && negb (truthyNum (dir p))
                                then match sel p with Some s => [s] | None => [] end
                                else []) items = []).
  { intros sel dir items H. induction items as [|p ps IH]; [reflexivity|].
    cbn [flat_map]. rewrite IH by (intros q Hq; apply H; now right).
    destruct (truthyStr (sel p)) eqn:E; [|reflexivity].
    rewrite (H p (or_introl eq_refl) E). reflexivity. }
  split.
  { intros Hlots. unfold loadLotLookup, lotNumbersToLookup.
    now rewrite (Hnone lot_number lot_id partsUsage Hlots). }
  split.
  { intros Hlabels. unfold loadLabelLookup, labelCodesToLookup.
    now rewrite (Hnone label_code label_id partsUsage Hlabels). }
  intros moId moNumber enteredBy lotLookup labelLookup bomInfo p.
  unfold usageData. cbn [app assoc String.eqb Ascii.eqb Bool.eqb].
  set (rl := resolveId (lot_id p) (lot_number p) lotLookup).
  set (rb := resolveId (label_id p) (label_code p) labelLookup).
  split; [|split; [|split]].
  - destruct rl as [l|]; cbn [truthyNum].
    + destruct (l =? 0); cbn [negb app assoc String.eqb Ascii.eqb Bool.eqb option_map].
      * destruct rb as [b|]; cbn [truthyNum];
          [destruct (b =? 0); cbn [negb app assoc String.eqb Ascii.eqb Bool.eqb]|];
          destruct (waste p); reflexivity.
      * reflexivity.
    + cbn [app option_map].
      destruct rb as [b|]; cbn [truthyNum];
        [destruct (b =? 0); cbn [negb app assoc String.eqb Ascii.eqb Bool.eqb]|];
        destruct (waste p); reflexivity.
  - assert (Hskip : forall tail : JSObject,
               assoc "Label Inventory Used"
                 (app match rl with
                      | Some l => if truthyNum rl
                                  then [("RM Lot Inventory Used", VArr [VNum l])]
                                  else []
                      | None => []
                      end tail)
               = assoc "Label Inventory Used" tail).
    { intros tail. destruct rl as [l|]; [|reflexivity].
      destruct (truthyNum (Some l)); reflexivity. }
    rewrite Hskip.
    destruct rb as [b|]; cbn [truthyNum].
    + destruct (b =? 0); cbn [negb app assoc String.eqb Ascii.eqb Bool.eqb option_map];
        [destruct (waste p); reflexivity | reflexivity].
    + cbn [app option_map]. destruct (waste p); reflexivity.
  - intros Hd. unfold rl, resolveId, numOr. now rewrite Hd.
  - intros Hd. unfold rb, resolveId, numOr. now rewrite Hd.
Qed.

(** Two items name a lot and a label and carry their identifiers too:
    neither table is read, although the request names lots and labels, and
    the record of the first item links lot 77 and label 31 where the
    lookup tables hold other identifiers for [LOT-A] and [LBL-8oz]. *)
Lemma direct_ids_take_precedence_witness :
  map lot_number directPartsUsage = [Some "LOT-A"; Some "LOT-B"; None]
  /\ loadLotLookup demoAllowList demoRemote directPartsUsage [] = (Ok [], [])
  /\ loadLabelLookup asciiLower demoAllowList demoRemote directPartsUsage []
     = (Ok [], [])
  /\ assoc "RM Lot Inventory Used"
       (usageData 501 "MO-1001" None [("LOT-A", 900)] [("LBL-8oz", 901)]
          (mkBomInfo (VNum 301) (VNum 201) (VStr "RM-PWD-Stevia"))
          (nth 0 directPartsUsage (demoUsage 0 0)))
     = Some (VArr [VNum 77])
  /\ assoc "Label Inventory Used"
       (usageData 501 "MO-1001" None [("LOT-A", 900)] [("LBL-8oz", 901)]
          (mkBomInfo (VNum 301) (VNum 201) (VStr "RM-PWD-Stevia"))
          (nth 0 directPartsUsage (demoUsage 0 0)))
     = Some (VArr [VNum 31]).
Proof.
  destruct (direct_ids_take_precedence asciiLower demoAllowList demoRemote
              directPartsUsage []) as (Hlots & Hlabels & Hlink).
  split; [reflexivity|]. split; [|split].
  - apply Hlots. intros p Hp. simpl in Hp.
    repeat (destruct Hp as [<-|Hp]; [cbn; try discriminate; reflexivity|]).
    contradiction.
  - apply Hlabels. intros p Hp. simpl in Hp.
    repeat (destruct Hp as [<-|Hp]; [cbn; try discriminate; reflexivity|]).
    contradiction.
  - destruct (Hlink 501 "MO-1001" None [("LOT-A", 900)] [("LBL-8oz", 901)]
                (mkBomInfo (VNum 301) (VNum 201) (VStr "RM-PWD-Stevia"))
                (nth 0 directPartsUsage (demoUsage 0 0)))
      as (Hlot & Hlabel & _).
    rewrite Hlot, Hlabel. split; reflexivity.
Defined.

(** X14.  The lot lookup table maps a requested lot number to the
    identifier of the last lot record, in the order the store returned
    them, whose 'Internal Lot Number' is exactly that string (case and all);
    a number that no record carries, or that was not requested, has no
    entry. *)
Theorem lot_lookup_exact_last (lotNumbers : list string)
    (lots : list BaserowRecord) (s : string) :
  assoc s (fold_left (lotLookupStep lotNumbers) lots [])
  = if includesStr lotNumbers s && negb (s =? "")%string
    then option_map id (find (hasLotNumber s) (rev lots))
    else None.
Proof.
  assert (Hgen : forall acc,
             assoc s (fold_left (lotLookupStep lotNumbers) lots acc)
             = if includesStr lotNumbers s && negb (s =? "")%string
               then match find (hasLotNumber s) (rev lots) with
                    | Some lot => Some (id lot)
                    | None => assoc s acc
                    end
               else assoc s acc).
  { induction lots as [|lot lots IH] using rev_ind; intros acc.
    - cbn. now destruct (_ && _).
    - rewrite fold_left_app, rev_app_distr. cbn [fold_left rev app find].
      unfold lotLookupStep at 1, hasLotNumber at 1.
      destruct (field lot "Internal Lot Number") as [| | | |x| |];
        try apply IH.
      destruct (x =? s)%string eqn:Ex.
      + apply String.eqb_eq in Ex. subst x.
        rewrite (andb_comm (negb _) (includesStr _ _)).
        destruct (includesStr lotNumbers s && negb _) eqn:Ec.
        * apply assoc_mapSet_same.
        * apply IH.
      + destruct (negb (x =? "")%string && includesStr lotNumbers x).
        * rewrite assoc_mapSet_other by exact Ex. apply IH.
        * apply IH. }
  rewrite Hgen. destruct (_ && _); [|reflexivity].
  now destruct (find (hasLotNumber s) (rev lots)).
Qed.

(** The terms [searchStep] reports as not found are those whose result is
    not found, in order. *)
Lemma fold_searchStep_notFound toLowerCase idx searchTerms results notFound :
  snd (fold_left (searchStep toLowerCase idx) searchTerms (results, notFound))
  = app notFound
      (filter (fun t => negb (found (searchOne toLowerCase idx t))) searchTerms).
Proof.
  revert results notFound.
  induction searchTerms as [|t ts IH]; intros results notFound;
    cbn [fold_left filter].
  - now rewrite app_nil_r.
  - unfold searchStep at 2. cbn [fst snd].
    destruct (found (searchOne toLowerCase idx t)); cbn [negb];
      rewrite IH; [reflexivity|]. unfold push. now rewrite <- app_assoc.
Qed.

Lemma searchOne_term toLowerCase idx t :
  search_term (searchOne toLowerCase idx t) = t.
Proof. unfold searchOne. now destruct (findPart toLowerCase idx t). Qed.

Lemma length_filter_split {A : Type} (f : A -> bool) (l : list A) :
  (List.length (filter f l) + List.length (filter (fun x => negb (f x)) l)
   = List.length l)%nat.
Proof.
  induction l as [|x l IH]; [reflexivity|]. cbn [filter].
  destruct (f x); cbn [negb List.length]; lia.
Qed.

(** X15.  Accounting of [search_parts].  A run that does not throw answers
    with a success whose results are one per search term, in the order of
    the terms and each carrying its term; [not_found] lists exactly the
    terms of the results that are not found, in order; [found_count] and
    the length of [not_found] add up to the number of terms; and a result
    that is not found has part identifier 0 and an empty part name. *)
Theorem search_parts_accounting
    (toLowerCase : string -> string) (al : AllowListManager) (remote : Remote)
    (searchTerms : list string) (tr : list Call) :
  isThrow (fst (handleSearchParts toLowerCase al remote searchTerms tr)) = false ->
  exists resp,
    fst (handleSearchParts toLowerCase al remote searchTerms tr)
    = Ok (Success (DSearch resp) None)
    /\ map search_term (sp_results resp) = searchTerms
    /\ not_found resp
       = map search_term (filter (fun r => negb (found r)) (sp_results resp))
    /\ (found_count resp + List.length (not_found resp)
        = List.length searchTerms)%nat
    /\ Forall (fun r => found r = false ->
                        sr_part_id r = 0 /\ sr_part_name r = ""%string)
         (sp_results resp).
Proof.
  unfold handleSearchParts, bind.
  destruct (loadParts toLowerCase al remote 50 1 [] tr) as [[idx|e] tr1];
    [|discriminate].
  intros _.
  pose proof (fold_searchStep toLowerCase idx searchTerms [] []) as Hres.
  pose proof (fold_searchStep_notFound toLowerCase idx searchTerms [] []) as Hnf.
  destruct (fold_left _ searchTerms ([], [])) as [results notFound].
  cbn [fst snd app] in Hres, Hnf. subst results notFound.
  eexists. split; [reflexivity|]. cbn [sp_results not_found found_count].
  assert (Hmap : forall l, map search_term (map (searchOne toLowerCase idx) l) = l).
  { intros l. rewrite map_map. induction l as [|t l IH]; [reflexivity|].
    cbn [map]. now rewrite searchOne_term, IH. }
  assert (Hfilter : forall l,
             map search_term
               (filter (fun r => negb (found r)) (map (searchOne toLowerCase idx) l))
             = filter (fun t => negb (found (searchOne toLowerCase idx t))) l).
  { induction l as [|t l IH]; [reflexivity|]. cbn [map filter].
    destruct (found (searchOne toLowerCase idx t)); cbn [negb map];
      [exact IH | now rewrite searchOne_term, IH]. }
  split; [apply Hmap|]. split; [now rewrite Hfilter|]. split.
  - rewrite <- Hfilter, length_map.
    rewrite <- (length_map (searchOne toLowerCase idx) searchTerms).
    apply length_filter_split.
  - apply Forall_forall. intros r Hr. apply in_map_iff in Hr.
    destruct Hr as (t & <- & _). unfold searchOne.
    destruct (findPart toLowerCase idx t); cbn; [discriminate | auto].
Qed.

Lemma search_parts_accounting_witness :
  exists resp,
    fst (handleSearchParts asciiLower demoAllowList demoRemote
           ["btl-8OZ"; "no such part"; "monk"] [])
    = Ok (Success (DSearch resp) None)
    /\ not_found resp = ["no such part"].
Proof.
  destruct (search_parts_accounting asciiLower demoAllowList demoRemote
              ["btl-8OZ"; "no such part"; "monk"] [] eq_refl)
    as (resp & Hrun & _).
  exists resp. split; [exact Hrun|].
  vm_compute in Hrun. injection Hrun as <-. reflexivity.
Defined.

(** The calls of the paging loop: pages numbered from [page] on, one list
    call each, at least one and at most [fuel]. *)
Lemma loadParts_calls toLowerCase al remote tableId fuel :
  TablesService.validateAndGetTableId al "parts" = Ok tableId ->
  forall page acc tr,
  exists k,
    (k <= fuel)%nat /\ (fuel <> 0%nat -> (1 <= k)%nat)
    /\ snd (loadParts toLowerCase al remote fuel page acc tr)
       = app tr (map (fun i => partsPageCall tableId (page + Z.of_nat i))
                   (seq 0 k)).
Proof.
  intros Hv. induction fuel as [|fuel IH]; intros page acc tr.
  - exists 0%nat. cbn. rewrite app_nil_r. repeat split; lia.
  - cbn [loadParts].
    unfold bind at 1, TablesService.readRecords, bind at 1, lift at 1.
    rewrite Hv. unfold BaserowClient.listRecords, request.
    fold (partsPageCall tableId page).
    assert (Hone : app tr (map (fun i => partsPageCall tableId (page + Z.of_nat i))
                             (seq 0 1)) = push tr (partsPageCall tableId page)).
    { cbn. now rewrite Z.add_0_r. }
    destruct (listReply remote tr (partsPageCall tableId page))
      as [partsPage | code text rtext body | code rtext cause | cause];
      try (exists 1%nat; rewrite Hone; repeat split; lia).
    unfold bind, lift.
    destruct (fold_left (indexStep toLowerCase) (results partsPage) (Ok acc))
      as [acc'|e]; [|exists 1%nat; rewrite Hone; repeat split; lia].
    destruct (match next partsPage, results partsPage with
              | Some _, _ :: _ => true
              | _, _ => false
              end); [|exists 1%nat; rewrite Hone; repeat split; lia].
    destruct (IH (page + 1) acc' (push tr (partsPageCall tableId page)))
      as (k & Hk & _ & Hs).
    exists (S k). split; [lia|]. split; [lia|].
    rewrite Hs. unfold push. rewrite <- app_assoc. f_equal.
    cbn [seq map app]. rewrite Z.add_0_r. f_equal.
    rewrite <- seq_shift, map_map. apply map_ext. intros i. f_equal. lia.
Qed.

(** X16.  The paging of [search_parts].  With the parts table configured,
    every run reads that table and nothing else: pages 1, 2, ..., k of it,
    in this order, 200 rows a page and without filters, for some k between
    1 and 50, whatever the store answers; no other call is made. *)
Theorem search_parts_paging
    (toLowerCase : string -> string) (al : AllowListManager) (remote : Remote)
    (searchTerms : list string) (tr : list Call) (tableId : Z) :
  TablesService.validateAndGetTableId al "parts" = Ok tableId ->
  exists k,
    (1 <= k <= 50)%nat
    /\ issued tr (snd (handleSearchParts toLowerCase al remote searchTerms tr))
       = map (fun page => partsPageCall tableId (Z.of_nat page)) (seq 1 k).
Proof.
  intros Hv.
  destruct (loadParts_calls toLowerCase al remote tableId 50 Hv 1 [] tr)
    as (k & Hk & Hk1 & Hs).
  exists k. split; [lia|].
  assert (Hsnd : snd (handleSearchParts toLowerCase al remote searchTerms tr)
                 = snd (loadParts toLowerCase al remote 50 1 [] tr)).
  { unfold handleSearchParts, bind.
    destruct (loadParts toLowerCase al remote 50 1 [] tr) as [[idx|e] tr1];
      [|reflexivity].
    now destruct (fold_left _ searchTerms ([], [])). }
  rewrite Hsnd, Hs, issued_app.
  rewrite <- seq_shift, map_map. apply map_ext. intros i. f_equal. lia.
Qed.

Lemma search_parts_paging_witness :
  exists k,
    (1 <= k <= 50)%nat
    /\ issued [] (snd (handleSearchParts asciiLower demoAllowList demoRemote
                         ["monk"] []))
       = map (fun page => partsPageCall 744797 (Z.of_nat page)) (seq 1 k).
Proof.
  apply (search_parts_paging asciiLower demoAllowList demoRemote ["monk"] []
           744797).
  reflexivity.
Defined.

Lemma simplifyItem_idempotent (item : JSValue) :
  simplifyItem (simplifyItem item) = simplifyItem item.
Proof.
  unfold simplifyItem. destruct (isObjectWithId item) eqn:E.
  - reflexivity.
  - now rewrite E.
Qed.

Lemma simplifyField_idempotent (key : string) (value : JSValue) :
  simplifyField key (simplifyField key value) = simplifyField key value.
Proof.
  unfold simplifyField at 2 3. destruct value as [| | | | |items|]; try reflexivity.
  destruct (includesStr FIELDS_TO_SIMPLIFY key) eqn:Ekey.
  - destruct items as [|firstItem rest]; [unfold simplifyField; now rewrite Ekey|].
    destruct (List.length (firstItem :: rest) <=? 3)%nat eqn:Elen; [|reflexivity].
    unfold simplifyField. rewrite Ekey. cbn [map].
    change (List.length (simplifyItem firstItem :: map simplifyItem rest))
      with (List.length (map simplifyItem (firstItem :: rest))).
    rewrite length_map, Elen.
    cbn [map]. rewrite simplifyItem_idempotent, map_map. do 2 f_equal.
    apply map_ext. intros a. apply simplifyItem_idempotent.
  - unfold simplifyField. now rewrite Ekey.
Qed.

(** X17.  [simplifyRecord] is idempotent, and its result is bounded: under
    a name of [FIELDS_TO_SIMPLIFY] a simplified record never carries an
    array of more than three entries, and every object entry with an [id]
    in such an array has exactly the keys [id] and [value]. *)
Theorem simplifyRecord_idempotent_bounded (record : BaserowRecord) :
  simplifyRecord (simplifyRecord record) = simplifyRecord record
  /\ Forall (fun kv =>
               includesStr FIELDS_TO_SIMPLIFY (fst kv) = true ->
               forall items, snd kv = VArr items ->
                 (List.length items <= 3)%nat
                 /\ Forall (fun item =>
                              isObjectWithId item = true ->
                              exists i v, item = VObj [("id", i); ("value", v)])
                      items)
       (fields (simplifyRecord record)).
Proof.
  split.
  - unfold simplifyRecord. cbn [id order fields]. f_equal.
    induction (fields record) as [|[k v] fs IH]; [reflexivity|].
    cbn [filter fst]. destruct (isCopiedKey k) eqn:Ek; [|exact IH].
    cbn [map filter fst snd]. rewrite Ek. cbn [map fst snd].
    now rewrite simplifyField_idempotent, IH.
  - unfold simplifyRecord. cbn [fields]. apply Forall_map.
    apply Forall_forall. intros [k v] _. cbn [fst snd]. intros Hk items Hv.
    unfold simplifyField in Hv. destruct v as [| | | | |vs|]; try discriminate.
    rewrite Hk in Hv. destruct vs as [|firstItem rest].
    { injection Hv as <-. split; [cbn; lia | constructor]. }
    destruct (List.length (firstItem :: rest) <=? 3)%nat eqn:Elen;
      [|discriminate].
    injection Hv as <-.
    change (simplifyItem firstItem :: map simplifyItem rest)
      with (map simplifyItem (firstItem :: rest)).
    rewrite length_map. split; [now apply Nat.leb_le|].
    apply Forall_map, Forall_forall. intros item _. unfold simplifyItem.
    destruct (isObjectWithId item) eqn:E; [eauto | now rewrite E].
Qed.

(** *** The worker's workflow *)

Lemma worker_request_Ok {A : Type} (reply : list Call -> Call -> HttpOutcome A)
    (c : Call) tr a tr' :
  Worker.request reply c tr = (Ok a, tr') ->
  reply tr c = Replied a /\ tr' = push tr c.
Proof.
  unfold Worker.request.
  destruct (reply tr c) as [payload| |code ? ?|]; try destruct (isOkStatus code);
    intros H; inversion H; auto.
Qed.

(** A successful list call of the worker adds one GET. *)
Lemma worker_listRecords_Ok remote tableId filters page size tr r tr' :
  Worker.listRecords remote tableId filters page size tr = (Ok r, tr') ->
  exists c, method c = GET /\ tr' = app tr [c].
Proof.
  unfold Worker.listRecords. intros H. apply worker_request_Ok in H.
  destruct H as [_ ->]. eexists. split; [|reflexivity]. reflexivity.
Qed.

(** A successful run of the worker's creation loop issues one POST for
    each item whose [bom_id] is in the lookup table, and nothing for the
    others. *)
Lemma worker_createUsageRecords_Ok env remote moId moNumber enteredBy bomLookup
    lotLookup labelLookup partsUsage :
  forall usageRecords tr recs tr',
  Worker.createUsageRecords env remote moId moNumber enteredBy bomLookup
    lotLookup labelLookup partsUsage usageRecords tr = (Ok recs, tr') ->
  exists creates,
    tr' = app tr creates
    /\ Forall (fun c => method c = POST) creates
    /\ List.length creates
       = List.length (filter (fun p => hasZ (bom_id p) bomLookup) partsUsage)
    /\ List.length recs = (List.length usageRecords + List.length creates)%nat.
Proof.
  induction partsUsage as [|part rest IH]; intros usageRecords tr recs tr' H;
    cbn [Worker.createUsageRecords] in H.
  - apply ret_Ok in H. destruct H as [-> ->]. exists [].
    rewrite app_nil_r. cbn. repeat split; [constructor | lia].
  - cbn [filter]. unfold hasZ at 1.
    destruct (assocZ (bom_id part) bomLookup) as [bomInfo|].
    + bind_inv H tableId tr1 Ht. apply lift_Ok in Ht. destruct Ht as [_ ->].
      bind_inv H record tr2 Hc. unfold Worker.createRecord in Hc.
      apply worker_request_Ok in Hc. destruct Hc as [_ ->].
      apply IH in H. destruct H as (creates & -> & HP & Hlen & Hrecs).
      eexists (_ :: creates). unfold push. rewrite <- app_assoc.
      split; [reflexivity|]. split; [constructor; [reflexivity | exact HP]|].
      cbn [List.length]. split; [now rewrite Hlen|].
      unfold push in Hrecs. rewrite length_app in Hrecs.
      cbn [List.length] in Hrecs. lia.
    + apply IH in H. exact H.
Qed.

Lemma filter_isMethod_other (m m' : HttpMethod) (calls : list Call) :
  m <> m' -> Forall (fun c => method c = m') calls ->
  filter (isMethod m) calls = [].
Proof.
  intros Hne H. induction H as [|c cs Hc _ IH]; [reflexivity|].
  cbn [filter]. rewrite IH. unfold isMethod. rewrite Hc.
  destruct m, m'; try reflexivity; now destruct Hne.
Qed.

Lemma filter_isMethod_same (m : HttpMethod) (calls : list Call) :
  Forall (fun c => method c = m) calls ->
  filter (isMethod m) calls = calls.
Proof.
  intros H. induction H as [|c cs Hc _ IH]; [reflexivity|].
  cbn [filter]. rewrite IH. unfold isMethod. rewrite Hc. now destruct m.
Qed.

(** X18.  The worker's [process_bpr].  When it reports success, the
    number of parts-usage records it reports, the number of identifiers it
    returns and the number of POST calls it made are all the number of
    items whose [bom_id] resolves against the mappings the store returned,
    not the number of items submitted; the order was updated by one PATCH,
    the last call of the run. *)
Theorem worker_process_bpr_counts_resolved_items
    (toLowerCase : string -> string) (env : Worker.WorkerEnv) (remote : Remote)
    (moNumber completionDate grossProduced : string)
    (partsUsage : list PartsUsageItem) (enteredBy : option string)
    (tr tr' : list Call) (data : Worker.BPRData) :
  Worker.processBPR toLowerCase env remote moNumber completionDate grossProduced
    partsUsage enteredBy tr = (Ok (Worker.WSuccess data), tr') ->
  exists mappingTable before after mappingsResponse,
    Worker.listRecords remote mappingTable None (Some 1) (Some 200) before
    = (Ok mappingsResponse, after)
    /\ Worker.getTableId env "fg_parts_mapping" = Ok mappingTable
    /\ Worker.w_parts_usage_created data
       = List.length (resolvedItems partsUsage (results mappingsResponse))
    /\ List.length (Worker.w_parts_usage_ids data)
       = List.length (resolvedItems partsUsage (results mappingsResponse))
    /\ List.length (filter (isMethod POST) (issued tr tr'))
       = List.length (resolvedItems partsUsage (results mappingsResponse))
    /\ (exists earlier u, issued tr tr' = app earlier [u] /\ method u = PATCH
                          /\ filter (isMethod PATCH) earlier = []).
Proof.
  intros H. unfold Worker.processBPR in H.
  bind_inv H moTable tr0 Hmt. apply lift_Ok in Hmt. destruct Hmt as [_ ->].
  bind_inv H moResponse tr1 Hmo.
  apply worker_listRecords_Ok in Hmo. destruct Hmo as (c0 & Hc0 & ->).
  destruct (results moResponse) as [|mo _].
  { apply ret_Ok in H. destruct H as [H _]. discriminate H. }
  bind_inv H mappingTable tr2 Hmp. apply lift_Ok in Hmp. destruct Hmp as [Hmp ->].
  bind_inv H mappingsResponse tr2 Hmaps. pose proof Hmaps as Hlist.
  apply worker_listRecords_Ok in Hmaps. destruct Hmaps as (c1 & Hc1 & ->).
  bind_inv H lotLookup tr3 Hlot.
  assert (Hlots : exists reads, tr3 = app (app (app tr [c0]) [c1]) reads
                                /\ Forall (fun c => method c = GET) reads).
  { destruct (lotNumbersToLookup partsUsage).
    - apply ret_Ok in Hlot. destruct Hlot as [_ ->]. exists [].
      now rewrite app_nil_r.
    - bind_inv Hlot lotTable tr4 Ht. apply lift_Ok in Ht. destruct Ht as [_ ->].
      bind_inv Hlot lotsResponse tr4 Hl.
      apply worker_listRecords_Ok in Hl. destruct Hl as (c & Hc & ->).
      apply ret_Ok in Hlot. destruct Hlot as [_ ->]. exists [c].
      split; [reflexivity | now constructor]. }
  destruct Hlots as (lotReads & -> & HlotReads).
  bind_inv H labelLookup tr4 Hlab.
  assert (Hlabels : exists reads,
             tr4 = app (app (app (app tr [c0]) [c1]) lotReads) reads
             /\ Forall (fun c => method c = GET) reads).
  { destruct (labelCodesToLookup partsUsage).
    - apply ret_Ok in Hlab. destruct Hlab as [_ ->]. exists [].
      now rewrite app_nil_r.
    - bind_inv Hlab labelTable tr5 Ht. apply lift_Ok in Ht. destruct Ht as [_ ->].
      bind_inv Hlab labelsResponse tr5 Hl.
      apply worker_listRecords_Ok in Hl. destruct Hl as (c & Hc & ->).
      apply lift_Ok in Hlab. destruct Hlab as [_ ->]. exists [c].
      split; [reflexivity | now constructor]. }
  destruct Hlabels as (labelReads & -> & HlabelReads).
  bind_inv H usageRecords tr5 Hcreate.
  apply worker_createUsageRecords_Ok in Hcreate.
  destruct Hcreate as (creates & -> & Hposts & Hlen & Hrecs).
  bind_inv H moTable' tr6 Hmt'. apply lift_Ok in Hmt'. destruct Hmt' as [_ ->].
  bind_inv H updated tr6 Hupd. unfold Worker.updateRecord in Hupd.
  apply worker_request_Ok in Hupd. destruct Hupd as [_ ->].
  apply ret_Ok in H. destruct H as [H ->].
  injection H as ->. cbn [Worker.w_parts_usage_created Worker.w_parts_usage_ids].
  assert (Hcount : List.length creates
                   = List.length (resolvedItems partsUsage (results mappingsResponse))).
  { rewrite Hlen. unfold resolvedItems. f_equal.
    apply filter_ext_in. intros p Hp. unfold buildBomLookup.
    rewrite hasZ_fold_bomLookupStep. cbn [hasZ assocZ orb].
    rewrite (includesZ_In (map bom_id partsUsage) (bom_id p)); [reflexivity|].
    now apply in_map. }
  exists mappingTable, (app tr [c0]), (app (app tr [c0]) [c1]), mappingsResponse.
  split; [exact Hlist|]. split; [exact Hmp|].
  cbn [List.length Nat.add] in Hrecs.
  split; [congruence|]. split; [rewrite length_map; congruence|].
  unfold push. rewrite <- !app_assoc, issued_app.
  assert (H0 : Forall (fun c => method c = GET) [c0]) by now constructor.
  assert (H1 : Forall (fun c => method c = GET) [c1]) by now constructor.
  assert (Hne1 : POST <> GET) by discriminate.
  assert (Hne2 : PATCH <> GET) by discriminate.
  assert (Hne3 : PATCH <> POST) by discriminate.
  split.
  - rewrite !filter_app.
    rewrite (filter_isMethod_other POST GET [c0] Hne1 H0),
            (filter_isMethod_other POST GET [c1] Hne1 H1),
            (filter_isMethod_other POST GET lotReads Hne1 HlotReads),
            (filter_isMethod_other POST GET labelReads Hne1 HlabelReads),
            (filter_isMethod_same POST creates Hposts).
    cbn [app filter isMethod method]. rewrite app_nil_r. exact Hcount.
  - eexists (app [c0] (app [c1] (app lotReads (app labelReads creates)))), _.
    split; [now rewrite <- !app_assoc|]. split; [reflexivity|].
    rewrite !filter_app.
    now rewrite (filter_isMethod_other PATCH GET [c0] Hne2 H0),
                (filter_isMethod_other PATCH GET [c1] Hne2 H1),
                (filter_isMethod_other PATCH GET lotReads Hne2 HlotReads),
                (filter_isMethod_other PATCH GET labelReads Hne2 HlabelReads),
                (filter_isMethod_other PATCH POST creates Hne3 Hposts).
Qed.

Lemma worker_process_bpr_counts_resolved_items_witness :
  exists data tr',
    Worker.processBPR asciiLower demoWorkerEnv demoRemote "MO-1001"
      "2025-01-02" "120" unresolvedPartsUsage None []
    = (Ok (Worker.WSuccess data), tr')
    /\ exists earlier u,
         issued [] tr' = app earlier [u] /\ method u = PATCH
         /\ filter (isMethod PATCH) earlier = [].
Proof.
  eexists. eexists. split.
  - vm_compute. reflexivity.
  - match goal with
    | |- exists earlier u, issued [] ?t = _ /\ _ =>
        destruct (worker_process_bpr_counts_resolved_items asciiLower
                    demoWorkerEnv demoRemote "MO-1001" "2025-01-02" "120"
                    unresolvedPartsUsage None [] t _
                    ltac:(vm_compute; reflexivity))
          as (_ & _ & _ & _ & _ & _ & _ & _ & _ & Hlast)
    end.
    exact Hlast.
Defined.

(** *** The filter utilities *)

Lemma stripPrefix_app (p s : string) : stripPrefix p (p ++ s) = Some s.
Proof.
  induction p as [|a p IH]; [reflexivity|]. cbn. now rewrite Ascii.eqb_refl.
Qed.

Lemma stripPrefix_sound (p s r : string) :
  stripPrefix p s = Some r -> s = (p ++ r)%string.
Proof.
  revert s. induction p as [|a p IH]; intros s H; cbn in H.
  - now injection H as ->.
  - destruct s as [|b s]; [discriminate|].
    destruct (Ascii.eqb a b) eqn:E; [|discriminate].
    apply Ascii.eqb_eq in E. subst b. cbn. f_equal. now apply IH.
Qed.

Lemma lastSplit_sound (s f t : string) :
  lastSplit s = Some (f, t) -> s = (f ++ "__" ++ t)%string /\ t <> ""%string.
Proof.
  revert f. induction s as [|c s IH]; intros f H; [discriminate|].
  cbn [lastSplit] in H. destruct (lastSplit s) as [[f' t']|].
  - injection H as <- <-. destruct (IH f' eq_refl) as [-> Ht]. now split.
  - destruct (stripPrefix "__" (String c s)) as [[|c' t']|] eqn:E;
      try discriminate.
    injection H as <- <-. apply stripPrefix_sound in E. now split.
Qed.

(** A type that is not empty, does not begin with an underscore and has
    no split of its own is found again after any field. *)
Lemma lastSplit_app (f t : string) :
  lastSplit t = None -> t <> ""%string -> stripPrefix "_" t = None ->
  lastSplit (f ++ "__" ++ t) = Some (f, t).
Proof.
  intros Hnone Hne Hus. induction f as [|c f IH].
  - change ("" ++ "__" ++ t)%string with (String "_" (String "_" t)).
    cbn [lastSplit]. rewrite Hnone.
    assert (E : stripPrefix "__" (String "_" t) = None).
    { destruct t as [|b t]; [reflexivity|].
      cbn [stripPrefix] in Hus |- *. rewrite Ascii.eqb_refl.
      destruct (Ascii.eqb "_" b); [discriminate Hus | reflexivity]. }
    rewrite E. cbn. destruct t; [now destruct Hne | reflexivity].
  - change (String c f ++ "__" ++ t)%string with (String c (f ++ "__" ++ t)).
    cbn [lastSplit]. now rewrite IH.
Qed.

Lemma list_ascii_of_string_app (a b : string) :
  list_ascii_of_string (a ++ b)
  = app (list_ascii_of_string a) (list_ascii_of_string b).
Proof. induction a as [|c a IH]; cbn; [reflexivity | now rewrite IH]. Qed.

Lemma noLineTerminator_app (a b : string) :
  noLineTerminator (a ++ b) = noLineTerminator a && noLineTerminator b.
Proof.
  unfold noLineTerminator. now rewrite list_ascii_of_string_app, forallb_app.
Qed.

(** What every supported filter type has in common. *)
Lemma valid_filter_type_shape (t : string) :
  isValidFilterType t = true ->
  lastSplit t = None /\ t <> ""%string /\ stripPrefix "_" t = None
  /\ noLineTerminator t = true.
Proof.
  intros H. apply includesStr_In in H. unfold BASEROW_FILTER_TYPES in H.
  cbn [In] in H.
  repeat (destruct H as [<-|H];
          [repeat split; (reflexivity || discriminate)|]).
  contradiction.
Qed.

(** X19.  Round trip of filter parameter names.  For a field name that is
    not empty and holds no line terminator, and a supported filter type,
    [parseFilterParam] finds in the key built by [buildFilterParam]
    exactly that field and that type, also when the field name itself
    contains or ends in underscores. *)
Theorem filter_param_round_trip (field type : string) (value : JSValue) :
  field <> ""%string ->
  noLineTerminator field = true ->
  isValidFilterType type = true ->
  parseFilterParam (fst (buildFilterParam (mkFilterConfig field type value)))
  = Some (field, type).
Proof.
  intros Hf Hnl Hvalid.
  destruct (valid_filter_type_shape type Hvalid) as (Hnone & Hne & Hus & Hnlt).
  unfold parseFilterParam, matchFilterParam, buildFilterParam.
  cbn [fst fc_field fc_type].
  rewrite (stripPrefix_app "filter__" (field ++ "__" ++ type)).
  rewrite !noLineTerminator_app, Hnl, Hnlt. cbn [andb noLineTerminator].
  change (noLineTerminator "__") with true. cbn [andb].
  rewrite (lastSplit_app field type Hnone Hne Hus).
  destruct field as [|c f]; [now destruct Hf|].
  rewrite Hvalid. cbn [negb orb String.eqb].
  destruct type; [now destruct Hne | reflexivity].
Qed.

Lemma filter_param_round_trip_witness :
  parseFilterParam
    (fst (buildFilterParam (mkFilterConfig "Lot__Number_" "not_equal" VNull)))
  = Some ("Lot__Number_"%string, "not_equal"%string).
Proof.
  apply (filter_param_round_trip "Lot__Number_" "not_equal" VNull);
    [discriminate | reflexivity | reflexivity].
Defined.

(** X20.  What [parseFilterParam] accepts.  A parameter name is parsed
    only if it is [filter__], a field, [__] and a supported filter type,
    the field being not empty; and then [buildFilterParam] on the parsed
    field and type gives the name back, whatever the value. *)
Theorem parseFilterParam_sound (paramName field type : string) :
  parseFilterParam paramName = Some (field, type) ->
  paramName = ("filter__" ++ field ++ "__" ++ type)%string
  /\ field <> ""%string
  /\ isValidFilterType type = true
  /\ forall value,
       fst (buildFilterParam (mkFilterConfig field type value)) = paramName.
Proof.
  unfold parseFilterParam, matchFilterParam. intros H.
  destruct (stripPrefix "filter__" paramName) as [rest|] eqn:Ep;
    [|discriminate].
  destruct (noLineTerminator rest); [|discriminate].
  destruct (lastSplit rest) as [[[|c f] t]|] eqn:El; try discriminate.
  destruct ((String c f =? "")%string || (t =? "")%string
            || negb (isValidFilterType t)) eqn:Ec; [discriminate|].
  injection H as <- <-.
  apply stripPrefix_sound in Ep. apply lastSplit_sound in El.
  destruct El as [-> _]. subst paramName.
  apply orb_false_elim in Ec. destruct Ec as [_ Ev].
  apply negb_false_iff in Ev.
  split; [reflexivity|]. split; [discriminate|]. split; [exact Ev|].
  reflexivity.
Qed.

Lemma parseFilterParam_sound_witness :
  isValidFilterType "date_before" = true.
Proof.
  apply (parseFilterParam_sound "filter__MFG Date__date_before" "MFG Date"
           "date_before").
  reflexivity.
Defined.

(** *** Assignment, [mergeFilters] and [cleanFilters] *)

(** Reading a key other than [__proto__] after an assignment. *)
Lemma assoc_objSet (k k0 : string) (v : JSValue) (o : PlainObject) :
  isProtoKey k = false ->
  assoc k (own (objSet k0 v o))
  = if (k0 =? k)%string then Some v else assoc k (own o).
Proof.
  intros Hk. unfold objSet.
  destruct (isProtoKey k0 && reachesProtoSetter o) eqn:E.
  - apply andb_prop in E. destruct E as [E _]. unfold isProtoKey in *.
    apply String.eqb_eq in E. subst k0. rewrite String.eqb_sym, Hk.
    now destruct v.
  - cbn [own]. destruct (k0 =? k)%string eqn:Ek.
    + apply String.eqb_eq in Ek. subst k0. apply assoc_mapSet_same.
    + now apply assoc_mapSet_other.
Qed.

(** [Object.assign(target, source)] read back at a key other than
    [__proto__]. *)
Lemma assoc_objectAssign (source : JSObject) (target : PlainObject) (k : string) :
  isProtoKey k = false ->
  NoDup (map fst source) ->
  assoc k (own (objectAssign target source))
  = match assoc k source with
    | Some v => Some v
    | None => assoc k (own target)
    end.
Proof.
  intros Hk. unfold objectAssign. revert target.
  induction source as [|[k0 v0] fs IH]; intros target Hnd; [reflexivity|].
  cbn [fold_left fst snd assoc]. inversion Hnd as [|? ? Hnot Hnd']. subst.
  rewrite (IH _ Hnd'), (assoc_objSet k k0 v0 target Hk).
  destruct (k0 =? k)%string eqn:E; [|reflexivity].
  apply String.eqb_eq in E. subst k0. now rewrite (assoc_notin k fs Hnot).
Qed.

Lemma has_app_other {A : Type} (k k0 : string) (v : A) (m : list (string * A)) :
  (k0 =? k)%string = false -> has k (app m [(k0, v)]) = has k m.
Proof.
  intros Hk. unfold has. induction m as [|[k1 v1] m IH]; cbn.
  - now rewrite Hk.
  - destruct (k1 =? k)%string; [reflexivity | exact IH].
Qed.

(** A loop that assigns the kept entries of an object, whose keys are
    distinct, to an object that shares none of them: every kept entry
    becomes an own property, in order, except an entry named [__proto__],
    which meets the setter. *)
Lemma fold_objSet_distinct (keep : JSValue -> bool) (fs : JSObject) :
  forall o : PlainObject,
  NoDup (app (map fst (own o)) (map fst fs)) ->
  (In "__proto__"%string (map fst fs) -> reachesProtoSetter o = true) ->
  own (fold_left (fun o kv => if keep (snd kv)
                              then objSet (fst kv) (snd kv) o else o) fs o)
  = app (own o)
        (filter (fun kv => keep (snd kv) && negb (isProtoKey (fst kv))) fs).
Proof.
  induction fs as [|[k0 v0] fs IH]; intros o Hnd Hreach.
  - cbn. now rewrite app_nil_r.
  - cbn [fold_left filter fst snd map] in *.
    pose proof (NoDup_remove_1 _ _ _ Hnd) as Hrest.
    pose proof (NoDup_remove_2 _ _ _ Hnd) as Hnot.
    destruct (keep v0); cbn [andb].
    + destruct (isProtoKey k0) eqn:Ep; cbn [negb].
      * unfold isProtoKey in Ep. apply String.eqb_eq in Ep. subst k0.
        assert (Hr : reachesProtoSetter o = true) by (apply Hreach; now left).
        assert (Hown : own (objSet "__proto__" v0 o) = own o).
        { unfold objSet. rewrite Hr. cbn [isProtoKey String.eqb Ascii.eqb
                                          Bool.eqb andb].
          now destruct v0. }
        rewrite IH.
        -- now rewrite Hown.
        -- now rewrite Hown.
        -- intros Hin. exfalso. apply Hnot. apply in_or_app. now right.
      * assert (Hset : objSet k0 v0 o
                       = mkPlain (app (own o) [(k0, v0)]) (proto o)).
        { unfold objSet. rewrite Ep. cbn [andb]. f_equal.
          apply mapSet_new_key. intros Hin. apply Hnot.
          apply in_or_app. now left. }
        rewrite Hset, IH; cbn [own proto].
        -- now rewrite <- app_assoc.
        -- rewrite map_app, <- app_assoc. exact Hnd.
        -- intros Hin. specialize (Hreach (or_intror Hin)).
           unfold reachesProtoSetter in *. cbn [own proto].
           unfold isProtoKey in Ep. now rewrite (has_app_other _ _ _ _ Ep).
    + apply IH; [exact Hrest|]. intros Hin. apply Hreach. now right.
Qed.

Lemma fold_left_pointwise {A B : Type} (f g : A -> B -> A) (l : list B) :
  (forall a b, f a b = g a b) ->
  forall a, fold_left f l a = fold_left g l a.
Proof.
  intros H. induction l as [|b l IH]; intros a; [reflexivity|].
  cbn [fold_left]. now rewrite H, IH.
Qed.

(** X21.  [mergeFilters] lets the later set win, except at the key
    [__proto__].  For a key other than [__proto__], reading the merge of
    some sets followed by one more set gives that last set's value if it
    has the key, and otherwise what the merge of the earlier sets gives;
    an argument that is [undefined] changes nothing, and merging nothing
    gives the empty object.  The merge of a single set has the entries of
    the set in their order except an entry named [__proto__], which
    [Object.assign] hands to the prototype setter; once a set has given
    [__proto__] the value [null], the setter is out of reach and the next
    set's [__proto__] is copied. *)
Theorem mergeFilters_later_wins (filterSets : list (option JSObject))
    (filters : JSObject) (k : string) :
  NoDup (map fst filters) ->
  (k <> "__proto__"%string ->
   assoc k (mergeFilters (app filterSets [Some filters]))
   = match assoc k filters with
     | Some v => Some v
     | None => assoc k (mergeFilters filterSets)
     end)
  /\ mergeFilters (app filterSets [None]) = mergeFilters filterSets
  /\ mergeFilters [] = []
  /\ mergeFilters [Some filters]
     = filter (fun kv => negb (isProtoKey (fst kv))) filters
  /\ mergeFilters [Some [("__proto__", VNull)]; Some [("__proto__", VStr "x")]]
     = [("__proto__", VStr "x")].
Proof.
  intros Hnd. split; [|split; [|split; [|split]]].
  - intros Hk. unfold mergeFilters. rewrite fold_left_app. cbn [fold_left].
    apply assoc_objectAssign; [|exact Hnd].
    unfold isProtoKey. rewrite String.eqb_sym. now apply String.eqb_neq.
  - unfold mergeFilters. now rewrite fold_left_app.
  - reflexivity.
  - unfold mergeFilters, objectAssign. cbn [fold_left].
    exact (fold_objSet_distinct (fun _ => true) filters emptyObject Hnd
             (fun _ => eq_refl)).
  - reflexivity.
Qed.

Lemma mergeFilters_later_wins_witness :
  assoc "Status"
    (mergeFilters [Some [("Status", VStr "open"); ("Lot", VNum 7)]; None;
                   Some [("__proto__", VStr "x"); ("Status", VNull)]])
  = Some VNull.
Proof.
  apply (mergeFilters_later_wins
           [Some [("Status", VStr "open"); ("Lot", VNum 7)]; None]
           [("__proto__", VStr "x"); ("Status", VNull)] "Status").
  - repeat constructor; cbn; intuition discriminate.
  - discriminate.
Defined.

Lemma NoDup_keys_filter {A : Type} (p : string * A -> bool)
    (m : list (string * A)) :
  NoDup (map fst m) -> NoDup (map fst (filter p m)).
Proof.
  induction m as [|kv m IH]; intros Hnd; [constructor|].
  inversion Hnd as [|? ? Hnot Hnd']. subst. cbn [filter].
  destruct (p kv); [|now apply IH]. cbn [map]. constructor; [|now apply IH].
  intros Hin. apply Hnot. apply in_map_iff in Hin.
  destruct Hin as (x & Hx & Hin). apply filter_In in Hin.
  apply in_map_iff. exists x. now split.
Qed.

Lemma filter_idempotent {A : Type} (p : A -> bool) (l : list A) :
  filter p (filter p l) = filter p l.
Proof.
  induction l as [|x l IH]; [reflexivity|]. cbn [filter].
  destruct (p x) eqn:E; [|exact IH]. cbn [filter]. now rewrite E, IH.
Qed.

(** X22.  [cleanFilters], for an object (its keys are distinct): it keeps,
    in their order, the entries whose value is not [undefined], [null]
    included, except an entry named [__proto__], which the assignment
    hands to the prototype setter and which is lost; it answers
    [undefined] instead of an empty object, so its result is empty in the
    sense of [isEmptyFilters] only when it is [undefined]; and cleaning
    twice is cleaning once. *)
Theorem cleanFilters_keeps_defined (fs : JSObject) :
  NoDup (map fst fs) ->
  cleanFilters (Some fs)
  = match filter (fun kv => isDefined (snd kv) && negb (isProtoKey (fst kv)))
                 fs with
    | [] => None
    | cleaned => Some cleaned
    end
  /\ cleanFilters (cleanFilters (Some fs)) = cleanFilters (Some fs)
  /\ (isEmptyFilters (cleanFilters (Some fs)) = true
      <-> cleanFilters (Some fs) = None)
  /\ (forall k, k <> "__proto__"%string -> assoc k fs = Some VNull ->
        exists cleaned,
          cleanFilters (Some fs) = Some cleaned
          /\ assoc k cleaned = Some VNull)
  /\ (forall cleaned, cleanFilters (Some fs) = Some cleaned ->
        ~ In "__proto__"%string (map fst cleaned)).
Proof.
  intros Hnd.
  set (kept := fun kv : string * JSValue =>
                 isDefined (snd kv) && negb (isProtoKey (fst kv))).
  assert (Hclean : forall m : JSObject, NoDup (map fst m) ->
             cleanFilters (Some m)
             = match filter kept m with
               | [] => None
               | cleaned => Some cleaned
               end).
  { intros m Hm. unfold cleanFilters.
    rewrite (fold_left_pointwise _
               (fun o kv => if isDefined (snd kv)
                            then objSet (fst kv) (snd kv) o else o));
      [|intros a [k0 v0]; now destruct v0].
    rewrite (fold_objSet_distinct isDefined m emptyObject);
      [|exact Hm | reflexivity].
    cbn [own emptyObject app]. fold kept.
    now destruct (filter kept m). }
  split; [now apply Hclean|]. rewrite (Hclean fs Hnd).
  destruct (filter kept fs) as [|kv cleaned] eqn:E.
  - split; [reflexivity|]. split; [now split|]. split; [|discriminate].
    intros k Hk Hv. exfalso.
    assert (Hin : In (k, VNull) (filter kept fs)).
    { apply filter_In. split.
      - clear -Hv. induction fs as [|[k0 v0] fs IH]; [discriminate|].
        cbn in Hv. destruct (k0 =? k)%string eqn:Ek.
        + apply String.eqb_eq in Ek. injection Hv as ->. subst. now left.
        + right. now apply IH.
      - unfold kept, isProtoKey. cbn [fst snd isDefined andb].
        apply String.eqb_neq in Hk. now rewrite Hk. }
    now rewrite E in Hin.
  - split.
    { rewrite Hclean.
      - rewrite <- E, filter_idempotent. now rewrite E.
      - rewrite <- E. now apply NoDup_keys_filter. }
    split; [split; discriminate|]. split.
    + intros k Hk Hv. eexists. split; [reflexivity|]. rewrite <- E.
      apply String.eqb_neq in Hk.
      clear -Hv Hk. induction fs as [|[k0 v0] fs IH]; [discriminate|].
      cbn in Hv. cbn [filter]. unfold kept at 1. cbn [fst snd].
      destruct (k0 =? k)%string eqn:Ek.
      * injection Hv as ->. apply String.eqb_eq in Ek. subst k0.
        unfold isProtoKey. rewrite Hk. cbn. now rewrite String.eqb_refl.
      * destruct (isDefined v0 && negb (isProtoKey k0));
          [cbn; rewrite Ek|]; now apply IH.
    + intros c Hc. injection Hc as <-. rewrite <- E. intros Hin.
      apply in_map_iff in Hin. destruct Hin as ([k0 v0] & Hk0 & Hin).
      apply filter_In in Hin. destruct Hin as [_ Hkept].
      cbn [fst] in Hk0. subst k0. unfold kept in Hkept. cbn in Hkept.
      now rewrite andb_false_r in Hkept.
Qed.

Lemma cleanFilters_keeps_defined_witness :
  cleanFilters (Some [("Lot", VUndef); ("__proto__", VStr "x");
                      ("Status", VNull); ("Qty", VNum 3)])
  = Some [("Status", VNull); ("Qty", VNum 3)].
Proof.
  exact (proj1 (cleanFilters_keeps_defined
                  [("Lot", VUndef); ("__proto__", VStr "x");
                   ("Status", VNull); ("Qty", VNum 3)]
                  ltac:(repeat constructor; cbn; intuition discriminate))).
Defined.
